(** * TERA-BOT conversation orchestration: a shallow embedding

    The development follows the Python sources under
    [functions/src/orquestador]:

    - [chroma_data_base/chroma.py]        ([ChromaService])
    - [agentes/agents/agente_examenes_salud_mental.py]
                                          ([buscar_conocimiento_con_RAG])
    - [agentes/agente_principal.py]       ([PsychologyClinicAgent])
    - [agentes/session_history/messages.py] ([Message])
    - [orquestador.py]                    ([Orquestador])

    Python methods become computations in a state-and-exception monad.
    The state pairs the receiver object ([self], or the module-level
    singleton) with a [World]: the state of the services the program
    talks to (the chromadb client, the agents SDK and its SQLite
    sessions) together with a trace of the calls made to them.  A state
    change made before an exception is raised stays visible afterwards,
    as in Python.  Calls to [logging] are not modelled.

    Strings are byte strings: a Python [str] is represented by its UTF-8
    encoding. *)

From Stdlib Require Import Ascii String ZArith.
From stdpp Require Import gmap strings list.

Open Scope string_scope.
Open Scope list_scope.

(** ** Python values *)

(** An instance of Python's [Exception] class: the name of its class and
    the text [str(e)].  This is what an [except Exception as e] clause
    catches; the exit signals that derive from [BaseException] only
    ([KeyboardInterrupt], [SystemExit], task cancellation) are outside
    the model. *)
Record PyExc : Type := mkExc { exc_type : string; exc_str : string }.

Definition ValueError (msg : string) : PyExc := mkExc "ValueError" msg.
Definition RuntimeError (msg : string) : PyExc := mkExc "RuntimeError" msg.

(** The line feed, written [\n] in the sources. *)
Definition LF : string := String "010"%char EmptyString.

(** [sep.join(parts)] *)
Definition str_join (sep : string) (parts : list string) : string :=
  String.concat sep parts.

(** Truthiness of a string ([not s] is [negb (truthy_str s)]). *)
Definition truthy_str (s : string) : bool :=
  match s with EmptyString => false | _ => true end.

(** Truthiness of an optional string such as the result of [os.getenv]. *)
Definition truthy_opt_str (o : option string) : bool :=
  match o with Some s => truthy_str s | None => false end.

(** The string held by an optional string that was tested to be true. *)
Definition the (o : option string) : string := default "" o.

(** Truthiness of a list. *)
Definition truthy_list {A} (l : list A) : bool :=
  match l with [] => false | _ => true end.

(** ** Handles of the external libraries *)

(** A metadata dictionary attached to a document. *)
Definition Metadata : Type := list (string * string).

(** [chromadb.CloudClient(api_key=, tenant=, database=)] *)
Record CloudClient : Type := mkCloudClient
  { cc_api_key : string; cc_tenant : string; cc_database : string }.

(** [embedding_functions.OpenAIEmbeddingFunction(api_key=, model_name=)] *)
Record EmbeddingFunction : Type := mkEmbeddingFunction
  { ef_api_key : string; ef_model_name : string }.

(** The [configuration={"hnsw": {...}}] argument of
    [get_or_create_collection]. *)
Record HnswConfiguration : Type := mkHnsw
  { hnsw_space : string; hnsw_ef_construction : Z }.

(** A [chromadb.Collection] handle. *)
Record Collection : Type := mkCollection
  { coll_client : CloudClient;
    coll_name : string;
    coll_embedding_function : EmbeddingFunction;
    coll_configuration : HnswConfiguration }.

(** The dictionary returned by [Collection.query].  [documents] holds one
    list of texts per query text, or is [None]; the other entries
    (metadatas, distances) are carried along but never inspected by the
    sources, so only the ids are kept beside the documents. *)
Record QueryResult : Type := mkQueryResult
  { qr_ids : list (list string);
    qr_documents : option (list (list string)) }.

(** [agents.SQLiteSession(session_id, db_path)] *)
Record SQLiteSession : Type := mkSQLiteSession
  { session_id : string; db_path : string }.

(** A [TResponseInputItem]: one record of a conversation. *)
Record Item : Type := mkItem { role : string; content : string }.

(** [agents.Agent] and the entries of its [handoffs] list: either an agent
    passed as it is, or the object built by [handoff(agent)]. *)
Inductive Agent : Type :=
  mkAgent (name : string) (model : option string) (instructions : string)
          (tools : list string) (handoffs : list HandoffEntry)
with HandoffEntry : Type :=
  | DirectAgent (a : Agent)
  | HandoffObject (h : Handoff)
with Handoff : Type :=
  | mkHandoff (target : Agent).

Definition agent_handoffs (a : Agent) : list HandoffEntry :=
  match a with mkAgent _ _ _ _ h => h end.

(** [agents.handoff(agent)] *)
Definition handoff (a : Agent) : Handoff := mkHandoff a.

(** The result of [Runner.run]; only [final_output] is read. *)
Record RunResult : Type := mkRunResult { final_output : string }.

(** ** Calls that leave the program *)

Inductive event : Type :=
  | EvCloudClient (api_key tenant database : string)
  | EvOpenAIEmbeddingFunction (api_key model_name : string)
  | EvGetOrCreateCollection (client : CloudClient) (name : string)
  | EvDeleteCollection (client : CloudClient) (name : string)
  | EvCollectionAdd (c : Collection) (ids documents : list string)
                    (metadatas : list Metadata)
  | EvCollectionUpsert (c : Collection) (documents : list string)
                       (metadatas : list Metadata) (ids : list string)
  | EvCollectionQuery (c : Collection) (query_texts : list string)
                      (n_results : Z)
  | EvSQLiteSession (session_id db_path : string)
  | EvGetItems (s : SQLiteSession)
  | EvRunnerRun (agent : Agent) (input : string)
                (session : option SQLiteSession).

(** An external operation over the service state [E]: it raises or
    returns, and leaves a new service state either way. *)
Definition Ext (E A : Type) : Type := E → (PyExc + A) * E.

(** The libraries the sources call.  Nothing is assumed about them here;
    a reference instance is given further down. *)
Class Backend (E : Type) : Type := {
  (* [os.getenv] when the modules were imported, and when a method runs *)
  os_getenv_at_import : string → option string;
  os_getenv : string → E → option string;
  chromadb_CloudClient : string → string → string → Ext E unit;
  OpenAIEmbeddingFunction : string → string → Ext E unit;
  client_get_or_create_collection :
    CloudClient → string → EmbeddingFunction → HnswConfiguration → Ext E unit;
  client_delete_collection : CloudClient → string → Ext E unit;
  collection_add :
    Collection → list string → list string → list Metadata → Ext E unit;
  collection_upsert :
    Collection → list string → list Metadata → list string → Ext E unit;
  collection_query :
    Collection → list string → Z → list string → Ext E QueryResult;
  SQLiteSession_init : string → string → Ext E unit;
  SQLiteSession_get_items : SQLiteSession → Ext E (list Item);
  Runner_run : Agent → string → option SQLiteSession → Ext E RunResult;
}.

(** ** The monad *)

Record World (E : Type) : Type := mkWorld { ext : E; trace : list event }.
Arguments mkWorld {E} _ _.
Arguments ext {E} _.
Arguments trace {E} _.

Definition M (S A : Type) : Type := S → (PyExc + A) * S.

Definition ret {S A} (a : A) : M S A := λ s, (inr a, s).

Definition raise {S A} (e : PyExc) : M S A := λ s, (inl e, s).

Definition bind {S A B} (m : M S A) (k : A → M S B) : M S B :=
  λ s, match m s with
       | (inl e, s') => (inl e, s')
       | (inr a, s') => k a s'
       end.

(** [try: body  except Exception as e: handler e] *)
Definition try_except {S A} (body : M S A) (handler : PyExc → M S A) : M S A :=
  λ s, match body s with
       | (inl e, s') => handler e s'
       | (inr a, s') => (inr a, s')
       end.

#[global] Instance M_ret {S} : MRet (M S) := λ A, @ret S A.
#[global] Instance M_bind {S} : MBind (M S) := λ A B k m, @bind S A B m k.

(** Reading and writing the receiver object. *)
Definition get_self {O W} : M (O * W) O := λ s, (inr (fst s), s).
Definition set_self {O W} (o : O) : M (O * W) unit := λ s, (inr tt, (o, snd s)).

(** A computation on the world alone, run from a method. *)
Definition liftW {O W A} (m : M W A) : M (O * W) A :=
  λ s, let '(r, w') := m (snd s) in (r, (fst s, w')).

(** An external call: [ev] is recorded, then the library runs. *)
Definition call {E A} (ev : event) (op : Ext E A) : M (World E) A :=
  λ w, let '(r, e') := op (ext w) in
       (r, mkWorld e' (trace w ++ [ev])).

(** [os.getenv(k)]: a read of the process environment. *)
Definition getenv {E} `{!Backend E} (k : string) : M (World E) (option string) :=
  λ w, (inr (os_getenv k (ext w)), w).

(** An operation of a library that is not traced (code of this
    repository whose source is not at hand). *)
Definition untraced {E A} (op : Ext E A) : M (World E) A :=
  λ w, let '(r, e') := op (ext w) in (r, mkWorld e' (trace w)).

(** The parts of the repository that the modelled files import and whose
    text is not fixed here: the system prompt (an f-string around the
    SDK's [RECOMMENDED_PROMPT_PREFIX]) and the three sibling agent
    factories of [agentes/agents].  No statement below looks inside
    them. *)
Class Siblings (E : Type) : Type := {
  SYSTEM_PROMPT : string;
  agente_de_respuestas_salud_mental : Ext E Agent;
  agente_de_salud_mental_coloquial : Ext E Agent;
  agente_de_transtornos_salud_mental : Ext E Agent;
}.

(** * Part I: the program *)

(** ** types/enums.py *)

Inductive ChromaCollections : Type :=
  | SIGSA
  | TRANSTORNOS_DE_SALUD_MENTAL
  | EXAMENES_DE_SALUD_MENTAL
  | RESPUESTAS_DE_SALUD_MENTAL
  | SALUD_MENTAL_COLLOQUIAL.

(** [ChromaCollections.X.value] *)
Definition value (c : ChromaCollections) : string :=
  match c with
  | SIGSA => "sigsa"
  | TRANSTORNOS_DE_SALUD_MENTAL => "mental_health_disorders"
  | EXAMENES_DE_SALUD_MENTAL => "mental_health_screenings"
  | RESPUESTAS_DE_SALUD_MENTAL => "mental_health_responses"
  | SALUD_MENTAL_COLLOQUIAL => "mental_health_colloquial"
  end.

(** ** chroma_data_base/chroma.py *)

Record ChromaConfig : Type := mkChromaConfig
  { database : string;
    path : string;
    openai_api_key : option string;
    openai_model : string }.

Record ChromaService : Type := mkChromaService
  { cfg : ChromaConfig;
    _client : option CloudClient;
    (* the attribute [self.collection], set by [reset_collection] only *)
    collection : option Collection }.

Module Chroma.
Section Methods.
Context {E : Type} `{!Backend E}.

#[local] Abbreviation St := (ChromaService * World E)%type.

(** [ChromaConfig()]: the dataclass defaults, read from the environment
    when the module is imported. *)
Definition ChromaConfig_new : ChromaConfig :=
  {| database := default "Development" (os_getenv_at_import "CHROMA_DATABASE_NAME");
     path := default "Development" (os_getenv_at_import "CHROMA_PATH");
     openai_api_key := os_getenv_at_import "OPENAI_API_KEY";
     openai_model :=
       default "text-embedding-3-small"
               (os_getenv_at_import "OPENAI_EMBEDDING_MODEL") |}.

Definition _validate_cfg (c : ChromaConfig) : PyExc + unit :=
  if negb (truthy_str (database c))
  then inl (ValueError "CHROMA_DATABASE no configurada.")
  else inr tt.

(** [ChromaService(cfg)]: a constructor, so there is no receiver yet. *)
Definition __init__ (cfg0 : option ChromaConfig) : PyExc + ChromaService :=
  let c := default ChromaConfig_new cfg0 in
  match _validate_cfg c with
  | inl e => inl e
  | inr _ => inr {| cfg := c; _client := None; collection := None |}
  end.

Definition _create_client : M St CloudClient :=
  try_except
    (api_key ← liftW (getenv "CHROMA_API_KEY");
     tenant_id ← liftW (getenv "CHROMA_TENANT_ID");
     database_name ← liftW (getenv "CHROMA_DATABASE_NAME");
     if negb (truthy_opt_str api_key) || negb (truthy_opt_str tenant_id)
        || negb (truthy_opt_str database_name)
     then raise (ValueError
       "CHROMA_API_KEY, CHROMA_TENANT_ID o CHROMA_DATABASE_NAME no configuradas.")
     else
       liftW (call (EvCloudClient (the api_key) (the tenant_id) (the database_name))
                   (chromadb_CloudClient (the api_key) (the tenant_id)
                      (the database_name)));;
       mret (mkCloudClient (the api_key) (the tenant_id) (the database_name)))
    (λ e, raise e).

(** The [client] property. *)
Definition client : M St CloudClient :=
  self ← get_self;
  match _client self with
  | None =>
      c ← _create_client;
      self ← get_self;
      set_self {| cfg := cfg self; _client := Some c;
                  collection := collection self |};;
      mret c
  | Some c => mret c
  end.

Definition _create_embedder : M St EmbeddingFunction :=
  try_except
    (self ← get_self;
     let api_key := openai_api_key (cfg self) in
     if negb (truthy_opt_str api_key)
     then raise (ValueError
       "OPENAI_API_KEY no configurada y EMBEDDINGS_PROVIDER=openai.")
     else
       liftW (call (EvOpenAIEmbeddingFunction (the api_key) "text-embedding-3-small")
                   (OpenAIEmbeddingFunction (the api_key) "text-embedding-3-small"));;
       mret (mkEmbeddingFunction (the api_key) "text-embedding-3-small"))
    (λ e, raise e).

Definition hnsw_cosine : HnswConfiguration :=
  {| hnsw_space := "cosine"; hnsw_ef_construction := 200 |}.

Definition _get_or_create_collection (name : string) : M St Collection :=
  client ← _create_client;
  embedding_function ← _create_embedder;
  liftW (call (EvGetOrCreateCollection client name)
              (client_get_or_create_collection client name
                 embedding_function hnsw_cosine));;
  mret (mkCollection client name embedding_function hnsw_cosine).

Definition add_texts (texts : list string) (name_collection : string)
    (metadatas : list Metadata) (ids : list string) : M St unit :=
  if negb (truthy_list texts) then mret tt
  else
    collection ← _get_or_create_collection name_collection;
    liftW (call (EvCollectionAdd collection ids texts metadatas)
                (collection_add collection ids texts metadatas)).

Definition upsert_texts (texts : list string) (name_collection : string)
    (metadatas : list Metadata) (ids : list string) : M St unit :=
  if negb (truthy_list texts) then mret tt
  else
    collection ← _get_or_create_collection name_collection;
    liftW (call (EvCollectionUpsert collection texts metadatas ids)
                (collection_upsert collection texts metadatas ids)).

Definition query (name_collection : string) (query_texts : list string)
    (n_results : Z) : M St QueryResult :=
  collection ← _get_or_create_collection name_collection;
  results ← liftW (call (EvCollectionQuery collection query_texts n_results)
                        (collection_query collection query_texts n_results
                           ["documents"; "metadatas"; "distances"]));
  mret results.

Definition reset_collection (name_collection : string) : M St unit :=
  c ← client;
  liftW (call (EvDeleteCollection c name_collection)
              (client_delete_collection c name_collection));;
  col ← _get_or_create_collection name_collection;
  self ← get_self;
  set_self {| cfg := cfg self; _client := _client self;
              collection := Some col |}.

(** [get_chroma_service()] *)
Definition get_chroma_service : PyExc + ChromaService :=
  __init__ (Some ChromaConfig_new).

End Methods.
End Chroma.

(** ** agentes/agents/agente_examenes_salud_mental.py *)

Module AgenteExamenes.
Section Tool.
Context {E : Type} `{!Backend E}.

(** The receiver of the state is the module-level singleton
    [chroma_service = get_chroma_service()]. *)
#[local] Abbreviation St := (ChromaService * World E)%type.

Definition buscar_conocimiento_con_RAG (query : string) : M St string :=
  results ← Chroma.query (value EXAMENES_DE_SALUD_MENTAL) [query] 3;
  match qr_documents results with
  | Some (first :: rest) =>
      (* [if results['documents']:] holds for any non-empty outer list *)
      let context := str_join (LF +:+ LF) first in
      mret ("Información encontrada:" +:+ LF +:+ context)
  | Some [] | None => mret "No se encontró información relevante."
  end.

Definition agente_de_examenes_salud_mental : Agent :=
  mkAgent "AgenteDeExamenesDeSaludMental" None
    ("Eres un agente que proporciona respuestas sobre exámenes de salud mental."
       +:+ LF +:+
     "    Usa buscar_conocimiento_con_RAG." +:+ LF +:+
     "    Siempre basa tus respuestas en la información recuperada. Si no hay información relevante, indícalo."
       +:+ LF +:+
     "    Responde de manera clara y concisa.")
    ["buscar_conocimiento_con_RAG"] [].

End Tool.
End AgenteExamenes.

(** ** agentes/agente_principal.py *)

Record PsychologyClinicAgent : Type := mkPsychologyClinicAgent
  { pca_model : string; chroma : ChromaService }.

Module AgentePrincipal.
Section Methods.
Context {E : Type} `{!Backend E} `{!Siblings E}.

(** [PsychologyClinicAgent(model)] *)
Definition __init__ (model : string) : PyExc + PsychologyClinicAgent :=
  match Chroma.get_chroma_service with
  | inl e => inl e
  | inr svc => inr {| pca_model := model; chroma := svc |}
  end.

(** The method never assigns to [self], so the receiver is an argument. *)
Definition agentPsychology (self : PsychologyClinicAgent)
    (user_id user_message : string) : M (World E) Agent :=
  try_except
    (let prompt := SYSTEM_PROMPT in
     agente_examenes ← mret AgenteExamenes.agente_de_examenes_salud_mental;
     agente_transtornos ← untraced agente_de_transtornos_salud_mental;
     agente_coloquial ← untraced agente_de_salud_mental_coloquial;
     agente_respuestas_salud_mental ← untraced agente_de_respuestas_salud_mental;
     mret (mkAgent "TerapyBot" (Some (pca_model self)) prompt []
             [ DirectAgent agente_respuestas_salud_mental;
               HandoffObject (handoff agente_coloquial);
               HandoffObject (handoff agente_transtornos);
               HandoffObject (handoff agente_examenes) ]))
    (λ e, raise (RuntimeError ("Error al procesar mensaje: " +:+ exc_str e))).

End Methods.
End AgentePrincipal.

(** ** agentes/session_history/messages.py *)

Module Message.
Section Methods.
Context {E : Type} `{!Backend E}.

Definition create_and_get_session_id (user_id : string)
  : M (World E) SQLiteSession :=
  let session_id := "session_" +:+ user_id in
  call (EvSQLiteSession session_id "conversations.db")
       (SQLiteSession_init session_id "conversations.db");;
  mret (mkSQLiteSession session_id "conversations.db").

End Methods.
End Message.

(** ** orquestador.py *)

Record Orquestador : Type := mkOrquestador
  { user_id : string; message : string; history : option SQLiteSession }.

(** The values of the dictionary that [generate_response] returns. *)
Inductive PyVal : Type :=
  | VStr (s : string)
  | VItems (items : list Item).

Module Orq.
Section Methods.
Context {E : Type} `{!Backend E} `{!Siblings E}.

#[local] Abbreviation St := (Orquestador * World E)%type.

(** [Orquestador(user_id, message)] *)
Definition __init__ (user_id message : string) : Orquestador :=
  {| user_id := user_id; message := message; history := None |}.

(** A constructor call: its exception, if any, is raised in the caller. *)
Definition construct {S A} (r : PyExc + A) : M S A :=
  match r with inl e => raise e | inr a => mret a end.

Definition _create_history_session (uid : string) : M St SQLiteSession :=
  try_except
    (session ← liftW (Message.create_and_get_session_id uid);
     mret session)
    (λ e, raise e).

Definition _get_all_history (uid : string) : M St (list Item) :=
  self ← get_self;
  match history self with
  | None => mret []
  | Some h =>
      conversations ← liftW (call (EvGetItems h) (SQLiteSession_get_items h));
      mret conversations
  end.

(** The body of the [try] block of [generate_response]. *)
Definition generate_response_try : M St (gmap string PyVal) :=
  self ← get_self;
  (match history self with
   | None =>
       h ← _create_history_session (user_id self);
       self ← get_self;
       set_self {| user_id := user_id self; message := message self;
                   history := Some h |}
   | Some _ => mret tt
   end);;
  psychologyClinicAgent ← construct (AgentePrincipal.__init__ "gpt-5-mini");
  self ← get_self;
  agent ← liftW (AgentePrincipal.agentPsychology psychologyClinicAgent
                   (user_id self) (message self));
  self ← get_self;
  result ← liftW (call (EvRunnerRun agent (message self) (history self))
                       (Runner_run agent (message self) (history self)));
  self ← get_self;
  hist ← _get_all_history (user_id self);
  mret ({[ "respuesta" := VStr (final_output result);
           "historial" := VItems hist ]} : gmap string PyVal).

Definition generate_response : M St (gmap string PyVal) :=
  try_except generate_response_try
    (λ e, mret ({[ "error" :=
                     VStr ("Error procesando la solicitud: " +:+ exc_str e) ]}
                : gmap string PyVal)).

End Methods.
End Orq.

(** ** services/agents/agent_chat_http.py *)

(** [KeyError(key)]: its text is the [repr] of the key, which for the keys
    used here (letters, digits and underscores) is the key between single
    quotes. *)
Definition KeyError (key : string) : PyExc :=
  mkExc "KeyError" ("'" +:+ key +:+ "'").

(** [d[key]] *)
Definition getitem {A} (d : gmap string A) (key : string) : PyExc + A :=
  match d !! key with
  | Some v => inr v
  | None => inl (KeyError key)
  end.

(** A computation of a method, run on an object that the caller holds in
    a local variable. *)
Definition run_object {O W A} (o : O) (m : M (O * W) A) : M W A :=
  λ w, let '(r, s') := m (o, w) in (r, snd s').

(** The part of a [flask.Request] that the handler reads: the method and
    the value of [get_json(silent=True)].  The body, when it parses, is a
    JSON object whose values are strings, which is what the handler
    expects under ['messages'] and ['user_id']. *)
Record Request : Type := mkRequest
  { method : string; get_json : option (gmap string string) }.

(** The values of the dictionaries handed to [json.dumps]. *)
Inductive JsonVal : Type :=
  | JBool (b : bool)
  | JStr (s : string)
  | JPy (v : PyVal).

(** A [flask.Response]; the body is kept as the dictionary that is given
    to [json.dumps], not as its text. *)
Record Response : Type := mkResponse
  { body : gmap string JsonVal;
    status : Z;
    headers : gmap string string }.

Module AgentChatHttp.
Section Handler.
Context {E : Type} `{!Backend E} `{!Siblings E}.

(** The four responses that report a failure have one shape. *)
Definition failure (code : Z) (msg : string) : Response :=
  {| body := {[ "success" := JBool false; "error" := JStr msg ]};
     status := code;
     headers := {[ "Content-Type" := "application/json" ]} |}.

Definition chat_agent_http (request : Request) : M (World E) Response :=
  if negb (String.eqb (method request) "POST")
  then mret (failure 405 "Método no permitido. Solo se permiten solicitudes POST.")
  else
    match get_json request with
    | None =>
        mret (failure 400 "Petición inválida: No se encontró el cuerpo JSON")
    | Some request_json =>
        if bool_decide (request_json = ∅)
        then mret (failure 400 "Petición inválida: No se encontró el cuerpo JSON")
        else
          let messages := request_json !! "messages" in
          let user_id := request_json !! "user_id" in
          if negb (truthy_opt_str messages) || negb (truthy_opt_str user_id)
          then mret (failure 400
            "Petición inválida: Faltan campos requeridos 'messages' o 'user_id'")
          else
            try_except
              (let orquestador := Orq.__init__ (the user_id) (the messages) in
               result ← run_object orquestador Orq.generate_response;
               respuesta ← Orq.construct (getitem result "respuesta");
               historial ← Orq.construct (getitem result "historial");
               mret {| body := {[ "success" := JBool true;
                                  "respuesta_asistente" := JPy respuesta;
                                  "historial" := JPy historial ]};
                       status := 200;
                       headers := {[ "Content-Type" := "application/json" ]} |})
              (λ e, mret (failure 500 (exc_str e)))
    end.

(** [main.chat_agent] *)
Definition chat_agent (request : Request) : M (World E) Response :=
  chat_agent_http request.

End Handler.
End AgentChatHttp.

(** ** scripts/upload_mental_health_data.py *)

(** [json.dumps] on a list of strings. *)
Class JsonLib : Type := { json_dumps : list string → string }.

(** The records of the four data sets.  A field is [None] when the key is
    missing from the dictionary; a key that is present holds a string or
    a list of strings, as the function that reads it expects. *)
Record Disorder : Type := mkDisorder
  { dis_id : option string;
    dis_disorder : option string;
    dis_icd10 : option (list string);
    dis_synonyms : option (list string);
    dis_key_criteria : option string;
    dis_duration_threshold : option string;
    dis_typical_onset_age : option string;
    dis_risk_factors : option (list string);
    dis_comorbidity : option (list string);
    dis_red_flags : option (list string);
    dis_suicide_risk_level : option string;
    dis_urgent_referral_criteria : option (list string) }.

Record Screening : Type := mkScreening
  { scr_id : option string;
    scr_objective : option string;
    scr_synonyms : option (list string);
    scr_screening_questions : option (list string);
    scr_positive_indicators : option (list string);
    scr_key_differentials : option (list string);
    scr_suicide_risk_note : option string;
    scr_escalation : option (list string) }.

Record ResponseTemplate : Type := mkResponseTemplate
  { res_id : option string;
    res_type : option string;
    res_objective : option string;
    res_template : option (list string);
    res_when_to_use : option (list string);
    res_safety_notes : option (list string) }.

Record Colloquial : Type := mkColloquial
  { col_id : option string;
    col_term : option string;
    col_variants : option (list string);
    col_possible_intentions : option (list string);
    col_clues : option (list string);
    col_red_flags : option (list string);
    col_suggested_questions : option (list string) }.

(** The argument of [upload_all_data]; a field is [None] when the key is
    not in the dictionary. *)
Record DataDict : Type := mkDataDict
  { disorders : option (list Disorder);
    screenings : option (list Screening);
    responses : option (list ResponseTemplate);
    colloquial : option (list Colloquial) }.

Record MentalHealthDataUploader : Type := mkUploader
  { chroma_service : ChromaService }.

(** Computations without state: a value or an exception. *)
Definition Res (A : Type) : Type := (PyExc + A)%type.

#[global] Instance Res_ret : MRet Res := λ A a, inr a.
#[global] Instance Res_bind : MBind Res :=
  λ A B k m, match m with inl e => inl e | inr a => k a end.

(** [record[key]] *)
Definition field {A} (o : option A) (key : string) : Res A :=
  match o with Some v => inr v | None => inl (KeyError key) end.

(** The three lists that every [prepare_...] method builds. *)
Definition Prepared : Type := (list string * list Metadata * list string)%type.

(** [for record in records: ...]: the body appends one text, one
    metadata dictionary and one id to the lists. *)
Fixpoint for_each {R} (one : R → Res (string * Metadata * string))
    (records : list R) (acc : Prepared) : Res Prepared :=
  match records with
  | [] => mret acc
  | r :: rest =>
      '(text, metadata, id) ← one r;
      let '(texts, metadatas, ids) := acc in
      for_each one rest (texts ++ [text], metadatas ++ [metadata], ids ++ [id])
  end.

Module Uploader.
Section Methods.
Context {E : Type} `{!Backend E} `{!JsonLib}.

(** [MentalHealthDataUploader()] *)
Definition __init__ : PyExc + MentalHealthDataUploader :=
  match Chroma.__init__ (Some Chroma.ChromaConfig_new) with
  | inl e => inl e
  | inr svc => inr {| chroma_service := svc |}
  end.

Definition disorder_document (disorder : Disorder)
  : Res (string * Metadata * string) :=
  p1 ← field (dis_disorder disorder) "disorder";
  p2 ← field (dis_icd10 disorder) "icd10";
  p3 ← field (dis_synonyms disorder) "synonyms";
  p4 ← field (dis_key_criteria disorder) "key_criteria";
  p5 ← field (dis_duration_threshold disorder) "duration_threshold";
  p6 ← field (dis_typical_onset_age disorder) "typical_onset_age";
  p7 ← field (dis_risk_factors disorder) "risk_factors";
  p8 ← field (dis_comorbidity disorder) "comorbidity";
  p9 ← field (dis_red_flags disorder) "red_flags";
  p10 ← field (dis_suicide_risk_level disorder) "suicide_risk_level";
  p11 ← field (dis_urgent_referral_criteria disorder) "urgent_referral_criteria";
  let text_parts :=
    [ "Disorder: " +:+ p1;
      "ICD-10: " +:+ str_join ", " p2;
      "Synonyms: " +:+ str_join ", " p3;
      "Key Criteria: " +:+ p4;
      "Duration: " +:+ p5;
      "Typical Onset: " +:+ p6;
      "Risk Factors: " +:+ str_join ", " p7;
      "Comorbidity: " +:+ str_join ", " p8;
      "Red Flags: " +:+ str_join ", " p9;
      "Suicide Risk: " +:+ p10;
      "Urgent Referral: " +:+ str_join ", " p11 ] in
  id ← field (dis_id disorder) "id";
  mret (str_join " | " text_parts,
        [ ("type", "disorder");
          ("disorder_id", id);
          ("disorder_name", p1);
          ("icd10", json_dumps p2);
          ("suicide_risk", p10);
          ("synonyms", json_dumps p3) ],
        "disorder_" +:+ id).

Definition prepare_disorder_documents (disorders : list Disorder)
  : Res Prepared :=
  for_each disorder_document disorders ([], [], []).

Definition screening_document (screening : Screening)
  : Res (string * Metadata * string) :=
  p1 ← field (scr_objective screening) "objective";
  p2 ← field (scr_synonyms screening) "synonyms";
  p3 ← field (scr_screening_questions screening) "screening_questions";
  p4 ← field (scr_positive_indicators screening) "positive_indicators";
  p5 ← field (scr_key_differentials screening) "key_differentials";
  p6 ← field (scr_suicide_risk_note screening) "suicide_risk_note";
  p7 ← field (scr_escalation screening) "escalation";
  let text_parts :=
    [ "Screening for: " +:+ p1;
      "Synonyms: " +:+ str_join ", " p2;
      "Questions: " +:+ str_join " " p3;
      "Positive Indicators: " +:+ str_join ", " p4;
      "Key Differentials: " +:+ str_join ", " p5;
      "Suicide Risk Note: " +:+ p6;
      "Escalation: " +:+ str_join " " p7 ] in
  id ← field (scr_id screening) "id";
  mret (str_join " | " text_parts,
        [ ("type", "screening");
          ("screening_id", id);
          ("objective", p1);
          ("synonyms", json_dumps p2);
          ("questions", json_dumps p3) ],
        "screening_" +:+ id).

Definition prepare_screening_documents (screenings : list Screening)
  : Res Prepared :=
  for_each screening_document screenings ([], [], []).

Definition response_template_document (response : ResponseTemplate)
  : Res (string * Metadata * string) :=
  p1 ← field (res_type response) "type";
  p2 ← field (res_objective response) "objective";
  p3 ← field (res_template response) "template";
  p4 ← field (res_when_to_use response) "when_to_use";
  p5 ← field (res_safety_notes response) "safety_notes";
  let text_parts :=
    [ "Response Type: " +:+ p1;
      "Objective: " +:+ p2;
      "Templates: " +:+ str_join " | " p3;
      "When to Use: " +:+ str_join ", " p4;
      "Safety Notes: " +:+ str_join ", " p5 ] in
  id ← field (res_id response) "id";
  mret (str_join " | " text_parts,
        [ ("type", "response_template");
          ("template_id", id);
          ("response_type", p1);
          ("objective", p2);
          ("when_to_use", json_dumps p4) ],
        "response_" +:+ id).

Definition prepare_response_templates (responses : list ResponseTemplate)
  : Res Prepared :=
  for_each response_template_document responses ([], [], []).

Definition colloquial_document (expr : Colloquial)
  : Res (string * Metadata * string) :=
  p1 ← field (col_term expr) "term";
  p2 ← field (col_variants expr) "variants";
  p3 ← field (col_possible_intentions expr) "possible_intentions";
  p4 ← field (col_clues expr) "clues";
  p5 ← field (col_red_flags expr) "red_flags";
  p6 ← field (col_suggested_questions expr) "suggested_questions";
  let text_parts :=
    [ "Colloquial Term: " +:+ p1;
      "Variants: " +:+ str_join ", " p2;
      "Possible Intentions: " +:+ str_join ", " p3;
      "Clues: " +:+ str_join ", " p4;
      "Red Flags: " +:+ str_join ", " p5;
      "Suggested Questions: " +:+ str_join ", " p6 ] in
  id ← field (col_id expr) "id";
  mret (str_join " | " text_parts,
        [ ("type", "colloquial_expression");
          ("expression_id", id);
          ("term", p1);
          ("variants", json_dumps p2);
          ("possible_intentions", json_dumps p3) ],
        "colloquial_" +:+ id).

Definition prepare_colloquial_expressions (expressions : list Colloquial)
  : Res Prepared :=
  for_each colloquial_document expressions ([], [], []).

#[local] Abbreviation St := (MentalHealthDataUploader * World E)%type.

(** A method of [self.chroma_service], called from the uploader. *)
Definition on_chroma_service {A} (m : M (ChromaService * World E) A) : M St A :=
  λ s, let '(r, s') := m (chroma_service (fst s), snd s) in
       (r, ({| chroma_service := fst s' |}, snd s')).

(** One [if key in data_dict:] block of [upload_all_data]. *)
Definition upload_category {R} (records : option (list R))
    (prepare : list R → Res Prepared) (name_collection : string) : M St unit :=
  match records with
  | None => mret tt
  | Some rs =>
      '(texts, metadatas, ids) ← Orq.construct (prepare rs);
      on_chroma_service (Chroma.upsert_texts texts name_collection metadatas ids)
  end.

Definition upload_all_data (data_dict : DataDict) : M St unit :=
  upload_category (disorders data_dict) prepare_disorder_documents
    "mental_health_disorders";;
  upload_category (screenings data_dict) prepare_screening_documents
    "mental_health_screenings";;
  upload_category (responses data_dict) prepare_response_templates
    "mental_health_responses";;
  upload_category (colloquial data_dict) prepare_colloquial_expressions
    "mental_health_colloquial".

End Methods.
End Uploader.

(** ** A reference backend

    An executable stand-in for the services, used to run the program on
    concrete inputs.  It follows the documented behaviour of the chromadb
    client ([get_or_create_collection] creates a missing collection,
    [delete_collection] raises when the collection does not exist,
    [add] and [upsert] reject arrays of unequal lengths, [query] returns
    one list of documents per query text) and of the agents SDK (a run
    appends its records to the session it is given).  Similarity is not
    modelled: documents are ranked in insertion order. *)

Module Ref.

Record Doc : Type := mkDoc
  { doc_id : string; doc_text : string; doc_meta : Metadata }.

Record State : Type := mkState
  { environ : gmap string string;
    collections : gmap string (list Doc);
    sqlite : gmap (string * string) (list Item);
    (* what [Runner.run] raises, if it is to fail *)
    runtime_fault : option PyExc }.

Definition with_collections (e : State) (c : gmap string (list Doc)) : State :=
  {| environ := environ e; collections := c; sqlite := sqlite e;
     runtime_fault := runtime_fault e |}.

Definition with_sqlite (e : State) (q : gmap (string * string) (list Item))
  : State :=
  {| environ := environ e; collections := collections e; sqlite := q;
     runtime_fault := runtime_fault e |}.

Definition NotFoundError (name : string) : PyExc :=
  mkExc "NotFoundError" ("Collection " +:+ name +:+ " does not exist.").

Definition get_or_create (name : string) : Ext State unit :=
  λ e, match collections e !! name with
       | Some _ => (inr tt, e)
       | None => (inr tt, with_collections e (<[name := []]> (collections e)))
       end.

Definition delete_collection (name : string) : Ext State unit :=
  λ e, match collections e !! name with
       | Some _ => (inr tt, with_collections e (delete name (collections e)))
       | None => (inl (NotFoundError name), e)
       end.

Definition same_lengths (ids documents : list string)
    (metadatas : list Metadata) : bool :=
  (length ids =? length documents)%nat && (length ids =? length metadatas)%nat.

Definition zip_docs (ids documents : list string) (metadatas : list Metadata)
  : list Doc :=
  zip_with (λ '(i, t) m, mkDoc i t m) (zip ids documents) metadatas.

Definition has_id (i : string) (docs : list Doc) : bool :=
  existsb (λ d, String.eqb (doc_id d) i) docs.

(** [add] keeps the stored document when the id is already present. *)
Definition add_doc (docs : list Doc) (d : Doc) : list Doc :=
  if has_id (doc_id d) docs then docs else docs ++ [d].

(** [upsert] overwrites the stored document when the id is present. *)
Definition upsert_doc (docs : list Doc) (d : Doc) : list Doc :=
  if has_id (doc_id d) docs
  then (λ d0, if String.eqb (doc_id d0) (doc_id d) then d else d0) <$> docs
  else docs ++ [d].

Definition write_docs (step : list Doc → Doc → list Doc) (c : Collection)
    (ids documents : list string) (metadatas : list Metadata)
  : Ext State unit :=
  λ e, if negb (same_lengths ids documents metadatas)
       then (inl (ValueError "Unequal lengths for fields"), e)
       else match collections e !! coll_name c with
            | None => (inl (NotFoundError (coll_name c)), e)
            | Some docs =>
                (inr tt,
                 with_collections e
                   (<[coll_name c :=
                        foldl step docs (zip_docs ids documents metadatas)]>
                      (collections e)))
            end.

Definition run_query (c : Collection) (query_texts : list string)
    (n_results : Z) : Ext State QueryResult :=
  λ e, match collections e !! coll_name c with
       | None => (inl (NotFoundError (coll_name c)), e)
       | Some docs =>
           let top := take (Z.to_nat n_results) docs in
           (inr {| qr_ids := (λ _, doc_id <$> top) <$> query_texts;
                   qr_documents :=
                     Some ((λ _, doc_text <$> top) <$> query_texts) |}, e)
       end.

Definition log_of (s : SQLiteSession) (e : State) : list Item :=
  default [] (sqlite e !! (db_path s, session_id s)).

Definition get_items (s : SQLiteSession) : Ext State (list Item) :=
  λ e, (inr (log_of s e), e).

(** A stub runtime: it answers with a fixed text and appends the user
    record and the assistant record to the session. *)
Definition run_turn (input : string) (session : option SQLiteSession)
  : Ext State RunResult :=
  λ e, match runtime_fault e with
       | Some x => (inl x, e)
       | None =>
           let reply := "Te escucho." in
           let e' :=
             match session with
             | Some s =>
                 with_sqlite e
                   (<[(db_path s, session_id s) :=
                        log_of s e ++ [mkItem "user" input;
                                       mkItem "assistant" reply]]>
                      (sqlite e))
             | None => e
             end in
           (inr (mkRunResult reply), e')
       end.

Definition import_environment (k : string) : option string :=
  if String.eqb k "OPENAI_API_KEY" then Some "sk-test" else None.

#[global] Instance backend : Backend State := {|
  os_getenv_at_import := import_environment;
  os_getenv := λ k e, environ e !! k;
  chromadb_CloudClient := λ _ _ _ e, (inr tt, e);
  OpenAIEmbeddingFunction := λ _ _ e, (inr tt, e);
  client_get_or_create_collection := λ _ name _ _, get_or_create name;
  client_delete_collection := λ _ name, delete_collection name;
  collection_add := λ c ids documents metadatas,
    write_docs add_doc c ids documents metadatas;
  collection_upsert := λ c documents metadatas ids,
    write_docs upsert_doc c ids documents metadatas;
  collection_query := λ c query_texts n_results _,
    run_query c query_texts n_results;
  SQLiteSession_init := λ _ _ e, (inr tt, e);
  SQLiteSession_get_items := get_items;
  Runner_run := λ _ input session, run_turn input session;
|}.

Definition plain_agent (name : string) : Ext State Agent :=
  λ e, (inr (mkAgent name None "" [] []), e).

#[global] Instance siblings : Siblings State := {|
  SYSTEM_PROMPT := "You are TerapyBot.";
  agente_de_respuestas_salud_mental := plain_agent "AgenteDeRespuestasDeSaludMental";
  agente_de_salud_mental_coloquial := plain_agent "AgenteDeSaludMentalColoquial";
  agente_de_transtornos_salud_mental := plain_agent "AgenteDeTranstornosDeSaludMental";
|}.

(** A configured deployment with an empty store and no conversation. *)
Definition env0 : gmap string string :=
  {[ "CHROMA_API_KEY" := "ck-test"; "CHROMA_TENANT_ID" := "tenant";
     "CHROMA_DATABASE_NAME" := "Development" ]}.

Definition state0 : State :=
  {| environ := env0; collections := ∅; sqlite := ∅; runtime_fault := None |}.

Definition world0 : World State := mkWorld state0 [].

(** The singleton [chroma_service] of the deployment. *)
Definition service0 : ChromaService :=
  {| cfg := Chroma.ChromaConfig_new; _client := None; collection := None |}.

(** The same deployment with two screening documents in the store. *)
Definition screening_docs : list Doc :=
  [ mkDoc "phq9" "PHQ-9: cuestionario de nueve preguntas sobre depresión." [];
    mkDoc "isi" "ISI: índice de severidad del insomnio." [] ].

Definition state1 : State :=
  with_collections state0 {[ "mental_health_screenings" := screening_docs ]}.

Definition world1 : World State := mkWorld state1 [].

(** The same deployment with an agent runtime that is down. *)
Definition state_down : State :=
  {| environ := env0; collections := ∅; sqlite := ∅;
     runtime_fault := Some (mkExc "APIConnectionError" "Connection error.") |}.

Definition world_down : World State := mkWorld state_down [].

End Ref.

(** ** Sample inputs

    Variants of the reference backend and a few inputs, for running the
    program on concrete cases. *)

Module Sample.

(** The reference backend with a store that fails on every query. *)
Definition offline : Backend Ref.State := {|
  os_getenv_at_import := Ref.import_environment;
  os_getenv := λ k e, Ref.environ e !! k;
  chromadb_CloudClient := λ _ _ _ e, (inr tt, e);
  OpenAIEmbeddingFunction := λ _ _ e, (inr tt, e);
  client_get_or_create_collection := λ _ name _ _, Ref.get_or_create name;
  client_delete_collection := λ _ name, Ref.delete_collection name;
  collection_add := λ c ids documents metadatas,
    Ref.write_docs Ref.add_doc c ids documents metadatas;
  collection_upsert := λ c documents metadatas ids,
    Ref.write_docs Ref.upsert_doc c ids documents metadatas;
  collection_query := λ _ _ _ _ e,
    (inl (mkExc "ChromaError" "Service unavailable"), e);
  SQLiteSession_init := λ _ _ e, (inr tt, e);
  SQLiteSession_get_items := Ref.get_items;
  Runner_run := λ _ input session, Ref.run_turn input session;
|}.

(** The reference backend imported with CHROMA_DATABASE_NAME set to the
    empty string. *)
Definition unnamed : Backend Ref.State := {|
  os_getenv_at_import := λ k,
    if String.eqb k "CHROMA_DATABASE_NAME" then Some ""
    else Ref.import_environment k;
  os_getenv := λ k e, Ref.environ e !! k;
  chromadb_CloudClient := λ _ _ _ e, (inr tt, e);
  OpenAIEmbeddingFunction := λ _ _ e, (inr tt, e);
  client_get_or_create_collection := λ _ name _ _, Ref.get_or_create name;
  client_delete_collection := λ _ name, Ref.delete_collection name;
  collection_add := λ c ids documents metadatas,
    Ref.write_docs Ref.add_doc c ids documents metadatas;
  collection_upsert := λ c documents metadatas ids,
    Ref.write_docs Ref.upsert_doc c ids documents metadatas;
  collection_query := λ c query_texts n_results _,
    Ref.run_query c query_texts n_results;
  SQLiteSession_init := λ _ _ e, (inr tt, e);
  SQLiteSession_get_items := Ref.get_items;
  Runner_run := λ _ input session, Ref.run_turn input session;
|}.

(** Sibling factories of which the second one called fails. *)
Definition broken_siblings : Siblings Ref.State := {|
  SYSTEM_PROMPT := "You are TerapyBot.";
  agente_de_respuestas_salud_mental :=
    Ref.plain_agent "AgenteDeRespuestasDeSaludMental";
  agente_de_salud_mental_coloquial := λ e,
    (inl (mkExc "ImportError" "No module named prompts"), e);
  agente_de_transtornos_salud_mental :=
    Ref.plain_agent "AgenteDeTranstornosDeSaludMental";
|}.

(** The double quote. *)
Definition DQ : string := String "034"%char EmptyString.

(** A stand-in for [json.dumps] on lists of plain strings. *)
#[global] Instance json : JsonLib := {|
  json_dumps := λ l, "[" +:+ str_join ", " ((λ s, DQ +:+ s +:+ DQ) <$> l) +:+ "]"
|}.

(** A deployment without the credentials of the store. *)
Definition state_no_credentials : Ref.State :=
  {| Ref.environ := ∅; Ref.collections := ∅; Ref.sqlite := ∅;
     Ref.runtime_fault := None |}.

Definition world_no_credentials : World Ref.State :=
  mkWorld state_no_credentials [].

(** A service whose configuration holds no OpenAI key. *)
Definition service_no_key : ChromaService :=
  {| cfg := {| database := "Development"; path := "Development";
               openai_api_key := None;
               openai_model := "text-embedding-3-small" |};
     _client := None; collection := None |}.

Definition gad : Disorder :=
  {| dis_id := Some "gad";
     dis_disorder := Some "Generalized Anxiety Disorder";
     dis_icd10 := Some ["F41.1"];
     dis_synonyms := Some ["GAD"; "excessive worry"];
     dis_key_criteria := Some "Excessive worry for 6 months or more.";
     dis_duration_threshold := Some "6 months";
     dis_typical_onset_age := Some "Early adulthood";
     dis_risk_factors := Some ["family history"; "stressful events"];
     dis_comorbidity := Some ["depression"];
     dis_red_flags := Some ["severe insomnia"; "suicidal ideation"];
     dis_suicide_risk_level := Some "Moderate";
     dis_urgent_referral_criteria := Some ["concurrent suicidal ideation"] |}.

Definition panic : Disorder :=
  {| dis_id := Some "panic";
     dis_disorder := Some "Panic Disorder";
     dis_icd10 := Some ["F41.0"];
     dis_synonyms := Some ["panic attacks"];
     dis_key_criteria := Some "Recurrent and unexpected attacks.";
     dis_duration_threshold := Some "1 month";
     dis_typical_onset_age := Some "Adolescence";
     dis_risk_factors := Some ["smoking"];
     dis_comorbidity := Some ["agoraphobia"; "depression"];
     dis_red_flags := Some ["very frequent attacks"];
     dis_suicide_risk_level := Some "Moderate-High";
     dis_urgent_referral_criteria := Some ["incapacitating symptoms"] |}.

Definition scr_gad : Screening :=
  {| scr_id := Some "scr_gad";
     scr_objective := Some "Generalized Anxiety Disorder";
     scr_synonyms := Some ["GAD"];
     scr_screening_questions :=
       Some ["Do you worry most days?"; "Is the worry hard to control?"];
     scr_positive_indicators := Some ["worry on most days for 6 months"];
     scr_key_differentials := Some ["hyperthyroidism"];
     scr_suicide_risk_note := Some "Ask when depression is present";
     scr_escalation := Some ["Refer if there is ideation"] |}.

(** A screening record without the key ['escalation']. *)
Definition scr_incomplete : Screening :=
  {| scr_id := Some "scr_sleep";
     scr_objective := Some "Insomnia";
     scr_synonyms := Some ["sleeplessness"];
     scr_screening_questions := Some ["Do you sleep badly?"];
     scr_positive_indicators := Some ["3 nights a week"];
     scr_key_differentials := Some ["sleep apnea"];
     scr_suicide_risk_note := Some "Low";
     scr_escalation := None |}.

Definition resp_validation : ResponseTemplate :=
  {| res_id := Some "resp_validation_01";
     res_type := Some "emotional_validation";
     res_objective := Some "Open the conversation with empathy";
     res_template := Some ["Thank you for sharing this."];
     res_when_to_use := Some ["start of conversation"];
     res_safety_notes := Some ["avoid minimizing"] |}.

Definition col_nerves : Colloquial :=
  {| col_id := Some "col_nerve_attacks";
     col_term := Some "attacks of nerves";
     col_variants := Some ["nervous crisis"];
     col_possible_intentions := Some ["Panic Disorder"; "Agoraphobia"];
     col_clues := Some ["sudden onset"];
     col_red_flags := Some ["fainting"];
     col_suggested_questions := Some ["Do the episodes peak within minutes?"] |}.

Definition data_all : DataDict :=
  {| disorders := Some [gad; panic];
     screenings := Some [scr_gad];
     responses := Some [resp_validation];
     colloquial := Some [col_nerves] |}.

Definition data_incomplete : DataDict :=
  {| disorders := Some [gad];
     screenings := Some [scr_gad; scr_incomplete];
     responses := Some [resp_validation];
     colloquial := None |}.

Definition data_empty : DataDict :=
  {| disorders := Some []; screenings := None;
     responses := Some []; colloquial := None |}.

Definition uploader0 : MentalHealthDataUploader :=
  {| chroma_service := Ref.service0 |}.

Definition request_ok : Request :=
  mkRequest "POST" (Some {[ "messages" := "hola"; "user_id" := "u1" ]}).

Definition request_get : Request := mkRequest "GET" None.

Definition request_no_user : Request :=
  mkRequest "POST" (Some {[ "messages" := "hola" ]}).

(** An orchestrator that already holds its session. *)
Definition orq_u1 : Orquestador :=
  {| user_id := "u1"; message := "hola";
     history := Some (mkSQLiteSession "session_u1" "conversations.db") |}.

End Sample.

(** ** Observations used in the statements *)

(** An entry of a handoff list that was passed without [handoff(...)]. *)
Definition is_direct (h : HandoffEntry) : bool :=
  match h with DirectAgent _ => true | HandoffObject _ => false end.

(** The similarity queries among the calls of a trace: collection name,
    query texts and number of results asked for. *)
Definition query_of (ev : event) : option (string * list string * Z) :=
  match ev with
  | EvCollectionQuery c query_texts n_results =>
      Some (coll_name c, query_texts, n_results)
  | _ => None
  end.

Definition queries_of (t : list event) : list (string * list string * Z) :=
  omap query_of t.

(** [self] once [self.history] has been assigned. *)
Definition with_history (self : Orquestador) (h : SQLiteSession) : Orquestador :=
  {| user_id := user_id self; message := message self; history := Some h |}.

(** The dictionary of the [except] clause of [generate_response]. *)
Definition error_payload (e : PyExc) : gmap string PyVal :=
  {[ "error" := VStr ("Error procesando la solicitud: " +:+ exc_str e) ]}.

(** The dictionary of a turn that went through. *)
Definition turn_payload (result : RunResult) (items : list Item)
  : gmap string PyVal :=
  {[ "respuesta" := VStr (final_output result); "historial" := VItems items ]}.

(** The steps of a turn at which an exception can come up: creating the
    history session, assembling the agent (the constructor of
    [PsychologyClinicAgent], then [agentPsychology]), the run of the
    agent runtime, and reading the history back. *)
Inductive step_raises {E : Type} `{!Backend E} `{!Siblings E}
  : Orquestador * World E → PyExc → Prop :=
  | session_creation_raises self w w1 e :
      history self = None →
      Message.create_and_get_session_id (user_id self) w = (inl e, w1) →
      step_raises (self, w) e
  | later_step_raises self w w1 h e :
      history self = None →
      Message.create_and_get_session_id (user_id self) w = (inr h, w1) →
      step_raises (with_history self h, w1) e →
      step_raises (self, w) e
  | agent_constructor_raises self w h e :
      history self = Some h →
      AgentePrincipal.__init__ "gpt-5-mini" = inl e →
      step_raises (self, w) e
  | agent_assembly_raises self w h pca w2 e :
      history self = Some h →
      AgentePrincipal.__init__ "gpt-5-mini" = inr pca →
      AgentePrincipal.agentPsychology pca (user_id self) (message self) w
      = (inl e, w2) →
      step_raises (self, w) e
  | runtime_turn_raises self w h pca agent w2 e e3 :
      history self = Some h →
      AgentePrincipal.__init__ "gpt-5-mini" = inr pca →
      AgentePrincipal.agentPsychology pca (user_id self) (message self) w
      = (inr agent, w2) →
      Runner_run agent (message self) (Some h) (ext w2) = (inl e, e3) →
      step_raises (self, w) e
  | history_reread_raises self w h pca agent w2 result e3 e e4 :
      history self = Some h →
      AgentePrincipal.__init__ "gpt-5-mini" = inr pca →
      AgentePrincipal.agentPsychology pca (user_id self) (message self) w
      = (inr agent, w2) →
      Runner_run agent (message self) (Some h) (ext w2) = (inr result, e3) →
      SQLiteSession_get_items h e3 = (inl e, e4) →
      step_raises (self, w) e.

(** The calls of a trace that reach the vector store. *)
Definition is_store_call (ev : event) : bool :=
  match ev with
  | EvGetOrCreateCollection _ _ | EvDeleteCollection _ _
  | EvCollectionAdd _ _ _ _ | EvCollectionUpsert _ _ _ _
  | EvCollectionQuery _ _ _ => true
  | _ => false
  end.

Definition store_calls (t : list event) : list event :=
  List.filter is_store_call t.

(** The upserts among the calls of a trace: collection name and the three
    arrays. *)
Definition upsert_of (ev : event)
  : option (string * list string * list Metadata * list string) :=
  match ev with
  | EvCollectionUpsert c documents metadatas ids =>
      Some (coll_name c, documents, metadatas, ids)
  | _ => None
  end.

Definition upserts_of (t : list event)
  : list (string * list string * list Metadata * list string) :=
  omap upsert_of t.

(** The sessions opened among the calls of a trace. *)
Definition session_of (ev : event) : option SQLiteSession :=
  match ev with
  | EvSQLiteSession sid file => Some (mkSQLiteSession sid file)
  | _ => None
  end.

Definition sessions_opened (t : list event) : list SQLiteSession :=
  omap session_of t.

(** The runs of the agent runtime among the calls of a trace: the input
    and the session handed over. *)
Definition run_of (ev : event) : option (string * option SQLiteSession) :=
  match ev with
  | EvRunnerRun _ input session => Some (input, session)
  | _ => None
  end.

Definition runs_of (t : list event) : list (string * option SQLiteSession) :=
  omap run_of t.

(** The three arrays of an upsert have one length. *)
Definition equal_lengths
    (u : string * list string * list Metadata * list string) : Prop :=
  let '(_, documents, metadatas, ids) := u in
  length documents = length metadatas ∧ length documents = length ids.

(** Records that hold every key their [prepare_...] method reads. *)
Definition disorder_complete (d : Disorder) : bool :=
  bool_decide (is_Some (dis_id d)) && bool_decide (is_Some (dis_disorder d))
  && bool_decide (is_Some (dis_icd10 d)) && bool_decide (is_Some (dis_synonyms d))
  && bool_decide (is_Some (dis_key_criteria d))
  && bool_decide (is_Some (dis_duration_threshold d))
  && bool_decide (is_Some (dis_typical_onset_age d))
  && bool_decide (is_Some (dis_risk_factors d))
  && bool_decide (is_Some (dis_comorbidity d))
  && bool_decide (is_Some (dis_red_flags d))
  && bool_decide (is_Some (dis_suicide_risk_level d))
  && bool_decide (is_Some (dis_urgent_referral_criteria d)).

Definition screening_complete (s : Screening) : bool :=
  bool_decide (is_Some (scr_id s)) && bool_decide (is_Some (scr_objective s))
  && bool_decide (is_Some (scr_synonyms s))
  && bool_decide (is_Some (scr_screening_questions s))
  && bool_decide (is_Some (scr_positive_indicators s))
  && bool_decide (is_Some (scr_key_differentials s))
  && bool_decide (is_Some (scr_suicide_risk_note s))
  && bool_decide (is_Some (scr_escalation s)).

Definition response_complete (r : ResponseTemplate) : bool :=
  bool_decide (is_Some (res_id r)) && bool_decide (is_Some (res_type r))
  && bool_decide (is_Some (res_objective r))
  && bool_decide (is_Some (res_template r))
  && bool_decide (is_Some (res_when_to_use r))
  && bool_decide (is_Some (res_safety_notes r)).

Definition colloquial_complete (c : Colloquial) : bool :=
  bool_decide (is_Some (col_id c)) && bool_decide (is_Some (col_term c))
  && bool_decide (is_Some (col_variants c))
  && bool_decide (is_Some (col_possible_intentions c))
  && bool_decide (is_Some (col_clues c))
  && bool_decide (is_Some (col_red_flags c))
  && bool_decide (is_Some (col_suggested_questions c)).

(** A request that passes the checks of [chat_agent_http]: a POST whose
    JSON body holds a non-empty ['messages'] and a non-empty ['user_id']. *)
Definition accepted (request : Request) (messages uid : string) : Prop :=
  method request = "POST"
  ∧ ∃ request_json,
      get_json request = Some request_json
      ∧ request_json !! "messages" = Some messages ∧ messages ≠ ""
      ∧ request_json !! "user_id" = Some uid ∧ uid ≠ "".

(** The response of [chat_agent_http] to a turn that went through. *)
Definition turn_response (respuesta historial : PyVal) : Response :=
  {| body := {[ "success" := JBool true;
                "respuesta_asistente" := JPy respuesta;
                "historial" := JPy historial ]};
     status := 200;
     headers := {[ "Content-Type" := "application/json" ]} |}.

(** Between two states, the upserts made went to collections of the list
    [names], in the order of the list and at most one to each, and each
    with three arrays of one length. *)
Definition sends {E O : Type} (names : list string) (st st' : O * World E)
  : Prop :=
  ∃ sent,
    upserts_of (trace (snd st')) = upserts_of (trace (snd st)) ++ sent
    ∧ Forall equal_lengths sent
    ∧ (λ u, u.1.1.1) <$> sent `sublist_of` names.

(** * Part II: properties of the program *)

(** ** Running the monad *)

Section Monad_facts.
Context {S A B : Type}.

Lemma bind_returns (m : M S A) (k : A → M S B) s a s' :
  m s = (inr a, s') → (m ≫= k) s = k a s'.
Proof. intros Hm. unfold mbind, M_bind, bind. now rewrite Hm. Qed.

Lemma bind_raises (m : M S A) (k : A → M S B) s e s' :
  m s = (inl e, s') → (m ≫= k) s = (inl e, s').
Proof. intros Hm. unfold mbind, M_bind, bind. now rewrite Hm. Qed.

Lemma try_except_returns (m : M S A) (h : PyExc → M S A) s a s' :
  m s = (inr a, s') → try_except m h s = (inr a, s').
Proof. intros Hm. unfold try_except. now rewrite Hm. Qed.

Lemma try_except_raises (m : M S A) (h : PyExc → M S A) s e s' :
  m s = (inl e, s') → try_except m h s = h e s'.
Proof. intros Hm. unfold try_except. now rewrite Hm. Qed.

(** [except Exception as e: ...; raise] changes nothing. *)
Lemma try_except_reraise (m : M S A) s :
  try_except m (λ e, raise e) s = m s.
Proof. unfold try_except, raise. destruct (m s) as [[e | a] s']; reflexivity. Qed.

End Monad_facts.

Ltac run_monad :=
  unfold mbind, M_bind, bind, mret, M_ret, ret, raise, liftW, call,
    untraced, get_self, set_self in *; simpl in *.

(** ** chroma.py: writes with no texts *)

Section Chroma_facts.
Context {E : Type} `{!Backend E}.

(** C8. With an empty [texts] list, [add_texts] and [upsert_texts] return
    at once, for every collection name, metadatas and ids: the result is
    [None], and the receiver, the state of the store and the trace of
    calls to it are the ones the call started from, so that no collection
    was created or changed and the store was not contacted. *)
Theorem empty_texts_is_noop (name_collection : string)
    (metadatas : list Metadata) (ids : list string)
    (st : ChromaService * World E) :
  Chroma.add_texts [] name_collection metadatas ids st = (inr tt, st)
  ∧ Chroma.upsert_texts [] name_collection metadatas ids st = (inr tt, st).
Proof. split; reflexivity. Qed.

End Chroma_facts.

(** ** messages.py: the session key *)

Section Message_facts.
Context {E : Type} `{!Backend E}.

Lemma create_and_get_session_id_handle uid (w w' : World E) s :
  Message.create_and_get_session_id uid w = (inr s, w') →
  s = mkSQLiteSession ("session_" +:+ uid) "conversations.db".
Proof.
  unfold Message.create_and_get_session_id. run_monad.
  destruct (SQLiteSession_init _ _ _) as [[e | []] e']; intros Heq;
    inversion Heq; reflexivity.
Qed.

(** C5. The session made for a user id has the identifier ["session_"]
    followed by the user id and the database file ["conversations.db"].
    Two calls with the same user id, from whatever states, give equal
    handles, so every read through one is the read through the other:
    they address one log. *)
Theorem session_key_is_stable (uid : string) (w1 w2 w1' w2' : World E)
    (s1 s2 : SQLiteSession) :
  Message.create_and_get_session_id uid w1 = (inr s1, w1') →
  Message.create_and_get_session_id uid w2 = (inr s2, w2') →
  session_id s1 = "session_" +:+ uid
  ∧ db_path s1 = "conversations.db"
  ∧ s1 = s2
  ∧ ∀ e : E, SQLiteSession_get_items s1 e = SQLiteSession_get_items s2 e.
Proof.
  intros H1 H2.
  apply create_and_get_session_id_handle in H1, H2. subst s1 s2.
  repeat split.
Qed.

(** Distinct users never share a session. *)
Lemma session_key_injective (u1 u2 : string) :
  "session_" +:+ u1 = "session_" +:+ u2 → u1 = u2.
Proof. simpl. intros Heq. now inversion Heq. Qed.

End Message_facts.

(** ** orquestador.py: reading the history *)

Section Orquestador_history.
Context {E : Type} `{!Backend E} `{!Siblings E}.

(** C10. When no session object has been created for the orchestrator
    ([self.history is None]), [_get_all_history] returns the empty list
    for every user id; it does not raise, and the orchestrator, the
    storage and the trace of external calls are left as they were: no
    storage was read. *)
Theorem get_all_history_without_session (uid : string) (self : Orquestador)
    (w : World E) :
  history self = None →
  Orq._get_all_history uid (self, w) = (inr [], (self, w)).
Proof.
  intros Hnone. unfold Orq._get_all_history. run_monad.
  now rewrite Hnone.
Qed.

(** With a session, the history is what the session returns. *)
Lemma get_all_history_with_session uid (self : Orquestador) (w : World E) h r e' :
  history self = Some h →
  SQLiteSession_get_items h (ext w) = (r, e') →
  Orq._get_all_history uid (self, w)
  = (r, (self, mkWorld e' (trace w ++ [EvGetItems h]))).
Proof.
  intros Hh Hget. unfold Orq._get_all_history. run_monad.
  rewrite Hh. simpl. rewrite Hget. now destruct r.
Qed.

End Orquestador_history.

(** ** agente_principal.py: the handoff list *)

Section Principal_facts.
Context {E : Type} `{!Backend E} `{!Siblings E}.

(** The shape of every agent that [agentPsychology] returns. *)
Lemma agentPsychology_returns (self : PsychologyClinicAgent) uid msg
    (w w' : World E) a :
  AgentePrincipal.agentPsychology self uid msg w = (inr a, w') →
  ∃ respuestas coloquial transtornos,
    a = mkAgent "TerapyBot" (Some (pca_model self)) SYSTEM_PROMPT []
          [ DirectAgent respuestas;
            HandoffObject (handoff coloquial);
            HandoffObject (handoff transtornos);
            HandoffObject (handoff AgenteExamenes.agente_de_examenes_salud_mental) ].
Proof.
  unfold AgentePrincipal.agentPsychology, try_except. run_monad.
  destruct (agente_de_transtornos_salud_mental (ext w)) as [[e1 | t] x1];
    simpl; [discriminate |].
  destruct (agente_de_salud_mental_coloquial x1) as [[e2 | c] x2];
    simpl; [discriminate |].
  destruct (agente_de_respuestas_salud_mental x2) as [[e3 | r] x3];
    simpl; [discriminate |].
  intros Heq. inversion Heq. eauto.
Qed.

(** Whatever goes wrong while the agent is assembled comes out as a
    [RuntimeError]. *)
Lemma agentPsychology_raises (self : PsychologyClinicAgent) uid msg
    (w w' : World E) e :
  AgentePrincipal.agentPsychology self uid msg w = (inl e, w') →
  exc_type e = "RuntimeError".
Proof.
  unfold AgentePrincipal.agentPsychology, try_except. run_monad.
  destruct (agente_de_transtornos_salud_mental (ext w)) as [[e1 | t] x1];
    simpl; [intros Heq; now inversion Heq |].
  destruct (agente_de_salud_mental_coloquial x1) as [[e2 | c] x2];
    simpl; [intros Heq; now inversion Heq |].
  destruct (agente_de_respuestas_salud_mental x2) as [[e3 | r] x3];
    simpl; [intros Heq; now inversion Heq | discriminate].
Qed.

(** C7. Every agent assembled by [agentPsychology] has a handoff list
    whose first entry is a responder passed as it is, without the
    [handoff] wrapper, and whose other entries are all [handoff] objects;
    so exactly one entry of the list is the default responder. *)
Theorem principal_agent_one_default (self : PsychologyClinicAgent)
    (uid msg : string) (w w' : World E) (a : Agent) :
  AgentePrincipal.agentPsychology self uid msg w = (inr a, w') →
  ∃ first rest,
    agent_handoffs a = first :: rest
    ∧ is_direct first = true
    ∧ forallb (λ h, negb (is_direct h)) rest = true
    ∧ length (filter (λ h, is_direct h = true) (agent_handoffs a)) = 1%nat.
Proof.
  intros Hrun.
  destruct (agentPsychology_returns _ _ _ _ _ _ Hrun) as (r & c & t & ->).
  simpl. eexists _, _. repeat split.
Qed.

End Principal_facts.

(** ** chroma.py: what a query leaves in the trace *)

Section Query_facts.
Context {E : Type} `{!Backend E}.

#[local] Abbreviation St := (ChromaService * World E)%type.

Lemma queries_of_snoc (t : list event) (ev : event) :
  queries_of (t ++ [ev])
  = queries_of t ++ match query_of ev with Some q => [q] | None => [] end.
Proof.
  unfold queries_of. rewrite omap_app. simpl. now destruct (query_of ev).
Qed.

Lemma create_client_frame (st st' : St) r :
  Chroma._create_client st = (r, st') →
  fst st' = fst st ∧ queries_of (trace (snd st')) = queries_of (trace (snd st)).
Proof.
  unfold Chroma._create_client. rewrite try_except_reraise.
  destruct st as [self w]. unfold getenv. run_monad.
  destruct (negb _ || negb _ || negb _); simpl.
  { intros Heq; inversion Heq; now split. }
  destruct (chromadb_CloudClient _ _ _ (ext w)) as [[e | []] e'];
    simpl; intros Heq; inversion Heq; simpl; split; try reflexivity;
    now rewrite queries_of_snoc, app_nil_r.
Qed.

Lemma create_embedder_frame (st st' : St) r :
  Chroma._create_embedder st = (r, st') →
  fst st' = fst st ∧ queries_of (trace (snd st')) = queries_of (trace (snd st)).
Proof.
  unfold Chroma._create_embedder. rewrite try_except_reraise.
  destruct st as [self w]. run_monad.
  destruct (negb _); simpl.
  { intros Heq; inversion Heq; now split. }
  destruct (OpenAIEmbeddingFunction _ _ (ext w)) as [[e | []] e'];
    simpl; intros Heq; inversion Heq; simpl; split; try reflexivity;
    now rewrite queries_of_snoc, app_nil_r.
Qed.

(** Obtaining a collection: the outcome in terms of its three steps. *)
Lemma get_or_create_collection_steps name (st : St) :
  Chroma._get_or_create_collection name st =
  match Chroma._create_client st with
  | (inl e, st1) => (inl e, st1)
  | (inr c, st1) =>
      match Chroma._create_embedder st1 with
      | (inl e, st2) => (inl e, st2)
      | (inr ef, st2) =>
          match client_get_or_create_collection c name ef Chroma.hnsw_cosine
                  (ext (snd st2)) with
          | (inl e, e') =>
              (inl e, (fst st2, mkWorld e' (trace (snd st2)
                                             ++ [EvGetOrCreateCollection c name])))
          | (inr _, e') =>
              (inr (mkCollection c name ef Chroma.hnsw_cosine),
               (fst st2, mkWorld e' (trace (snd st2)
                                       ++ [EvGetOrCreateCollection c name])))
          end
      end
  end.
Proof.
  unfold Chroma._get_or_create_collection. run_monad.
  destruct (Chroma._create_client st) as [[e1 | c] st1]; [reflexivity |].
  destruct (Chroma._create_embedder st1) as [[e2 | ef] st2]; [reflexivity |].
  destruct (client_get_or_create_collection _ _ _ _ _) as [[e3 | []] e'];
    reflexivity.
Qed.

Lemma get_or_create_collection_frame name (st st' : St) r :
  Chroma._get_or_create_collection name st = (r, st') →
  fst st' = fst st ∧ queries_of (trace (snd st')) = queries_of (trace (snd st)).
Proof.
  rewrite get_or_create_collection_steps.
  destruct (Chroma._create_client st) as [[e1 | c] st1] eqn:H1;
    pose proof (create_client_frame _ _ _ H1) as [Hs1 Hq1].
  { intros Heq; inversion Heq; subst. now split. }
  destruct (Chroma._create_embedder st1) as [[e2 | ef] st2] eqn:H2;
    pose proof (create_embedder_frame _ _ _ H2) as [Hs2 Hq2].
  { intros Heq; inversion Heq; subst. split; congruence. }
  destruct (client_get_or_create_collection _ _ _ _ _) as [[e3 | []] e'];
    intros Heq; inversion Heq; subst; simpl;
    rewrite queries_of_snoc, app_nil_r; split; congruence.
Qed.

(** A query that returns has asked the store exactly once, for the
    collection, texts and number of results it was given. *)
Lemma query_returns name texts n (st st' : St) results :
  Chroma.query name texts n st = (inr results, st') →
  fst st' = fst st
  ∧ queries_of (trace (snd st'))
    = queries_of (trace (snd st)) ++ [(name, texts, n)].
Proof.
  unfold Chroma.query.
  destruct (Chroma._get_or_create_collection name st) as [[e | c] st1] eqn:H1.
  { rewrite (bind_raises _ _ _ _ _ H1). discriminate. }
  rewrite (bind_returns _ _ _ _ _ H1).
  pose proof (get_or_create_collection_frame _ _ _ _ H1) as [Hs Hq].
  assert (coll_name c = name) as Hname.
  { rewrite get_or_create_collection_steps in H1.
    destruct (Chroma._create_client st) as [[? | ?] ?]; [discriminate |].
    destruct (Chroma._create_embedder _) as [[? | ?] ?]; [discriminate |].
    destruct (client_get_or_create_collection _ _ _ _ _) as [[? | ?] ?];
      inversion H1; reflexivity. }
  destruct st1 as [self1 w1]. run_monad.
  destruct (collection_query c texts n _ (ext w1)) as [[e | qr] e'];
    simpl; [discriminate |].
  intros Heq; inversion Heq; subst; simpl.
  rewrite queries_of_snoc. simpl. split; congruence.
Qed.

(** A query that raises has asked the store at most once. *)
Lemma query_raises name texts n (st st' : St) e :
  Chroma.query name texts n st = (inl e, st') →
  queries_of (trace (snd st')) = queries_of (trace (snd st))
  ∨ queries_of (trace (snd st'))
    = queries_of (trace (snd st)) ++ [(name, texts, n)].
Proof.
  unfold Chroma.query.
  destruct (Chroma._get_or_create_collection name st) as [[e1 | c] st1] eqn:H1.
  { rewrite (bind_raises _ _ _ _ _ H1). intros Heq; inversion Heq; subst.
    left. now apply (get_or_create_collection_frame _ _ _ _ H1). }
  rewrite (bind_returns _ _ _ _ _ H1).
  pose proof (get_or_create_collection_frame _ _ _ _ H1) as [Hs Hq].
  assert (coll_name c = name) as Hname.
  { rewrite get_or_create_collection_steps in H1.
    destruct (Chroma._create_client st) as [[? | ?] ?]; [discriminate |].
    destruct (Chroma._create_embedder _) as [[? | ?] ?]; [discriminate |].
    destruct (client_get_or_create_collection _ _ _ _ _) as [[? | ?] ?];
      inversion H1; reflexivity. }
  destruct st1 as [self1 w1]. run_monad.
  destruct (collection_query c texts n _ (ext w1)) as [[e2 | qr] e'];
    simpl; [| discriminate].
  intros Heq; inversion Heq; subst; simpl.
  rewrite queries_of_snoc. simpl. right. congruence.
Qed.

End Query_facts.

(** ** agente_examenes_salud_mental.py: the retrieval tool *)

Section Tool_facts.
Context {E : Type} `{!Backend E}.

#[local] Abbreviation St := (ChromaService * World E)%type.

(** The tool is its query followed by a choice on [results['documents']]. *)
Lemma buscar_after_query q (st st' : St) results :
  Chroma.query (value EXAMENES_DE_SALUD_MENTAL) [q] 3 st = (inr results, st') →
  AgenteExamenes.buscar_conocimiento_con_RAG q st =
  match qr_documents results with
  | Some (first :: _) =>
      (inr ("Información encontrada:" +:+ LF +:+ str_join (LF +:+ LF) first), st')
  | _ => (inr "No se encontró información relevante.", st')
  end.
Proof.
  intros Hq. unfold AgenteExamenes.buscar_conocimiento_con_RAG.
  rewrite (bind_returns _ _ _ _ _ Hq).
  destruct (qr_documents results) as [[| first rest] |]; reflexivity.
Qed.

(** An error of the query is the error of the tool. *)
Lemma buscar_query_raises q (st st' : St) e :
  Chroma.query (value EXAMENES_DE_SALUD_MENTAL) [q] 3 st = (inl e, st') →
  AgenteExamenes.buscar_conocimiento_con_RAG q st = (inl e, st').
Proof.
  intros Hq. unfold AgenteExamenes.buscar_conocimiento_con_RAG.
  now rewrite (bind_raises _ _ _ _ _ Hq).
Qed.

(** The sentinel is returned when [results['documents']] is [None] or the
    empty list. *)
Lemma buscar_sentinel q (st st' : St) results :
  Chroma.query (value EXAMENES_DE_SALUD_MENTAL) [q] 3 st = (inr results, st') →
  qr_documents results = None ∨ qr_documents results = Some [] →
  AgenteExamenes.buscar_conocimiento_con_RAG q st
  = (inr "No se encontró información relevante.", st').
Proof.
  intros Hq Hdocs. rewrite (buscar_after_query _ _ _ _ Hq).
  now destruct Hdocs as [-> | ->].
Qed.

(** C3. When the query behind the tool returns a non-empty list of
    documents for the query text, the tool returns the fixed header
    [Información encontrada:] (the spec's "Information found:"), a line
    feed, and then the documents in the order the store gave them,
    separated by a blank line.  The run asks the store one similarity
    query, on the collection [mental_health_screenings], for the single
    text [query] and 3 results. *)
Theorem buscar_formats_documents (q : string) (st st' : St)
    (results : QueryResult) (docs : list string) (others : list (list string)) :
  Chroma.query (value EXAMENES_DE_SALUD_MENTAL) [q] 3 st = (inr results, st') →
  qr_documents results = Some (docs :: others) →
  docs ≠ [] →
  AgenteExamenes.buscar_conocimiento_con_RAG q st
  = (inr ("Información encontrada:" +:+ LF +:+ str_join (LF +:+ LF) docs), st')
  ∧ queries_of (trace (snd st'))
    = queries_of (trace (snd st)) ++ [("mental_health_screenings", [q], 3%Z)].
Proof.
  intros Hq Hdocs _. split.
  - rewrite (buscar_after_query _ _ _ _ Hq). now rewrite Hdocs.
  - now apply (query_returns _ _ _ _ _ _ Hq).
Qed.

(** The documents are joined in the order given: the text of two
    documents is the first, a blank line, the second. *)
Lemma str_join_two (a b : string) :
  str_join (LF +:+ LF) [a; b] = a +:+ LF +:+ LF +:+ b.
Proof. reflexivity. Qed.

(** C1. Where the store finds no document for the query text,
    [results['documents']] is a list holding one empty list, which Python
    takes as true: the tool then returns the header followed by nothing,
    and not the sentinel [No se encontró información relevante.] (the
    spec's "No relevant information found."). *)
Theorem buscar_no_documents_returns_header (q : string) (st st' : St)
    (results : QueryResult) (others : list (list string)) :
  Chroma.query (value EXAMENES_DE_SALUD_MENTAL) [q] 3 st = (inr results, st') →
  qr_documents results = Some ([] :: others) →
  AgenteExamenes.buscar_conocimiento_con_RAG q st
  = (inr ("Información encontrada:" +:+ LF), st')
  ∧ "Información encontrada:" +:+ LF ≠ "No se encontró información relevante.".
Proof.
  intros Hq Hdocs. split; [| discriminate].
  rewrite (buscar_after_query _ _ _ _ Hq). now rewrite Hdocs.
Qed.

End Tool_facts.

(** ** chroma.py: upsert and reset *)

Section Write_facts.
Context {E : Type} `{!Backend E}.

#[local] Abbreviation St := (ChromaService * World E)%type.

(** C6, as amended.  [upsert_texts] compares no lengths and raises no
    error of its own.  With no texts it returns normally, whatever the
    lengths of [metadatas] and [ids].  With some texts it obtains the
    collection and hands the three arrays, as they are, to the store's
    [upsert]: the outcome of that call, its result or the error it
    raises, is the outcome of [upsert_texts]. *)
Theorem upsert_texts_defers_to_store (texts : list string)
    (name_collection : string) (metadatas : list Metadata)
    (ids : list string) (st : St) :
  (texts = [] →
   Chroma.upsert_texts texts name_collection metadatas ids st = (inr tt, st))
  ∧ (texts ≠ [] →
     ∀ (c : Collection) (st1 : St) (r : PyExc + unit) (e' : E),
       Chroma._get_or_create_collection name_collection st = (inr c, st1) →
       collection_upsert c texts metadatas ids (ext (snd st1)) = (r, e') →
       Chroma.upsert_texts texts name_collection metadatas ids st
       = (r, (fst st1,
              mkWorld e' (trace (snd st1)
                            ++ [EvCollectionUpsert c texts metadatas ids])))).
Proof.
  split.
  - intros ->. reflexivity.
  - intros Hne c st1 r e' Hcol Hup.
    unfold Chroma.upsert_texts.
    destruct texts as [| t texts]; [congruence |]. simpl.
    rewrite (bind_returns _ _ _ _ _ Hcol).
    destruct st1 as [self1 w1]. run_monad. rewrite Hup.
    now destruct r as [e | []].
Qed.

(** When the collection cannot be obtained, that error comes out and the
    store's [upsert] is never called. *)
Lemma upsert_texts_collection_raises texts name_collection metadatas ids
    (st st1 : St) e :
  Chroma._get_or_create_collection name_collection st = (inl e, st1) →
  Chroma.upsert_texts texts name_collection metadatas ids st
  = if truthy_list texts then (inl e, st1) else (inr tt, st).
Proof.
  intros Hcol. unfold Chroma.upsert_texts.
  destruct texts as [| t texts]; simpl; [reflexivity |].
  now rewrite (bind_raises _ _ _ _ _ Hcol).
Qed.

(** The [client] property touches nothing but the cached client. *)
Lemma client_frame (st st' : St) r :
  Chroma.client st = (r, st') →
  cfg (fst st') = cfg (fst st) ∧ collection (fst st') = collection (fst st).
Proof.
  unfold Chroma.client. destruct st as [self w]. run_monad.
  destruct (_client self) as [c |]; simpl.
  { intros Heq; inversion Heq; now split. }
  destruct (Chroma._create_client (self, w)) as [[e | c] st1] eqn:H1;
    pose proof (create_client_frame _ _ _ H1) as [Hs _]; simpl in Hs;
    simpl; intros Heq; inversion Heq; subst; simpl; rewrite ?Hs; now split.
Qed.

(** C9. [reset_collection] deletes before it recreates, with no check
    that the collection exists.  When the store's [delete_collection]
    fails, as it does for a name the store does not hold, the error comes
    out of [reset_collection]; the delete is the last call made, so the
    collection is not obtained or created afterwards, and [self.collection]
    is not assigned. *)
Theorem reset_collection_delete_fails (name_collection : string)
    (st st1 : St) (c : CloudClient) (err : PyExc) (e' : E) :
  Chroma.client st = (inr c, st1) →
  client_delete_collection c name_collection (ext (snd st1)) = (inl err, e') →
  Chroma.reset_collection name_collection st
  = (inl err,
     (fst st1,
      mkWorld e' (trace (snd st1) ++ [EvDeleteCollection c name_collection])))
  ∧ collection (fst st1) = collection (fst st).
Proof.
  intros Hclient Hdel. split.
  - unfold Chroma.reset_collection.
    rewrite (bind_returns _ _ _ _ _ Hclient).
    destruct st1 as [self1 w1]. run_monad. now rewrite Hdel.
  - now apply (client_frame _ _ _ Hclient).
Qed.

End Write_facts.

(** ** orquestador.py: one turn *)

Section Orquestador_turn.
Context {E : Type} `{!Backend E} `{!Siblings E}.

#[local] Abbreviation St := (Orquestador * World E)%type.

(** Step 1 fails: the session cannot be created. *)
Lemma try_session_raises (self : Orquestador) (w w1 : World E) e :
  history self = None →
  Message.create_and_get_session_id (user_id self) w = (inl e, w1) →
  Orq.generate_response_try (self, w) = (inl e, (self, w1)).
Proof.
  intros Hnone Hcreate. unfold Orq.generate_response_try.
  unfold Orq._create_history_session, try_except. run_monad.
  rewrite Hnone. simpl. now rewrite Hcreate.
Qed.

(** Step 1 succeeds: the turn goes on as from an orchestrator that holds
    the new session. *)
Lemma try_session_created (self : Orquestador) (w w1 : World E) h :
  history self = None →
  Message.create_and_get_session_id (user_id self) w = (inr h, w1) →
  Orq.generate_response_try (self, w)
  = Orq.generate_response_try (with_history self h, w1).
Proof.
  intros Hnone Hcreate. unfold Orq.generate_response_try.
  unfold Orq._create_history_session, try_except. run_monad.
  rewrite Hnone. simpl. now rewrite Hcreate.
Qed.

(** Steps 2 to 4 from an orchestrator that holds a session. *)
Lemma try_with_session (self : Orquestador) (w : World E) h :
  history self = Some h →
  Orq.generate_response_try (self, w) =
  match AgentePrincipal.__init__ "gpt-5-mini" with
  | inl e => (inl e, (self, w))
  | inr pca =>
      match AgentePrincipal.agentPsychology pca (user_id self) (message self) w with
      | (inl e, w2) => (inl e, (self, w2))
      | (inr agent, w2) =>
          let ran := trace w2 ++ [EvRunnerRun agent (message self) (Some h)] in
          match Runner_run agent (message self) (Some h) (ext w2) with
          | (inl e, e3) => (inl e, (self, mkWorld e3 ran))
          | (inr result, e3) =>
              match SQLiteSession_get_items h e3 with
              | (inl e, e4) =>
                  (inl e, (self, mkWorld e4 (ran ++ [EvGetItems h])))
              | (inr items, e4) =>
                  (inr (turn_payload result items),
                   (self, mkWorld e4 (ran ++ [EvGetItems h])))
              end
          end
      end
  end.
Proof.
  intros Hh. destruct self as [uid msg hist]. simpl in Hh. subst hist.
  unfold Orq.generate_response_try, Orq._get_all_history, Orq.construct.
  run_monad.
  destruct (AgentePrincipal.__init__ "gpt-5-mini") as [e | pca]; simpl;
    [reflexivity |].
  destruct (AgentePrincipal.agentPsychology pca _ _ w) as [[e | agent] w2];
    simpl; [reflexivity |].
  destruct (Runner_run agent _ _ (ext w2)) as [[e | result] e3];
    simpl; [reflexivity |].
  destruct (SQLiteSession_get_items h e3) as [[e | items] e4]; reflexivity.
Qed.

(** The try block raises exactly when one of its steps does. *)
Lemma try_raises_of_step (st : St) e :
  step_raises st e → ∃ st1, Orq.generate_response_try st = (inl e, st1).
Proof.
  induction 1 as
    [ self w w1 e Hnone Hcreate
    | self w w1 h e Hnone Hcreate _ IH
    | self w h e Hh Hinit
    | self w h pca w2 e Hh Hinit Hagent
    | self w h pca agent w2 e e3 Hh Hinit Hagent Hrun
    | self w h pca agent w2 result e3 e e4 Hh Hinit Hagent Hrun Hget ].
  - eexists. eapply try_session_raises; eassumption.
  - destruct IH as [st1 IH]. exists st1.
    now rewrite (try_session_created _ _ _ _ Hnone Hcreate).
  - eexists. rewrite (try_with_session _ _ _ Hh), Hinit. reflexivity.
  - eexists. rewrite (try_with_session _ _ _ Hh), Hinit, Hagent. reflexivity.
  - eexists. rewrite (try_with_session _ _ _ Hh), Hinit, Hagent. simpl.
    rewrite Hrun. reflexivity.
  - eexists. rewrite (try_with_session _ _ _ Hh), Hinit, Hagent. simpl.
    rewrite Hrun, Hget. reflexivity.
Qed.

Lemma error_payload_keys (e : PyExc) : dom (error_payload e) = {[ "error" ]}.
Proof. unfold error_payload. now rewrite dom_singleton_L. Qed.

(** C2. [generate_response] returns for every orchestrator and every
    state of the services: no exception leaves it.  Whenever a step of
    the turn raises (creating the history session, assembling the agent,
    the run of the agent runtime, reading the history back), the value
    returned is a dictionary whose only key is ["error"], bound to a
    message string made from the text of the exception. *)
Theorem generate_response_never_raises (st : St) :
  (∃ d st', Orq.generate_response st = (inr d, st'))
  ∧ (∀ e, step_raises st e →
       ∃ st', Orq.generate_response st = (inr (error_payload e), st')
              ∧ dom (error_payload e) = {[ "error" ]}
              ∧ error_payload e !! "error"
                = Some (VStr ("Error procesando la solicitud: " +:+ exc_str e))).
Proof.
  split.
  - unfold Orq.generate_response, try_except.
    destruct (Orq.generate_response_try st) as [[e | d] st']; eauto.
  - intros e Hstep. destruct (try_raises_of_step _ _ Hstep) as [st1 Htry].
    exists st1. split; [| split].
    + unfold Orq.generate_response.
      now rewrite (try_except_raises _ _ _ _ _ Htry).
    + apply error_payload_keys.
    + unfold error_payload. now rewrite lookup_singleton_eq.
Qed.

(** A turn that went through, taken apart. *)
Lemma try_returns_inv (self : Orquestador) (w : World E) d st' :
  Orq.generate_response_try (self, w) = (inr d, st') →
  ∃ h agent w_pre result e_run items e_end,
    history (fst st') = Some h
    ∧ message (fst st') = message self
    ∧ Runner_run agent (message self) (Some h) (ext w_pre) = (inr result, e_run)
    ∧ SQLiteSession_get_items h e_run = (inr items, e_end)
    ∧ d = turn_payload result items
    ∧ snd st'
      = mkWorld e_end (trace w_pre
                         ++ [EvRunnerRun agent (message self) (Some h);
                             EvGetItems h]).
Proof.
  assert (∀ (self0 : Orquestador) (w0 : World E) h,
            history self0 = Some h →
            Orq.generate_response_try (self0, w0) = (inr d, st') →
            ∃ agent w_pre result e_run items e_end,
              fst st' = self0
              ∧ Runner_run agent (message self0) (Some h) (ext w_pre)
                = (inr result, e_run)
              ∧ SQLiteSession_get_items h e_run = (inr items, e_end)
              ∧ d = turn_payload result items
              ∧ snd st'
                = mkWorld e_end (trace w_pre
                                   ++ [EvRunnerRun agent (message self0) (Some h);
                                       EvGetItems h])) as Hheld.
  { intros self0 w0 h Hh. rewrite (try_with_session _ _ _ Hh).
    destruct (AgentePrincipal.__init__ "gpt-5-mini") as [e | pca];
      [discriminate |].
    destruct (AgentePrincipal.agentPsychology pca _ _ w0) as [[e | agent] w2];
      [discriminate |].
    simpl.
    destruct (Runner_run agent _ _ (ext w2)) as [[e | result] e3] eqn:Hrun;
      [discriminate |].
    destruct (SQLiteSession_get_items h e3) as [[e | items] e4] eqn:Hget;
      [discriminate |].
    intros Heq; inversion Heq; subst; simpl.
    exists agent, w2, result, e3, items, e4.
    rewrite <- app_assoc. simpl. repeat split; assumption. }
  destruct (history self) as [h |] eqn:Hh.
  - intros Htry.
    destruct (Hheld _ _ _ Hh Htry) as (agent & w_pre & result & e_run & items
                                       & e_end & Hself & Hrun & Hget & Hd & Hw).
    exists h, agent, w_pre, result, e_run, items, e_end.
    rewrite Hself. repeat split; assumption.
  - destruct (Message.create_and_get_session_id (user_id self) w)
      as [[e | h] w1] eqn:Hcreate.
    + rewrite (try_session_raises _ _ _ _ Hh Hcreate). discriminate.
    + rewrite (try_session_created _ _ _ _ Hh Hcreate). intros Htry.
      destruct (Hheld (with_history self h) w1 h eq_refl Htry)
        as (agent & w_pre & result & e_run & items & e_end
            & Hself & Hrun & Hget & Hd & Hw).
      exists h, agent, w_pre, result, e_run, items, e_end.
      rewrite Hself. repeat split; assumption.
Qed.

(** C4. In every turn that goes through, the history returned under
    ["historial"] is the list that the session's [get_items] gives in the
    state of the services that [Runner.run] left behind: the read comes
    after the run (it is the last external call, right after the run), on
    the session the run was given, so it holds whatever records the run
    stored there for the turn. *)
Theorem generate_response_rereads_history (self : Orquestador) (w : World E)
    (d : gmap string PyVal) (st' : St) :
  Orq.generate_response (self, w) = (inr d, st') →
  d !! "error" = None →
  ∃ h agent w_pre result e_run items e_end,
    history (fst st') = Some h
    ∧ Runner_run agent (message self) (Some h) (ext w_pre) = (inr result, e_run)
    ∧ SQLiteSession_get_items h e_run = (inr items, e_end)
    ∧ d !! "respuesta" = Some (VStr (final_output result))
    ∧ d !! "historial" = Some (VItems items)
    ∧ snd st'
      = mkWorld e_end (trace w_pre
                         ++ [EvRunnerRun agent (message self) (Some h);
                             EvGetItems h]).
Proof.
  unfold Orq.generate_response, try_except.
  destruct (Orq.generate_response_try (self, w)) as [[e | d0] st0] eqn:Htry.
  - intros Heq Hnoerr. inversion Heq; subst.
    unfold error_payload in Hnoerr. now rewrite lookup_singleton_eq in Hnoerr.
  - intros Heq _. inversion Heq; subst.
    destruct (try_returns_inv _ _ _ _ Htry)
      as (h & agent & w_pre & result & e_run & items & e_end
          & Hh & _ & Hrun & Hget & Hd & Hw).
    exists h, agent, w_pre, result, e_run, items, e_end.
    subst d. unfold turn_payload. repeat split; assumption.
Qed.

End Orquestador_turn.

(** * Part III: the program on the reference backend *)

Section Reference_runs.

#[local] Abbreviation screenings := (value EXAMENES_DE_SALUD_MENTAL).

(** An empty store: the query returns one empty list of documents, and
    the tool answers with the bare header. *)
Lemma buscar_no_documents_returns_header_witness :
  let st := (Ref.service0, Ref.world0) in
  let st' := snd (Chroma.query screenings ["insomnio"] 3 st) in
  Chroma.query screenings ["insomnio"] 3 st
  = (inr (mkQueryResult [[]] (Some [[]])), st')
  ∧ AgenteExamenes.buscar_conocimiento_con_RAG "insomnio" st
    = (inr ("Información encontrada:" +:+ LF), st').
Proof.
  intros st st'.
  assert (Chroma.query screenings ["insomnio"] 3 st
          = (inr (mkQueryResult [[]] (Some [[]])), st')) as Hq
    by (vm_compute; reflexivity).
  split; [exact Hq |].
  apply (buscar_no_documents_returns_header "insomnio" st st'
           (mkQueryResult [[]] (Some [[]])) [] Hq eq_refl).
Defined.

(** A store with two screening documents. *)
Lemma buscar_formats_documents_witness :
  let st := (Ref.service0, Ref.world1) in
  let st' := snd (Chroma.query screenings ["insomnio"] 3 st) in
  let docs := [ "PHQ-9: cuestionario de nueve preguntas sobre depresión.";
                "ISI: índice de severidad del insomnio." ] in
  AgenteExamenes.buscar_conocimiento_con_RAG "insomnio" st
  = (inr ("Información encontrada:" +:+ LF +:+
          "PHQ-9: cuestionario de nueve preguntas sobre depresión."
          +:+ LF +:+ LF +:+ "ISI: índice de severidad del insomnio."), st')
  ∧ queries_of (trace (snd st'))
    = [("mental_health_screenings", ["insomnio"], 3%Z)].
Proof.
  intros st st' docs.
  apply (buscar_formats_documents "insomnio" st st'
           (mkQueryResult [["phq9"; "isi"]] (Some [docs])) docs []).
  - vm_compute; reflexivity.
  - reflexivity.
  - discriminate.
Defined.

Lemma session_key_is_stable_witness :
  let s := mkSQLiteSession "session_u1" "conversations.db" in
  session_id s = "session_u1" ∧ db_path s = "conversations.db" ∧ s = s
  ∧ ∀ e : Ref.State, SQLiteSession_get_items s e = SQLiteSession_get_items s e.
Proof.
  intros s.
  apply (session_key_is_stable "u1" Ref.world0 Ref.world1
           (snd (Message.create_and_get_session_id "u1" Ref.world0))
           (snd (Message.create_and_get_session_id "u1" Ref.world1)) s s);
    reflexivity.
Defined.

(** Unequal lengths, no texts: the call returns normally. *)
Lemma upsert_texts_accepts_unequal_lengths :
  ¬ (length ([] : list string) ≠ length ["doc-1"] →
     ∃ e st', Chroma.upsert_texts [] "mental_health_disorders" [] ["doc-1"]
                (Ref.service0, Ref.world0) = (inl e, st')
              ∧ exc_type e = "InvalidArgument").
Proof.
  intros Hclaim. destruct Hclaim as (e & st' & Hcall & _); [discriminate |].
  discriminate Hcall.
Qed.

(** Unequal lengths, some texts: the error is the store's, and the
    collection has been created on the way. *)
Lemma upsert_texts_defers_to_store_witness :
  let st := (Ref.service0, Ref.world0) in
  let r := Chroma.upsert_texts ["texto"] "mental_health_disorders" []
             ["doc-1"; "doc-2"] st in
  fst r = inl (ValueError "Unequal lengths for fields")
  ∧ Ref.collections (ext (snd (snd r))) !! "mental_health_disorders" = Some [].
Proof.
  intros st r.
  pose (st1 := snd (Chroma._get_or_create_collection "mental_health_disorders" st)).
  pose (c := mkCollection (mkCloudClient "ck-test" "tenant" "Development")
               "mental_health_disorders"
               (mkEmbeddingFunction "sk-test" "text-embedding-3-small")
               Chroma.hnsw_cosine).
  assert (r = (inl (ValueError "Unequal lengths for fields"),
               (fst st1,
                mkWorld (ext (snd st1))
                  (trace (snd st1)
                     ++ [EvCollectionUpsert c ["texto"] [] ["doc-1"; "doc-2"]]))))
    as Hr.
  { apply (proj2 (upsert_texts_defers_to_store ["texto"]
                    "mental_health_disorders" [] ["doc-1"; "doc-2"] st));
      [discriminate | vm_compute; reflexivity | vm_compute; reflexivity]. }
  rewrite Hr. split; [reflexivity | vm_compute; reflexivity].
Defined.

Lemma principal_agent_one_default_witness :
  let pca := mkPsychologyClinicAgent "gpt-5-mini" Ref.service0 in
  ∃ first rest,
    agent_handoffs
      (mkAgent "TerapyBot" (Some "gpt-5-mini") "You are TerapyBot." []
         [ DirectAgent (mkAgent "AgenteDeRespuestasDeSaludMental" None "" [] []);
           HandoffObject (handoff (mkAgent "AgenteDeSaludMentalColoquial" None "" [] []));
           HandoffObject (handoff (mkAgent "AgenteDeTranstornosDeSaludMental" None "" [] []));
           HandoffObject (handoff AgenteExamenes.agente_de_examenes_salud_mental) ])
    = first :: rest
    ∧ is_direct first = true
    ∧ forallb (λ h, negb (is_direct h)) rest = true
    ∧ length (filter (λ h, is_direct h = true)
                (agent_handoffs
                   (mkAgent "TerapyBot" (Some "gpt-5-mini") "You are TerapyBot." []
                      [ DirectAgent (mkAgent "AgenteDeRespuestasDeSaludMental" None "" [] []);
                        HandoffObject (handoff (mkAgent "AgenteDeSaludMentalColoquial" None "" [] []));
                        HandoffObject (handoff (mkAgent "AgenteDeTranstornosDeSaludMental" None "" [] []));
                        HandoffObject (handoff AgenteExamenes.agente_de_examenes_salud_mental) ])))
      = 1%nat.
Proof.
  intros pca.
  apply (principal_agent_one_default pca "u1" "hola" Ref.world0 Ref.world0).
  reflexivity.
Defined.

(** Resetting a collection that the store does not hold. *)
Lemma reset_collection_delete_fails_witness :
  let st := (Ref.service0, Ref.world0) in
  let r := Chroma.reset_collection "mental_health_screenings" st in
  fst r = inl (Ref.NotFoundError "mental_health_screenings")
  ∧ Ref.collections (ext (snd (snd r))) !! "mental_health_screenings" = None
  ∧ collection (fst (snd r)) = None.
Proof.
  intros st r.
  pose (c := mkCloudClient "ck-test" "tenant" "Development").
  pose (st1 := snd (Chroma.client st)).
  destruct (reset_collection_delete_fails "mental_health_screenings" st st1 c
              (Ref.NotFoundError "mental_health_screenings") (ext (snd st1)))
    as [Hr _]; [vm_compute; reflexivity | vm_compute; reflexivity |].
  unfold r. rewrite Hr. repeat split.
Defined.

Lemma get_all_history_without_session_witness :
  Orq._get_all_history "u1" (Orq.__init__ "u1" "hola", Ref.world0)
  = (inr [], (Orq.__init__ "u1" "hola", Ref.world0)).
Proof.
  apply (get_all_history_without_session "u1" (Orq.__init__ "u1" "hola")
           Ref.world0).
  reflexivity.
Defined.

(** The agent runtime is down: the caller gets the error dictionary. *)
Lemma generate_response_never_raises_witness :
  let st := (Orq.__init__ "u1" "hola", Ref.world_down) in
  ∃ st', Orq.generate_response st
         = (inr ({[ "error" :=
                      VStr "Error procesando la solicitud: Connection error." ]}
                 : gmap string PyVal), st').
Proof.
  intros st.
  assert (step_raises st (mkExc "APIConnectionError" "Connection error."))
    as Hstep.
  { eapply later_step_raises; [reflexivity | vm_compute; reflexivity |].
    eapply runtime_turn_raises; [reflexivity | reflexivity | |];
      vm_compute; reflexivity. }
  destruct (proj2 (generate_response_never_raises st) _ Hstep)
    as (st' & Hrun & _).
  exists st'. exact Hrun.
Defined.

(** A first turn: the history returned holds the two records of the turn. *)
Lemma generate_response_rereads_history_witness :
  let st := (Orq.__init__ "u1" "hola", Ref.world0) in
  let r := Orq.generate_response st in
  fst r = inr (turn_payload (mkRunResult "Te escucho.")
                 [mkItem "user" "hola"; mkItem "assistant" "Te escucho."])
  ∧ ∃ h agent w_pre result e_run items e_end,
      history (fst (snd r)) = Some h
      ∧ Runner_run agent "hola" (Some h) (ext w_pre) = (inr result, e_run)
      ∧ SQLiteSession_get_items h e_run = (inr items, e_end)
      ∧ turn_payload (mkRunResult "Te escucho.")
          [mkItem "user" "hola"; mkItem "assistant" "Te escucho."]
        !! "respuesta" = Some (VStr (final_output result))
      ∧ turn_payload (mkRunResult "Te escucho.")
          [mkItem "user" "hola"; mkItem "assistant" "Te escucho."]
        !! "historial" = Some (VItems items)
      ∧ snd (snd r)
        = mkWorld e_end (trace w_pre
                           ++ [EvRunnerRun agent "hola" (Some h); EvGetItems h]).
Proof.
  intros st r.
  assert (r = (inr (turn_payload (mkRunResult "Te escucho.")
                      [mkItem "user" "hola"; mkItem "assistant" "Te escucho."]),
               snd r)) as Hr by (vm_compute; reflexivity).
  split; [now rewrite Hr |].
  apply (generate_response_rereads_history (Orq.__init__ "u1" "hola")
           Ref.world0 _ (snd r) Hr).
  reflexivity.
Defined.

End Reference_runs.

(** ** The reference backend, for every state of it *)

Section Reference_laws.

(** Obtaining the client leaves the reference store as it is. *)
Lemma ref_create_client_keeps_store (st st1 : ChromaService * World Ref.State) r :
  Chroma._create_client st = (r, st1) → ext (snd st1) = ext (snd st).
Proof.
  unfold Chroma._create_client. rewrite try_except_reraise.
  destruct st as [svc w]. unfold getenv. run_monad.
  destruct (negb _ || negb _ || negb _); simpl;
    intros Heq; now inversion Heq.
Qed.

Lemma ref_client_keeps_store (svc : ChromaService) (w : World Ref.State) r st1 :
  Chroma.client (svc, w) = (r, st1) → ext (snd st1) = ext w.
Proof.
  unfold Chroma.client. run_monad.
  destruct (_client svc) as [c |]; simpl.
  { intros Heq; now inversion Heq. }
  destruct (Chroma._create_client (svc, w)) as [[e | c] st0] eqn:Hc;
    apply ref_create_client_keeps_store in Hc; simpl in Hc;
    intros Heq; inversion Heq; subst; simpl; assumption.
Qed.

(** On the reference store, resetting a collection that is not there
    raises, whatever the service object and the environment, and the
    collection is still not there afterwards. *)
Lemma ref_reset_collection_absent (name : string) (svc : ChromaService)
    (w : World Ref.State) :
  Ref.collections (ext w) !! name = None →
  ∃ err st',
    Chroma.reset_collection name (svc, w) = (inl err, st')
    ∧ Ref.collections (ext (snd st')) !! name = None
    ∧ collection (fst st') = collection svc.
Proof.
  intros Habsent.
  destruct (Chroma.client (svc, w)) as [[e | c] st1] eqn:Hclient;
    pose proof (ref_client_keeps_store _ _ _ _ Hclient) as Hext;
    pose proof (client_frame _ _ _ Hclient) as [_ Hcol]; simpl in Hcol.
  - exists e, st1. unfold Chroma.reset_collection.
    rewrite (bind_raises _ _ _ _ _ Hclient). rewrite Hext. auto.
  - destruct st1 as [svc1 w1]. simpl in Hext, Hcol.
    exists (Ref.NotFoundError name).
    exists (svc1, mkWorld (ext w) (trace w1 ++ [EvDeleteCollection c name])).
    unfold Chroma.reset_collection.
    rewrite (bind_returns _ _ _ _ _ Hclient). run_monad.
    unfold Ref.delete_collection. rewrite Hext, Habsent. simpl. auto.
Qed.

(** On the reference backend a turn always goes through while the
    runtime is up, and the history returned is the log the session held
    before the turn followed by the two records of the turn. *)
Lemma ref_turn_appends_to_history (uid msg : string) (e : Ref.State)
    (t : list event) :
  Ref.runtime_fault e = None →
  let s := mkSQLiteSession ("session_" +:+ uid) "conversations.db" in
  fst (Orq.generate_response (Orq.__init__ uid msg, mkWorld e t))
  = inr (turn_payload (mkRunResult "Te escucho.")
           (Ref.log_of s e
              ++ [mkItem "user" msg; mkItem "assistant" "Te escucho."])).
Proof.
  intros Hup s. unfold Orq.generate_response.
  erewrite try_except_returns; [reflexivity |].
  erewrite try_session_created; [| reflexivity | reflexivity].
  erewrite try_with_session; [| reflexivity].
  simpl. unfold Ref.run_turn. rewrite Hup. simpl.
  unfold Ref.get_items, Ref.log_of at 1. simpl.
  rewrite lookup_insert_eq. reflexivity.
Qed.

End Reference_laws.

(** * Part IV: further properties *)

(** ** chroma.py: configuration and credentials *)

Section Chroma_configuration.
Context {E : Type} `{!Backend E}.

#[local] Abbreviation St := (ChromaService * World E)%type.

Lemma store_calls_snoc (t : list event) (ev : event) :
  store_calls (t ++ [ev])
  = store_calls t ++ (if is_store_call ev then [ev] else []).
Proof.
  unfold store_calls. rewrite List.filter_app. simpl.
  now destruct (is_store_call ev).
Qed.

(** [_create_client], step by step. *)
Lemma create_client_steps (self : ChromaService) (w : World E) :
  Chroma._create_client (self, w) =
  let api_key := os_getenv "CHROMA_API_KEY" (ext w) in
  let tenant_id := os_getenv "CHROMA_TENANT_ID" (ext w) in
  let database_name := os_getenv "CHROMA_DATABASE_NAME" (ext w) in
  if negb (truthy_opt_str api_key) || negb (truthy_opt_str tenant_id)
     || negb (truthy_opt_str database_name)
  then (inl (ValueError
         "CHROMA_API_KEY, CHROMA_TENANT_ID o CHROMA_DATABASE_NAME no configuradas."),
        (self, w))
  else
    let ev := EvCloudClient (the api_key) (the tenant_id) (the database_name) in
    match chromadb_CloudClient (the api_key) (the tenant_id) (the database_name)
            (ext w) with
    | (inl e, e') => (inl e, (self, mkWorld e' (trace w ++ [ev])))
    | (inr _, e') =>
        (inr (mkCloudClient (the api_key) (the tenant_id) (the database_name)),
         (self, mkWorld e' (trace w ++ [ev])))
    end.
Proof.
  unfold Chroma._create_client. rewrite try_except_reraise.
  unfold getenv. run_monad.
  destruct (negb _ || negb _ || negb _); simpl; [reflexivity |].
  destruct (chromadb_CloudClient _ _ _ (ext w)) as [[e | []] e']; reflexivity.
Qed.

(** [_create_embedder], step by step. *)
Lemma create_embedder_steps (self : ChromaService) (w : World E) :
  Chroma._create_embedder (self, w) =
  let api_key := openai_api_key (cfg self) in
  if negb (truthy_opt_str api_key)
  then (inl (ValueError
         "OPENAI_API_KEY no configurada y EMBEDDINGS_PROVIDER=openai."),
        (self, w))
  else
    let ev := EvOpenAIEmbeddingFunction (the api_key) "text-embedding-3-small" in
    match OpenAIEmbeddingFunction (the api_key) "text-embedding-3-small" (ext w) with
    | (inl e, e') => (inl e, (self, mkWorld e' (trace w ++ [ev])))
    | (inr _, e') =>
        (inr (mkEmbeddingFunction (the api_key) "text-embedding-3-small"),
         (self, mkWorld e' (trace w ++ [ev])))
    end.
Proof.
  unfold Chroma._create_embedder. rewrite try_except_reraise. run_monad.
  destruct (negb _); simpl; [reflexivity |].
  destruct (OpenAIEmbeddingFunction _ _ (ext w)) as [[e | []] e']; reflexivity.
Qed.

(** X1. The service is constructed from its default configuration unless
    the variable CHROMA_DATABASE_NAME was set to the empty string when
    the module was imported; an unset variable falls back to the name
    [Development].  The error is the [ValueError] of [_validate_cfg], and
    a service that is constructed holds no client and no collection. *)
Theorem get_chroma_service_checks_database :
  (os_getenv_at_import "CHROMA_DATABASE_NAME" = Some "" →
   Chroma.get_chroma_service = inl (ValueError "CHROMA_DATABASE no configurada."))
  ∧ (os_getenv_at_import "CHROMA_DATABASE_NAME" ≠ Some "" →
     Chroma.get_chroma_service
     = inr {| cfg := Chroma.ChromaConfig_new; _client := None; collection := None |}
     ∧ database Chroma.ChromaConfig_new ≠ "")
  ∧ (os_getenv_at_import "CHROMA_DATABASE_NAME" = None →
     database Chroma.ChromaConfig_new = "Development").
Proof.
  unfold Chroma.get_chroma_service, Chroma.__init__, Chroma._validate_cfg,
    Chroma.ChromaConfig_new. simpl.
  destruct (os_getenv_at_import "CHROMA_DATABASE_NAME") as [[| a s] |]; simpl.
  - split; [reflexivity |]. split; [congruence | discriminate].
  - split; [discriminate |]. split; [| discriminate].
    intros _. split; [reflexivity | discriminate].
  - split; [discriminate |]. split; [| reflexivity].
    intros _. split; [reflexivity | discriminate].
Qed.

(** X2. [_create_client] needs the three variables CHROMA_API_KEY,
    CHROMA_TENANT_ID and CHROMA_DATABASE_NAME.  When one of them is unset
    or empty it raises a [ValueError] and nothing has been called or
    changed.  A client that is returned was built from exactly the three
    values of the environment, by one call of the [CloudClient]
    constructor. *)
Theorem create_client_requires_credentials (self : ChromaService) (w : World E) :
  let api_key := os_getenv "CHROMA_API_KEY" (ext w) in
  let tenant_id := os_getenv "CHROMA_TENANT_ID" (ext w) in
  let database_name := os_getenv "CHROMA_DATABASE_NAME" (ext w) in
  (truthy_opt_str api_key && truthy_opt_str tenant_id
   && truthy_opt_str database_name = false →
   Chroma._create_client (self, w)
   = (inl (ValueError
        "CHROMA_API_KEY, CHROMA_TENANT_ID o CHROMA_DATABASE_NAME no configuradas."),
      (self, w)))
  ∧ (∀ c st', Chroma._create_client (self, w) = (inr c, st') →
       api_key = Some (cc_api_key c) ∧ tenant_id = Some (cc_tenant c)
       ∧ database_name = Some (cc_database c)
       ∧ cc_api_key c ≠ "" ∧ cc_tenant c ≠ "" ∧ cc_database c ≠ ""
       ∧ fst st' = self
       ∧ trace (snd st')
         = trace w ++ [EvCloudClient (cc_api_key c) (cc_tenant c) (cc_database c)]).
Proof.
  intros api_key tenant_id database_name. rewrite create_client_steps.
  fold api_key tenant_id database_name. cbv zeta. split.
  - intros Hmissing.
    replace (negb (truthy_opt_str api_key) || negb (truthy_opt_str tenant_id)
             || negb (truthy_opt_str database_name)) with true; [reflexivity |].
    destruct (truthy_opt_str api_key), (truthy_opt_str tenant_id),
      (truthy_opt_str database_name); simpl in *; congruence.
  - intros c st'.
    destruct api_key as [[| a1 k] |], tenant_id as [[| a2 t] |],
      database_name as [[| a3 d] |]; simpl; try discriminate.
    destruct (chromadb_CloudClient _ _ _ (ext w)) as [[e | []] e'];
      [discriminate |].
    intros Heq; inversion Heq; subst; simpl. repeat split; discriminate.
Qed.

(** Without credentials no collection can be obtained. *)
Lemma get_or_create_collection_no_credentials name (self : ChromaService)
    (w : World E) :
  truthy_opt_str (os_getenv "CHROMA_API_KEY" (ext w))
  && truthy_opt_str (os_getenv "CHROMA_TENANT_ID" (ext w))
  && truthy_opt_str (os_getenv "CHROMA_DATABASE_NAME" (ext w)) = false →
  Chroma._get_or_create_collection name (self, w)
  = (inl (ValueError
       "CHROMA_API_KEY, CHROMA_TENANT_ID o CHROMA_DATABASE_NAME no configuradas."),
     (self, w)).
Proof.
  intros Hmissing. rewrite get_or_create_collection_steps, create_client_steps.
  cbv zeta.
  replace (negb _ || negb _ || negb _) with true; [reflexivity |].
  destruct (truthy_opt_str _), (truthy_opt_str _), (truthy_opt_str _);
    simpl in *; congruence.
Qed.

(** X3. The service can be constructed without the credentials of the
    store (they are read when a client is made, not by the constructor),
    but then every operation that needs a collection fails: obtaining a
    collection, a query, and [add_texts] and [upsert_texts] with some
    texts, all raise the [ValueError] of [_create_client], and so does
    [reset_collection] when no client is cached.  None of them has made a
    call or changed anything by then. *)
Theorem store_operations_need_credentials (self : ChromaService) (w : World E)
    (name : string) (texts query_texts : list string)
    (metadatas : list Metadata) (ids : list string) (n : Z) :
  truthy_opt_str (os_getenv "CHROMA_API_KEY" (ext w))
  && truthy_opt_str (os_getenv "CHROMA_TENANT_ID" (ext w))
  && truthy_opt_str (os_getenv "CHROMA_DATABASE_NAME" (ext w)) = false →
  let failed {A} : (PyExc + A) * St :=
    (inl (ValueError
       "CHROMA_API_KEY, CHROMA_TENANT_ID o CHROMA_DATABASE_NAME no configuradas."),
     (self, w)) in
  Chroma.query name query_texts n (self, w) = failed
  ∧ (texts ≠ [] → Chroma.add_texts texts name metadatas ids (self, w) = failed)
  ∧ (texts ≠ [] → Chroma.upsert_texts texts name metadatas ids (self, w) = failed)
  ∧ (_client self = None → Chroma.reset_collection name (self, w) = failed).
Proof.
  intros Hmissing failed.
  pose proof (get_or_create_collection_no_credentials name self w Hmissing) as Hcol.
  repeat split.
  - unfold Chroma.query. now rewrite (bind_raises _ _ _ _ _ Hcol).
  - intros Hne. unfold Chroma.add_texts.
    destruct texts; [congruence |]. simpl.
    now rewrite (bind_raises _ _ _ _ _ Hcol).
  - intros Hne. unfold Chroma.upsert_texts.
    destruct texts; [congruence |]. simpl.
    now rewrite (bind_raises _ _ _ _ _ Hcol).
  - intros Hnone. unfold Chroma.reset_collection, Chroma.client.
    assert (Chroma._create_client (self, w)
            = (inl (ValueError
                 "CHROMA_API_KEY, CHROMA_TENANT_ID o CHROMA_DATABASE_NAME no configuradas."),
               (self, w))) as Hclient.
    { rewrite create_client_steps. cbv zeta.
      replace (negb _ || negb _ || negb _) with true; [reflexivity |].
      destruct (truthy_opt_str _), (truthy_opt_str _), (truthy_opt_str _);
        simpl in *; congruence. }
    run_monad. rewrite Hnone. simpl. now rewrite Hclient.
Qed.

(** X4. The [client] property makes a client once: when it returns a
    client, the client is stored in the service, and reading the property
    again gives the same client without calling anything or changing
    anything. *)
Theorem client_is_cached (st st1 : St) (c : CloudClient) :
  Chroma.client st = (inr c, st1) →
  _client (fst st1) = Some c ∧ Chroma.client st1 = (inr c, st1).
Proof.
  unfold Chroma.client. destruct st as [self w]. run_monad.
  destruct (_client self) as [c0 |] eqn:Hc; simpl.
  - intros Heq; inversion Heq; subst; simpl. rewrite Hc. now split.
  - destruct (Chroma._create_client (self, w)) as [[e | c1] [self1 w1]];
      simpl; [discriminate |].
    intros Heq; inversion Heq; subst; simpl. now split.
Qed.

End Chroma_configuration.

(** ** chroma.py: collections *)

Section Chroma_collections.
Context {E : Type} `{!Backend E}.

#[local] Abbreviation St := (ChromaService * World E)%type.

Lemma create_client_store_calls (st st' : St) r :
  Chroma._create_client st = (r, st') →
  fst st' = fst st ∧ store_calls (trace (snd st')) = store_calls (trace (snd st)).
Proof.
  destruct st as [self w]. rewrite create_client_steps. cbv zeta.
  destruct (negb _ || negb _ || negb _).
  { intros Heq; inversion Heq; now split. }
  destruct (chromadb_CloudClient _ _ _ (ext w)) as [[e | []] e'];
    intros Heq; inversion Heq; simpl; split; try reflexivity;
    now rewrite store_calls_snoc, app_nil_r.
Qed.

Lemma create_embedder_store_calls (st st' : St) r :
  Chroma._create_embedder st = (r, st') →
  fst st' = fst st ∧ store_calls (trace (snd st')) = store_calls (trace (snd st)).
Proof.
  destruct st as [self w]. rewrite create_embedder_steps. cbv zeta.
  destruct (negb _).
  { intros Heq; inversion Heq; now split. }
  destruct (OpenAIEmbeddingFunction _ _ (ext w)) as [[e | []] e'];
    intros Heq; inversion Heq; simpl; split; try reflexivity;
    now rewrite store_calls_snoc, app_nil_r.
Qed.

(** The handle and the calls of [_get_or_create_collection] when it
    returns. *)
Lemma get_or_create_collection_returns (name : string) (st st' : St) (c : Collection) :
  Chroma._get_or_create_collection name st = (inr c, st') →
  coll_name c = name
  ∧ fst st' = fst st
  ∧ store_calls (trace (snd st'))
    = store_calls (trace (snd st))
      ++ [EvGetOrCreateCollection (coll_client c) name].
Proof.
  rewrite get_or_create_collection_steps.
  destruct (Chroma._create_client st) as [[e1 | cl] st1] eqn:H1;
    [discriminate |].
  pose proof (create_client_store_calls _ _ _ H1) as [Hs1 Hc1].
  destruct (Chroma._create_embedder st1) as [[e2 | ef] st2] eqn:H2;
    [discriminate |].
  pose proof (create_embedder_store_calls _ _ _ H2) as [Hs2 Hc2].
  destruct (client_get_or_create_collection _ _ _ _ _) as [[e3 | []] e'];
    [discriminate |].
  intros Heq; inversion Heq; subst; simpl.
  rewrite store_calls_snoc. simpl. repeat split; congruence.
Qed.

(** Without an OpenAI key the collection is not obtained. *)
Lemma get_or_create_collection_no_key (name : string) (st : St) :
  truthy_opt_str (openai_api_key (cfg (fst st))) = false →
  ∃ e st',
    Chroma._get_or_create_collection name st = (inl e, st')
    ∧ fst st' = fst st
    ∧ store_calls (trace (snd st')) = store_calls (trace (snd st)).
Proof.
  intros Hkey. rewrite get_or_create_collection_steps.
  destruct (Chroma._create_client st) as [[e1 | cl] st1] eqn:H1;
    pose proof (create_client_store_calls _ _ _ H1) as [Hs1 Hc1].
  { exists e1, st1. repeat split; assumption. }
  destruct st1 as [self1 w1]. simpl in Hs1. subst self1.
  rewrite create_embedder_steps. cbv zeta. rewrite Hkey. simpl.
  eexists _, _. repeat split; assumption.
Qed.

(** X5. A collection handle that [_get_or_create_collection] returns is
    for the name asked for, uses the embedding model
    [text-embedding-3-small] whatever [cfg.openai_model] says, with the
    key of the configuration, and the cosine index built with
    [ef_construction = 200].  Obtaining it leaves the service object as
    it was (the cached client is neither used nor replaced) and reaches
    the store by one call, [get_or_create_collection]. *)
Theorem collection_handle_is_fixed (name : string) (st st' : St) (c : Collection) :
  Chroma._get_or_create_collection name st = (inr c, st') →
  coll_name c = name
  ∧ coll_embedding_function c
    = mkEmbeddingFunction (the (openai_api_key (cfg (fst st))))
        "text-embedding-3-small"
  ∧ coll_configuration c = mkHnsw "cosine" 200
  ∧ fst st' = fst st
  ∧ store_calls (trace (snd st'))
    = store_calls (trace (snd st))
      ++ [EvGetOrCreateCollection (coll_client c) name].
Proof.
  rewrite get_or_create_collection_steps.
  destruct (Chroma._create_client st) as [[e1 | cl] st1] eqn:H1;
    [discriminate |].
  pose proof (create_client_store_calls _ _ _ H1) as [Hs1 Hc1].
  destruct (Chroma._create_embedder st1) as [[e2 | ef] st2] eqn:H2;
    [discriminate |].
  pose proof (create_embedder_store_calls _ _ _ H2) as [Hs2 Hc2].
  assert (ef = mkEmbeddingFunction (the (openai_api_key (cfg (fst st))))
                 "text-embedding-3-small") as Hef.
  { destruct st1 as [self1 w1]. rewrite create_embedder_steps in H2.
    cbv zeta in H2. simpl in Hs1. subst self1.
    destruct (negb _); [discriminate |].
    destruct (OpenAIEmbeddingFunction _ _ (ext w1)) as [[e | []] e'];
      inversion H2; reflexivity. }
  destruct (client_get_or_create_collection _ _ _ _ _) as [[e3 | []] e'];
    [discriminate |].
  intros Heq; inversion Heq; subst; simpl.
  rewrite store_calls_snoc. simpl. repeat split; congruence.
Qed.

(** X6. Without an OpenAI key in the configuration no collection is
    obtained: [_get_or_create_collection] raises, and the store has not
    been asked for the collection. *)
Theorem collection_needs_openai_key (name : string) (st : St) :
  truthy_opt_str (openai_api_key (cfg (fst st))) = false →
  ∃ e st',
    Chroma._get_or_create_collection name st = (inl e, st')
    ∧ fst st' = fst st
    ∧ store_calls (trace (snd st')) = store_calls (trace (snd st))
    ∧ (∀ cl st1, Chroma._create_client st = (inr cl, st1) →
         e = ValueError
               "OPENAI_API_KEY no configurada y EMBEDDINGS_PROVIDER=openai.").
Proof.
  intros Hkey. rewrite get_or_create_collection_steps.
  destruct (Chroma._create_client st) as [[e1 | cl] st1] eqn:H1;
    pose proof (create_client_store_calls _ _ _ H1) as [Hs1 Hc1].
  { exists e1, st1. repeat split; try assumption. discriminate. }
  destruct st1 as [self1 w1]. simpl in Hs1. subst self1.
  rewrite create_embedder_steps. cbv zeta. rewrite Hkey. simpl.
  eexists _, _. repeat split; try assumption.
Qed.

(** [reset_collection] once the client is there and the delete went
    through: what is left is to obtain the collection again. *)
Lemma reset_collection_after_delete name (st st1 : St) c e' :
  Chroma.client st = (inr c, st1) →
  client_delete_collection c name (ext (snd st1)) = (inr tt, e') →
  Chroma.reset_collection name st =
  match Chroma._get_or_create_collection name
          (fst st1, mkWorld e' (trace (snd st1) ++ [EvDeleteCollection c name])) with
  | (inl e, st2) => (inl e, st2)
  | (inr col, st2) =>
      (inr tt,
       ({| cfg := cfg (fst st2); _client := _client (fst st2);
           collection := Some col |}, snd st2))
  end.
Proof.
  intros Hclient Hdel. unfold Chroma.reset_collection.
  rewrite (bind_returns _ _ _ _ _ Hclient).
  destruct st1 as [self1 w1]. run_monad. simpl in Hdel. rewrite Hdel. simpl.
  destruct (Chroma._get_or_create_collection name _) as [[e | col] [self2 w2]];
    reflexivity.
Qed.

(** X7. A reset is a delete followed by a fresh [get_or_create]: when
    both go through, [reset_collection] returns, [self.collection] is the
    new handle for that name, and the store was reached by exactly these
    two calls, in this order. *)
Theorem reset_collection_recreates (name : string) (st st1 st2 : St)
    (c : CloudClient) (e' : E) (col : Collection) :
  Chroma.client st = (inr c, st1) →
  client_delete_collection c name (ext (snd st1)) = (inr tt, e') →
  Chroma._get_or_create_collection name
    (fst st1, mkWorld e' (trace (snd st1) ++ [EvDeleteCollection c name]))
  = (inr col, st2) →
  ∃ self',
    Chroma.reset_collection name st = (inr tt, (self', snd st2))
    ∧ collection self' = Some col
    ∧ coll_name col = name
    ∧ cfg self' = cfg (fst st)
    ∧ store_calls (trace (snd st2))
      = store_calls (trace (snd st1))
        ++ [EvDeleteCollection c name;
            EvGetOrCreateCollection (coll_client col) name].
Proof.
  intros Hclient Hdel Hcol.
  rewrite (reset_collection_after_delete _ _ _ _ _ Hclient Hdel), Hcol.
  eexists. split; [reflexivity |]. simpl.
  destruct (get_or_create_collection_returns name _ _ _ Hcol)
    as (Hname & Hself & Hcalls).
  pose proof (client_frame _ _ _ Hclient) as [Hcfg _].
  repeat split; try assumption.
  - rewrite Hself. simpl. assumption.
  - rewrite Hcalls. simpl. rewrite store_calls_snoc. simpl.
    now rewrite <- app_assoc.
Qed.

(** X8. A reset is not atomic.  When the delete has gone through and the
    configuration holds no OpenAI key, [reset_collection] raises: by then
    the collection has been deleted, it is not created again (the delete
    is the last call that reached the store), and [self.collection] is
    the one from before. *)
Theorem reset_collection_can_lose_the_collection (name : string) (st st1 : St)
    (c : CloudClient) (e' : E) :
  Chroma.client st = (inr c, st1) →
  client_delete_collection c name (ext (snd st1)) = (inr tt, e') →
  truthy_opt_str (openai_api_key (cfg (fst st))) = false →
  ∃ err st',
    Chroma.reset_collection name st = (inl err, st')
    ∧ collection (fst st') = collection (fst st)
    ∧ store_calls (trace (snd st'))
      = store_calls (trace (snd st1)) ++ [EvDeleteCollection c name].
Proof.
  intros Hclient Hdel Hkey.
  pose proof (client_frame _ _ _ Hclient) as [Hcfg Hcoll].
  rewrite (reset_collection_after_delete _ _ _ _ _ Hclient Hdel).
  destruct (get_or_create_collection_no_key name
              (fst st1, mkWorld e' (trace (snd st1) ++ [EvDeleteCollection c name])))
    as (err & st' & Hraise & Hself & Hcalls).
  { simpl. now rewrite Hcfg. }
  rewrite Hraise. exists err, st'. split; [reflexivity |]. split.
  - rewrite Hself. simpl. assumption.
  - rewrite Hcalls. simpl. now rewrite store_calls_snoc.
Qed.

(** X9. [add_texts] compares no lengths either.  With some texts it
    obtains the collection and hands ids, texts and metadatas, as they
    are, to the store's [add]: the outcome of that call, its result or
    the error it raises, is the outcome of [add_texts]; when the
    collection cannot be obtained, that error comes out and [add] is not
    called. *)
Theorem add_texts_defers_to_store (texts : list string) (name : string)
    (metadatas : list Metadata) (ids : list string) (st : St) :
  texts ≠ [] →
  (∀ (c : Collection) (st1 : St) (r : PyExc + unit) (e' : E),
     Chroma._get_or_create_collection name st = (inr c, st1) →
     collection_add c ids texts metadatas (ext (snd st1)) = (r, e') →
     Chroma.add_texts texts name metadatas ids st
     = (r, (fst st1,
            mkWorld e' (trace (snd st1)
                          ++ [EvCollectionAdd c ids texts metadatas]))))
  ∧ (∀ e st1,
       Chroma._get_or_create_collection name st = (inl e, st1) →
       Chroma.add_texts texts name metadatas ids st = (inl e, st1)).
Proof.
  intros Hne. unfold Chroma.add_texts.
  destruct texts as [| t texts]; [congruence |]. simpl. split.
  - intros c st1 r e' Hcol Hadd.
    rewrite (bind_returns _ _ _ _ _ Hcol).
    destruct st1 as [self1 w1]. run_monad. rewrite Hadd.
    now destruct r as [e | []].
  - intros e st1 Hcol. now rewrite (bind_raises _ _ _ _ _ Hcol).
Qed.

End Chroma_collections.

(** ** agente_examenes_salud_mental.py: errors and the sentinel *)

Section Tool_errors.
Context {E : Type} `{!Backend E}.

#[local] Abbreviation St := (ChromaService * World E)%type.

(** X10. The retrieval tool catches nothing.  An error that the store
    raises on the query comes out of the tool as it is, and so does an
    error met while the collection is obtained; the sentinel is not
    returned in their place. *)
Theorem buscar_propagates_store_errors (q : string) (st : St) :
  (∀ c st1 e e',
     Chroma._get_or_create_collection "mental_health_screenings" st = (inr c, st1) →
     collection_query c [q] 3 ["documents"; "metadatas"; "distances"]
       (ext (snd st1)) = (inl e, e') →
     AgenteExamenes.buscar_conocimiento_con_RAG q st
     = (inl e, (fst st1,
                mkWorld e' (trace (snd st1) ++ [EvCollectionQuery c [q] 3]))))
  ∧ (∀ e st1,
       Chroma._get_or_create_collection "mental_health_screenings" st = (inl e, st1) →
       AgenteExamenes.buscar_conocimiento_con_RAG q st = (inl e, st1)).
Proof.
  unfold AgenteExamenes.buscar_conocimiento_con_RAG, Chroma.query. simpl. split.
  - intros c st1 e e' Hcol Hq.
    destruct st1 as [self1 w1]. run_monad. rewrite Hcol. simpl.
    simpl in Hq. now rewrite Hq.
  - intros e st1 Hcol. run_monad. now rewrite Hcol.
Qed.

(** X11. When the query returns, the tool returns a text and never
    raises.  The text is the sentinel exactly when [results['documents']]
    is [None] or the empty list; in every other case it begins with the
    header. *)
Theorem buscar_sentinel_exactly (q : string) (st st' : St) (results : QueryResult) :
  Chroma.query (value EXAMENES_DE_SALUD_MENTAL) [q] 3 st = (inr results, st') →
  ∃ text,
    AgenteExamenes.buscar_conocimiento_con_RAG q st = (inr text, st')
    ∧ (text = "No se encontró información relevante."
       ↔ qr_documents results = None ∨ qr_documents results = Some [])
    ∧ (text ≠ "No se encontró información relevante." →
       ∃ rest, text = "Información encontrada:" +:+ LF +:+ rest).
Proof.
  intros Hq. unfold AgenteExamenes.buscar_conocimiento_con_RAG.
  rewrite (bind_returns _ _ _ _ _ Hq).
  destruct (qr_documents results) as [[| first rest] |]; eexists;
    (split; [reflexivity |]); split.
  - split; auto.
  - congruence.
  - split; [discriminate | intros [? | ?]; discriminate].
  - intros _. eexists. reflexivity.
  - split; auto.
  - congruence.
Qed.

End Tool_errors.

(** ** messages.py: one session per user *)

Section Message_more.
Context {E : Type} `{!Backend E}.

Lemma create_and_get_session_id_steps uid (w : World E) :
  Message.create_and_get_session_id uid w =
  let ev := EvSQLiteSession ("session_" +:+ uid) "conversations.db" in
  match SQLiteSession_init ("session_" +:+ uid) "conversations.db" (ext w) with
  | (inl e, e') => (inl e, mkWorld e' (trace w ++ [ev]))
  | (inr _, e') =>
      (inr (mkSQLiteSession ("session_" +:+ uid) "conversations.db"),
       mkWorld e' (trace w ++ [ev]))
  end.
Proof.
  unfold Message.create_and_get_session_id. run_monad.
  destruct (SQLiteSession_init _ _ _) as [[e | []] e']; reflexivity.
Qed.

(** X12. Sessions of different users are different: two user ids that
    differ give handles with different session identifiers (in the same
    database file), so no two users share a log. *)
Theorem distinct_users_distinct_sessions (u1 u2 : string)
    (w1 w2 w1' w2' : World E) (s1 s2 : SQLiteSession) :
  u1 ≠ u2 →
  Message.create_and_get_session_id u1 w1 = (inr s1, w1') →
  Message.create_and_get_session_id u2 w2 = (inr s2, w2') →
  session_id s1 ≠ session_id s2 ∧ db_path s1 = db_path s2.
Proof.
  intros Hne H1 H2.
  apply create_and_get_session_id_handle in H1, H2. subst s1 s2. simpl.
  split; [| reflexivity].
  intros Heq. apply Hne. now inversion Heq.
Qed.

End Message_more.

(** ** agente_principal.py: failures of the assembly *)

Section Principal_errors.
Context {E : Type} `{!Backend E} `{!Siblings E}.

Lemma agentPsychology_trace (self : PsychologyClinicAgent) uid msg
    (w w' : World E) r :
  AgentePrincipal.agentPsychology self uid msg w = (r, w') →
  trace w' = trace w.
Proof.
  unfold AgentePrincipal.agentPsychology, try_except. run_monad.
  destruct (agente_de_transtornos_salud_mental (ext w)) as [[e1 | t] x1];
    simpl; [intros Heq; now inversion Heq |].
  destruct (agente_de_salud_mental_coloquial x1) as [[e2 | c] x2];
    simpl; [intros Heq; now inversion Heq |].
  destruct (agente_de_respuestas_salud_mental x2) as [[e3 | r0] x3];
    simpl; intros Heq; now inversion Heq.
Qed.

(** X13. The sibling factories are called in the order disorders,
    colloquial, responses, and the first one that raises ends the
    assembly: the later ones are not called, and what comes out of
    [agentPsychology] is a [RuntimeError] whose text is
    [Error al procesar mensaje: ] followed by the text of that error. *)
Theorem agentPsychology_wraps_first_error (self : PsychologyClinicAgent)
    (uid msg : string) (w w' : World E) (e : PyExc) :
  AgentePrincipal.agentPsychology self uid msg w = (inl e, w') →
  ∃ e0,
    e = RuntimeError ("Error al procesar mensaje: " +:+ exc_str e0)
    ∧ (agente_de_transtornos_salud_mental (ext w) = (inl e0, ext w')
       ∨ ∃ t x1,
           agente_de_transtornos_salud_mental (ext w) = (inr t, x1)
           ∧ (agente_de_salud_mental_coloquial x1 = (inl e0, ext w')
              ∨ ∃ c x2,
                  agente_de_salud_mental_coloquial x1 = (inr c, x2)
                  ∧ agente_de_respuestas_salud_mental x2 = (inl e0, ext w'))).
Proof.
  unfold AgentePrincipal.agentPsychology, try_except. run_monad.
  destruct (agente_de_transtornos_salud_mental (ext w)) as [[e1 | t] x1];
    simpl.
  { intros Heq; inversion Heq; subst. exists e1. split; [reflexivity |].
    now left. }
  destruct (agente_de_salud_mental_coloquial x1) as [[e2 | c] x2] eqn:Hc;
    simpl.
  { intros Heq; inversion Heq; subst. exists e2. split; [reflexivity |].
    right. exists t, x1. split; [reflexivity |]. now left. }
  destruct (agente_de_respuestas_salud_mental x2) as [[e3 | r0] x3] eqn:Hr;
    simpl; [| discriminate].
  intros Heq; inversion Heq; subst. exists e3. split; [reflexivity |].
  right. exists t, x1. split; [reflexivity |]. right. now exists c, x2.
Qed.

End Principal_errors.

(** ** orquestador.py: the session and the runtime across a turn *)

Section Orquestador_more.
Context {E : Type} `{!Backend E} `{!Siblings E}.

#[local] Abbreviation St := (Orquestador * World E)%type.

Lemma sessions_opened_snoc (t : list event) (ev : event) :
  sessions_opened (t ++ [ev])
  = sessions_opened t ++ match session_of ev with Some s => [s] | None => [] end.
Proof.
  unfold sessions_opened. rewrite omap_app. simpl. now destruct (session_of ev).
Qed.

Lemma runs_of_snoc (t : list event) (ev : event) :
  runs_of (t ++ [ev])
  = runs_of t ++ match run_of ev with Some r => [r] | None => [] end.
Proof.
  unfold runs_of. rewrite omap_app. simpl. now destruct (run_of ev).
Qed.

(** [generate_response] from an orchestrator that holds a session. *)
Lemma generate_response_with_session (self : Orquestador) (w : World E) h :
  history self = Some h →
  Orq.generate_response (self, w) =
  match AgentePrincipal.__init__ "gpt-5-mini" with
  | inl e => (inr (error_payload e), (self, w))
  | inr pca =>
      match AgentePrincipal.agentPsychology pca (user_id self) (message self) w with
      | (inl e, w2) => (inr (error_payload e), (self, w2))
      | (inr agent, w2) =>
          let ran := trace w2 ++ [EvRunnerRun agent (message self) (Some h)] in
          match Runner_run agent (message self) (Some h) (ext w2) with
          | (inl e, e3) => (inr (error_payload e), (self, mkWorld e3 ran))
          | (inr result, e3) =>
              match SQLiteSession_get_items h e3 with
              | (inl e, e4) =>
                  (inr (error_payload e),
                   (self, mkWorld e4 (ran ++ [EvGetItems h])))
              | (inr items, e4) =>
                  (inr (turn_payload result items),
                   (self, mkWorld e4 (ran ++ [EvGetItems h])))
              end
          end
      end
  end.
Proof.
  intros Hh. unfold Orq.generate_response, try_except.
  rewrite (try_with_session _ _ _ Hh).
  destruct (AgentePrincipal.__init__ "gpt-5-mini") as [e | pca]; [reflexivity |].
  destruct (AgentePrincipal.agentPsychology pca _ _ w) as [[e | agent] w2];
    [reflexivity |].
  simpl.
  destruct (Runner_run agent _ _ (ext w2)) as [[e | result] e3]; [reflexivity |].
  destruct (SQLiteSession_get_items h e3) as [[e | items] e4]; reflexivity.
Qed.

(** [generate_response] from a fresh orchestrator. *)
Lemma generate_response_fresh (self : Orquestador) (w : World E) :
  history self = None →
  Orq.generate_response (self, w) =
  match Message.create_and_get_session_id (user_id self) w with
  | (inl e, w1) => (inr (error_payload e), (self, w1))
  | (inr h, w1) => Orq.generate_response (with_history self h, w1)
  end.
Proof.
  intros Hnone.
  destruct (Message.create_and_get_session_id (user_id self) w)
    as [[e | h] w1] eqn:Hcreate; unfold Orq.generate_response.
  - now rewrite (try_except_raises _ _ _ _ _
                   (try_session_raises _ _ _ _ Hnone Hcreate)).
  - unfold try_except. now rewrite (try_session_created _ _ _ _ Hnone Hcreate).
Qed.

(** The calls of a turn once the session is held: none, the run, or the
    run and then the read of the history. *)
Lemma turn_calls_with_session (self : Orquestador) (w : World E) h d st' :
  history self = Some h →
  Orq.generate_response (self, w) = (inr d, st') →
  fst st' = self
  ∧ ∃ calls,
      trace (snd st') = trace w ++ calls
      ∧ (calls = []
         ∨ ∃ agent,
             calls = [EvRunnerRun agent (message self) (Some h)]
             ∨ calls = [EvRunnerRun agent (message self) (Some h); EvGetItems h])
      ∧ (d !! "error" = None →
         ∃ agent,
           calls = [EvRunnerRun agent (message self) (Some h); EvGetItems h]).
Proof.
  intros Hh. rewrite (generate_response_with_session _ _ _ Hh).
  assert (∀ e, error_payload e !! "error" ≠ None) as Herr.
  { intros e. unfold error_payload. now rewrite lookup_singleton_eq. }
  destruct (AgentePrincipal.__init__ "gpt-5-mini") as [e | pca].
  { intros Heq; inversion Heq; subst; simpl. split; [reflexivity |].
    exists []. rewrite app_nil_r. repeat split; auto.
    intros Hno. now apply Herr in Hno. }
  destruct (AgentePrincipal.agentPsychology pca _ _ w) as [[e | agent] w2] eqn:Ha;
    pose proof (agentPsychology_trace _ _ _ _ _ _ Ha) as Ht.
  { intros Heq; inversion Heq; subst; simpl. split; [reflexivity |].
    exists []. rewrite app_nil_r. repeat split; auto.
    intros Hno. now apply Herr in Hno. }
  simpl.
  destruct (Runner_run agent _ _ (ext w2)) as [[e | result] e3].
  { intros Heq; inversion Heq; subst; simpl. split; [reflexivity |].
    eexists. rewrite Ht. split; [reflexivity |]. split.
    - right. exists agent. now left.
    - intros Hno. now apply Herr in Hno. }
  destruct (SQLiteSession_get_items h e3) as [[e | items] e4];
    intros Heq; inversion Heq; subst; simpl; (split; [reflexivity |]);
    eexists; rewrite Ht, <- app_assoc; (split; [reflexivity |]); split;
    try (right; exists agent; now right).
  - intros Hno. now apply Herr in Hno.
  - intros _. now exists agent.
Qed.

(** X14. An orchestrator that already holds a session keeps it: a call
    of [generate_response] leaves the object as it was (user id, message
    and session) and opens no session. *)
Theorem generate_response_keeps_session (self : Orquestador) (w : World E)
    (h : SQLiteSession) (d : gmap string PyVal) (st' : St) :
  history self = Some h →
  Orq.generate_response (self, w) = (inr d, st') →
  fst st' = self
  ∧ sessions_opened (trace (snd st')) = sessions_opened (trace w).
Proof.
  intros Hh Hrun.
  destruct (turn_calls_with_session _ _ _ _ _ Hh Hrun)
    as (Hself & calls & Htrace & Hshape & _).
  split; [assumption |]. rewrite Htrace.
  unfold sessions_opened. rewrite omap_app.
  destruct Hshape as [-> | [agent [-> | ->]]]; simpl; now rewrite app_nil_r.
Qed.

(** X15. A fresh orchestrator opens exactly one session in a call of
    [generate_response], the one of its user: identifier [session_]
    followed by the user id, file [conversations.db].  Afterwards the
    object holds that session, unless its constructor raised, in which
    case the object is unchanged and the caller gets the error
    dictionary.  User id and message are never changed. *)
Theorem generate_response_opens_user_session (self : Orquestador) (w : World E)
    (d : gmap string PyVal) (st' : St) :
  history self = None →
  Orq.generate_response (self, w) = (inr d, st') →
  let s := mkSQLiteSession ("session_" +:+ user_id self) "conversations.db" in
  user_id (fst st') = user_id self
  ∧ message (fst st') = message self
  ∧ sessions_opened (trace (snd st')) = sessions_opened (trace w) ++ [s]
  ∧ (history (fst st') = Some s
     ∨ history (fst st') = None
       ∧ ∃ e e',
           SQLiteSession_init (session_id s) (db_path s) (ext w) = (inl e, e')
           ∧ d = error_payload e).
Proof.
  intros Hnone. rewrite (generate_response_fresh _ _ Hnone).
  rewrite create_and_get_session_id_steps. cbv zeta.
  destruct (SQLiteSession_init _ _ (ext w)) as [[e | []] e'] eqn:Hinit.
  - intros Heq; inversion Heq; subst; simpl.
    rewrite sessions_opened_snoc. simpl. repeat split.
    right. split; [assumption |]. now exists e, e'.
  - intros Hrun.
    destruct (turn_calls_with_session
                (with_history self
                   (mkSQLiteSession ("session_" +:+ user_id self) "conversations.db"))
                _ _ _ _ eq_refl Hrun)
      as (Hself & calls & Htrace & Hshape & _).
    rewrite Hself, Htrace. simpl.
    unfold sessions_opened. rewrite !omap_app. simpl.
    repeat split; [| now left].
    destruct Hshape as [-> | [agent [-> | ->]]]; simpl; now rewrite app_nil_r.
Qed.

(** X16. The agent runtime is run at most once in a call of
    [generate_response], and exactly once in a turn that goes through.
    It is given the message as the orchestrator holds it and the session
    the orchestrator holds after the call, never another one. *)
Theorem runtime_gets_message_and_session (self : Orquestador) (w : World E)
    (d : gmap string PyVal) (st' : St) :
  Orq.generate_response (self, w) = (inr d, st') →
  ∃ runs,
    runs_of (trace (snd st')) = runs_of (trace w) ++ runs
    ∧ (runs = [] ∨ runs = [(message self, history (fst st'))])
    ∧ (runs ≠ [] → is_Some (history (fst st')))
    ∧ (d !! "error" = None → runs ≠ []).
Proof.
  assert (∀ (self0 : Orquestador) (w0 : World E) h,
            history self0 = Some h →
            message self0 = message self →
            runs_of (trace w0) = runs_of (trace w) →
            Orq.generate_response (self0, w0) = (inr d, st') →
            ∃ runs,
              runs_of (trace (snd st')) = runs_of (trace w) ++ runs
              ∧ (runs = [] ∨ runs = [(message self, history (fst st'))])
              ∧ (runs ≠ [] → is_Some (history (fst st')))
              ∧ (d !! "error" = None → runs ≠ [])) as Hheld.
  { intros self0 w0 h Hh Hmsg Hpre Hrun.
    destruct (turn_calls_with_session _ _ _ _ _ Hh Hrun)
      as (Hself & calls & Htrace & Hshape & Hok).
    rewrite Hself, Htrace, Hh. unfold runs_of in *. rewrite omap_app, Hpre.
    eexists. split; [reflexivity |].
    destruct Hshape as [-> | [agent [-> | ->]]]; simpl; rewrite ?Hmsg.
    - split; [now left |]. split; [congruence |].
      intros Hno. destruct (Hok Hno) as [a Ha]. discriminate Ha.
    - split; [now right |]. split; [eauto | discriminate].
    - split; [now right |]. split; [eauto | discriminate]. }
  destruct (history self) as [h |] eqn:Hh.
  - now apply (Hheld self w h).
  - rewrite (generate_response_fresh _ _ Hh).
    rewrite create_and_get_session_id_steps. cbv zeta.
    destruct (SQLiteSession_init _ _ (ext w)) as [[e | []] e'].
    + intros Heq; inversion Heq; subst; simpl.
      exists []. rewrite runs_of_snoc, !app_nil_r. simpl.
      repeat split; auto; congruence.
    + apply (Hheld (with_history self
                      (mkSQLiteSession ("session_" +:+ user_id self)
                         "conversations.db")) _ _ eq_refl eq_refl).
      simpl. rewrite runs_of_snoc. simpl. now rewrite app_nil_r.
Qed.



End Orquestador_more.

(** ** agent_chat_http.py: the HTTP handler *)

Section Http_facts.
Context {E : Type} `{!Backend E} `{!Siblings E}.

(** What [generate_response] returns is one of its two dictionaries. *)
Lemma generate_response_payload (st : Orquestador * World E) :
  ∃ d st',
    Orq.generate_response st = (inr d, st')
    ∧ ((∃ e, d = error_payload e)
       ∨ ∃ result items, d = turn_payload result items).
Proof.
  destruct st as [self w]. unfold Orq.generate_response, try_except.
  destruct (Orq.generate_response_try (self, w)) as [[e | d] st'] eqn:Htry.
  - do 2 eexists. split; [reflexivity |]. left. now exists e.
  - destruct (try_returns_inv _ _ _ _ Htry)
      as (h & agent & w_pre & result & e_run & items & e_end
          & _ & _ & _ & _ & Hd & _).
    do 2 eexists. split; [reflexivity |]. right. now exists result, items.
Qed.

(** The handler on a request that passes its checks. *)
Lemma chat_agent_http_accepted (request : Request) (messages uid : string)
    (w : World E) d st' :
  accepted request messages uid →
  Orq.generate_response (Orq.__init__ uid messages, w) = (inr d, st') →
  AgentChatHttp.chat_agent_http request w =
  match d !! "respuesta", d !! "historial" with
  | Some r, Some h => (inr (turn_response r h), snd st')
  | None, _ => (inr (AgentChatHttp.failure 500 "'respuesta'"), snd st')
  | Some _, None => (inr (AgentChatHttp.failure 500 "'historial'"), snd st')
  end.
Proof.
  intros (Hpost & m & Hjson & Hmsg & Hmsg_ne & Huid & Huid_ne) Hrun.
  unfold AgentChatHttp.chat_agent_http. rewrite Hpost, Hjson. simpl.
  rewrite bool_decide_eq_false_2.
  2: { intros ->. now rewrite lookup_empty in Hmsg. }
  rewrite Hmsg, Huid. simpl.
  destruct messages as [| a1 m1]; [congruence |].
  destruct uid as [| a2 u2]; [congruence |]. simpl.
  unfold try_except, run_object, Orq.construct, getitem. run_monad.
  unfold the in Hrun |- *. simpl in Hrun |- *. rewrite Hrun. simpl.
  destruct (d !! "respuesta") as [r |]; simpl; [| reflexivity].
  destruct (d !! "historial") as [h |]; reflexivity.
Qed.

Ltac in_list :=
  repeat first [apply list_elem_of_here | apply list_elem_of_further].

(** X18. The handler answers every request and raises nothing.  The
    status is 200, 400, 405 or 500; the body says [success: true] exactly
    when the status is 200; and a response with status 400 or 405 was
    made without calling anything or changing anything. *)
Theorem chat_agent_http_always_answers (request : Request) (w : World E) :
  ∃ r w',
    AgentChatHttp.chat_agent_http request w = (inr r, w')
    ∧ status r ∈ [200; 400; 405; 500]%Z
    ∧ (body r !! "success" = Some (JBool true) ↔ status r = 200%Z)
    ∧ (status r = 400%Z ∨ status r = 405%Z → w' = w).
Proof.
  assert (∀ code msg, code ≠ 200%Z →
            (body (AgentChatHttp.failure code msg) !! "success"
             = Some (JBool true) ↔ code = 200%Z)) as Hfail.
  { intros code msg Hcode. unfold AgentChatHttp.failure. simpl.
    rewrite lookup_insert_eq. split; intros; congruence. }
  unfold AgentChatHttp.chat_agent_http.
  destruct (String.eqb (method request) "POST") eqn:Hpost; simpl.
  2: { do 2 eexists. split; [reflexivity |]. simpl.
       split; [in_list |]. split; [now apply Hfail | auto]. }
  destruct (get_json request) as [m |] eqn:Hjson.
  2: { do 2 eexists. split; [reflexivity |]. simpl.
       split; [in_list |]. split; [now apply Hfail | auto]. }
  destruct (bool_decide (m = ∅)) eqn:Hempty.
  { do 2 eexists. split; [reflexivity |]. simpl.
    split; [in_list |]. split; [now apply Hfail | auto]. }
  destruct (m !! "messages") as [messages |] eqn:Hmsg; simpl.
  2: { do 2 eexists. split; [reflexivity |]. simpl.
       split; [in_list |]. split; [now apply Hfail | auto]. }
  destruct (truthy_str messages) eqn:Htm; simpl.
  2: { do 2 eexists. split; [reflexivity |]. simpl.
       split; [in_list |]. split; [now apply Hfail | auto]. }
  destruct (m !! "user_id") as [uid |] eqn:Huid; simpl.
  2: { do 2 eexists. split; [reflexivity |]. simpl.
       split; [in_list |]. split; [now apply Hfail | auto]. }
  destruct (truthy_str uid) eqn:Htu; simpl.
  2: { do 2 eexists. split; [reflexivity |]. simpl.
       split; [in_list |]. split; [now apply Hfail | auto]. }
  destruct (generate_response_payload (Orq.__init__ uid messages, w))
    as (d & st' & Hrun & Hshape).
  unfold try_except, run_object, Orq.construct, getitem. run_monad.
  unfold the. simpl. rewrite Hrun. simpl.
  destruct Hshape as [[e ->] | (result & items & ->)].
  - unfold error_payload. rewrite lookup_singleton_ne by discriminate. simpl.
    do 2 eexists. split; [reflexivity |]. simpl.
    split; [in_list |]. split; [now apply Hfail |].
    intros [? | ?]; discriminate.
  - unfold turn_payload. rewrite lookup_insert_eq. simpl.
    rewrite lookup_insert_ne by discriminate. rewrite lookup_singleton_eq. simpl.
    do 2 eexists. split; [reflexivity |]. simpl.
    split; [in_list |]. split.
    + rewrite lookup_insert_eq. tauto.
    + intros [? | ?]; discriminate.
Qed.

(** X19. The checks of the handler, in the order they are made: a method
    other than POST gets 405; a POST without a JSON body, or with an
    empty JSON object, gets 400 with the text about the missing body; a
    POST whose body lacks ['messages'] or ['user_id'], or holds an empty
    string there, gets 400 with the text about the missing fields.  In
    each case the orchestrator is not built and nothing is called. *)
Theorem chat_agent_http_rejects (request : Request) (w : World E) :
  (method request ≠ "POST" →
   AgentChatHttp.chat_agent_http request w
   = (inr (AgentChatHttp.failure 405
             "Método no permitido. Solo se permiten solicitudes POST."), w))
  ∧ (method request = "POST" →
     get_json request = None ∨ get_json request = Some ∅ →
     AgentChatHttp.chat_agent_http request w
     = (inr (AgentChatHttp.failure 400
               "Petición inválida: No se encontró el cuerpo JSON"), w))
  ∧ (∀ request_json,
       method request = "POST" →
       get_json request = Some request_json →
       request_json ≠ ∅ →
       request_json !! "messages" = None ∨ request_json !! "messages" = Some ""
       ∨ request_json !! "user_id" = None ∨ request_json !! "user_id" = Some "" →
       AgentChatHttp.chat_agent_http request w
       = (inr (AgentChatHttp.failure 400
                 "Petición inválida: Faltan campos requeridos 'messages' o 'user_id'"),
          w)).
Proof.
  unfold AgentChatHttp.chat_agent_http. repeat split.
  - intros Hmethod. apply String.eqb_neq in Hmethod. now rewrite Hmethod.
  - intros -> [-> | ->]; simpl; [reflexivity |].
    now rewrite bool_decide_eq_true_2.
  - intros m -> -> Hne Hfields. simpl.
    rewrite bool_decide_eq_false_2 by assumption.
    destruct Hfields as [-> | [-> | [-> | ->]]]; simpl; try reflexivity;
      now rewrite orb_true_r.
Qed.

(** X20. The message of the orchestrator does not reach the client.
    When a request passes the checks and the turn fails, the handler
    reads the key ['respuesta'] of the error dictionary, which it does
    not hold; the [KeyError] is caught, and the response is 500 with the
    text ['respuesta'], whatever the error of the turn was. *)
Theorem chat_agent_http_hides_the_error (request : Request)
    (messages uid : string) (w : World E) (e : PyExc) :
  accepted request messages uid →
  step_raises (Orq.__init__ uid messages, w) e →
  ∃ w',
    AgentChatHttp.chat_agent_http request w
    = (inr (AgentChatHttp.failure 500 "'respuesta'"), w')
    ∧ body (AgentChatHttp.failure 500 "'respuesta'") !! "error"
      = Some (JStr "'respuesta'").
Proof.
  intros Hacc Hstep.
  destruct (try_raises_of_step _ _ Hstep) as [st1 Htry].
  assert (Orq.generate_response (Orq.__init__ uid messages, w)
          = (inr (error_payload e), st1)) as Hrun.
  { unfold Orq.generate_response. now rewrite (try_except_raises _ _ _ _ _ Htry). }
  exists (snd st1). rewrite (chat_agent_http_accepted _ _ _ _ _ _ Hacc Hrun).
  unfold error_payload. rewrite lookup_singleton_ne by discriminate.
  split; [reflexivity |]. unfold AgentChatHttp.failure. simpl.
  rewrite lookup_insert_ne by discriminate. now rewrite lookup_singleton_eq.
Qed.

(** X21. When a request passes the checks and the turn goes through, the
    response is 200 and carries the final output of the runtime under
    ['respuesta_asistente'] and, under ['historial'], the items that the
    session returned after the run.  The orchestrator is a new one for
    each request, built from the two fields of the body. *)
Theorem chat_agent_http_returns_the_turn (request : Request)
    (messages uid : string) (w : World E) (d : gmap string PyVal)
    (st' : Orquestador * World E) :
  accepted request messages uid →
  Orq.generate_response (Orq.__init__ uid messages, w) = (inr d, st') →
  d !! "error" = None →
  ∃ result items,
    d = turn_payload result items
    ∧ AgentChatHttp.chat_agent_http request w
      = (inr (turn_response (VStr (final_output result)) (VItems items)), snd st')
    ∧ history (fst st')
      = Some (mkSQLiteSession ("session_" +:+ uid) "conversations.db").
Proof.
  intros Hacc Hrun Hnoerr.
  rewrite (chat_agent_http_accepted _ _ _ _ _ _ Hacc Hrun).
  pose proof Hrun as Hrun0.
  unfold Orq.generate_response, try_except in Hrun.
  destruct (Orq.generate_response_try (Orq.__init__ uid messages, w))
    as [[e | d0] st0] eqn:Htry.
  { inversion Hrun; subst. unfold error_payload in Hnoerr.
    now rewrite lookup_singleton_eq in Hnoerr. }
  inversion Hrun; subst.
  destruct (try_returns_inv _ _ _ _ Htry)
    as (h & agent & w_pre & result & e_run & items & e_end
        & _ & _ & _ & _ & -> & _).
  exists result, items. split; [reflexivity |]. split.
  - unfold turn_payload. rewrite lookup_insert_eq.
    rewrite lookup_insert_ne by discriminate. now rewrite lookup_singleton_eq.
  - pose proof (generate_response_fresh (Orq.__init__ uid messages) w eq_refl)
      as Hfresh.
    rewrite Hrun0, create_and_get_session_id_steps in Hfresh. cbv zeta in Hfresh.
    simpl in Hfresh.
    destruct (SQLiteSession_init _ _ (ext w)) as [[e | []] e'].
    + now inversion Hfresh.
    + symmetry in Hfresh.
      destruct (turn_calls_with_session
                  (with_history (Orq.__init__ uid messages)
                     (mkSQLiteSession ("session_" +:+ uid) "conversations.db"))
                  _ _ _ _ eq_refl Hfresh) as [Hself _].
      now rewrite Hself.
Qed.

End Http_facts.

(** ** upload_mental_health_data.py: preparing the documents *)

Section Prepare_facts.
Context `{!JsonLib}.

(** The loop adds one entry to each list for each record. *)
Lemma for_each_lengths {R} (one : R → Res (string * Metadata * string))
    (records : list R) texts metadatas ids texts' metadatas' ids' :
  for_each one records (texts, metadatas, ids) = inr (texts', metadatas', ids') →
  length texts' = (length texts + length records)%nat
  ∧ length metadatas' = (length metadatas + length records)%nat
  ∧ length ids' = (length ids + length records)%nat.
Proof.
  revert texts metadatas ids.
  induction records as [| r rest IH]; intros texts metadatas ids; simpl.
  - intros Heq; inversion Heq; subst. lia.
  - destruct (one r) as [e | [[text metadata] id]]; simpl; [discriminate |].
    intros Hrest. apply IH in Hrest. rewrite !length_app in Hrest. simpl in Hrest.
    lia.
Qed.

(** The ids come out in the order of the records. *)
Lemma for_each_ids {R} (one : R → Res (string * Metadata * string))
    (id_of : R → string) (records : list R)
    texts metadatas ids texts' metadatas' ids' :
  (∀ r text metadata id, one r = inr (text, metadata, id) → id = id_of r) →
  for_each one records (texts, metadatas, ids) = inr (texts', metadatas', ids') →
  ids' = ids ++ (id_of <$> records).
Proof.
  intros Hone. revert texts metadatas ids.
  induction records as [| r rest IH]; intros texts metadatas ids; simpl.
  - intros Heq; inversion Heq; subst. now rewrite app_nil_r.
  - destruct (one r) as [e | [[text metadata] id]] eqn:Hr; simpl; [discriminate |].
    intros Hrest. apply IH in Hrest. rewrite Hrest, <- app_assoc. simpl.
    now rewrite (Hone _ _ _ _ Hr).
Qed.

(** The loop returns exactly when its body returns on every record, and
    an error of the loop is an error of its body. *)
Lemma for_each_returns {R} (one : R → Res (string * Metadata * string))
    (ok : R → bool) (records : list R) acc :
  (∀ r, (∃ x, one r = inr x) ↔ ok r = true) →
  (∃ out, for_each one records acc = inr out) ↔ forallb ok records = true.
Proof.
  intros Hone. revert acc.
  induction records as [| r rest IH]; intros [[texts metadatas] ids]; simpl.
  - split; eauto.
  - destruct (one r) as [e | [[text metadata] id]] eqn:Hr; simpl.
    + assert (ok r = false) as ->.
      { destruct (ok r) eqn:Hok; [| reflexivity].
        apply Hone in Hok as [x Hx]. congruence. }
      simpl. split; [intros [out Hout]; discriminate | discriminate].
    + assert (ok r = true) as -> by (apply Hone; eauto).
      simpl. apply IH.
Qed.

Lemma for_each_raises {R} (one : R → Res (string * Metadata * string))
    (P : PyExc → Prop) (records : list R) acc e :
  (∀ r e0, one r = inl e0 → P e0) →
  for_each one records acc = inl e → P e.
Proof.
  intros Hone. revert acc.
  induction records as [| r rest IH]; intros [[texts metadatas] ids]; simpl.
  - discriminate.
  - destruct (one r) as [e0 | [[text metadata] id]] eqn:Hr; simpl.
    + intros Heq; inversion Heq; subst. eauto.
    + apply IH.
Qed.

(** A missing key is reported by a [KeyError]. *)
Lemma field_raises {A} (o : option A) key e :
  field o key = inl e → exc_type e = "KeyError".
Proof. destruct o; [discriminate |]. intros Heq; now inversion Heq. Qed.

Ltac read_field :=
  match goal with
  | |- context [field ?o ?k] =>
      let H := fresh "Hf" in
      destruct o eqn:H; simpl;
      [| try (split; [intros [? ?]; discriminate
                     | rewrite ?andb_false_r; discriminate]);
         try (intros ? Heq; inversion Heq; reflexivity);
         try discriminate ]
  end.

Lemma disorder_document_returns (d : Disorder) :
  (∃ x, Uploader.disorder_document d = inr x) ↔ disorder_complete d = true.
Proof.
  unfold Uploader.disorder_document, disorder_complete. destruct d. simpl.
  unfold mbind, Res_bind. repeat read_field.
  split; eauto.
Qed.

Lemma screening_document_returns (s : Screening) :
  (∃ x, Uploader.screening_document s = inr x) ↔ screening_complete s = true.
Proof.
  unfold Uploader.screening_document, screening_complete. destruct s. simpl.
  unfold mbind, Res_bind. repeat read_field.
  split; eauto.
Qed.

Lemma response_template_document_returns (r : ResponseTemplate) :
  (∃ x, Uploader.response_template_document r = inr x)
  ↔ response_complete r = true.
Proof.
  unfold Uploader.response_template_document, response_complete. destruct r.
  simpl. unfold mbind, Res_bind. repeat read_field.
  split; eauto.
Qed.

Lemma colloquial_document_returns (c : Colloquial) :
  (∃ x, Uploader.colloquial_document c = inr x) ↔ colloquial_complete c = true.
Proof.
  unfold Uploader.colloquial_document, colloquial_complete. destruct c. simpl.
  unfold mbind, Res_bind. repeat read_field.
  split; eauto.
Qed.

Lemma disorder_document_raises (d : Disorder) e :
  Uploader.disorder_document d = inl e → exc_type e = "KeyError".
Proof.
  unfold Uploader.disorder_document. destruct d. simpl.
  unfold mbind, Res_bind. revert e. repeat read_field.
  discriminate.
Qed.

Lemma screening_document_raises (s : Screening) e :
  Uploader.screening_document s = inl e → exc_type e = "KeyError".
Proof.
  unfold Uploader.screening_document. destruct s. simpl.
  unfold mbind, Res_bind. revert e. repeat read_field.
  discriminate.
Qed.

Lemma response_template_document_raises (r : ResponseTemplate) e :
  Uploader.response_template_document r = inl e → exc_type e = "KeyError".
Proof.
  unfold Uploader.response_template_document. destruct r. simpl.
  unfold mbind, Res_bind. revert e. repeat read_field.
  discriminate.
Qed.

Lemma colloquial_document_raises (c : Colloquial) e :
  Uploader.colloquial_document c = inl e → exc_type e = "KeyError".
Proof.
  unfold Uploader.colloquial_document. destruct c. simpl.
  unfold mbind, Res_bind. revert e. repeat read_field.
  discriminate.
Qed.

Lemma disorder_document_id (d : Disorder) text metadata id :
  Uploader.disorder_document d = inr (text, metadata, id) →
  id = "disorder_" +:+ the (dis_id d).
Proof.
  unfold Uploader.disorder_document. destruct d. simpl.
  unfold mbind, Res_bind. repeat read_field.
  intros Heq; now inversion Heq.
Qed.

Lemma screening_document_id (s : Screening) text metadata id :
  Uploader.screening_document s = inr (text, metadata, id) →
  id = "screening_" +:+ the (scr_id s).
Proof.
  unfold Uploader.screening_document. destruct s. simpl.
  unfold mbind, Res_bind. repeat read_field.
  intros Heq; now inversion Heq.
Qed.

Lemma response_template_document_id (r : ResponseTemplate) text metadata id :
  Uploader.response_template_document r = inr (text, metadata, id) →
  id = "response_" +:+ the (res_id r).
Proof.
  unfold Uploader.response_template_document. destruct r. simpl.
  unfold mbind, Res_bind. repeat read_field.
  intros Heq; now inversion Heq.
Qed.

Lemma colloquial_document_id (c : Colloquial) text metadata id :
  Uploader.colloquial_document c = inr (text, metadata, id) →
  id = "colloquial_" +:+ the (col_id c).
Proof.
  unfold Uploader.colloquial_document. destruct c. simpl.
  unfold mbind, Res_bind. repeat read_field.
  intros Heq; now inversion Heq.
Qed.

(** X22. Each of the four [prepare_...] methods returns three lists of
    one length, the number of records it was given: one text, one
    metadata dictionary and one id for each record. *)
Theorem prepared_lists_have_one_length :
  (∀ records texts metadatas ids,
     Uploader.prepare_disorder_documents records = inr (texts, metadatas, ids) →
     length texts = length records ∧ length metadatas = length records
     ∧ length ids = length records)
  ∧ (∀ records texts metadatas ids,
       Uploader.prepare_screening_documents records = inr (texts, metadatas, ids) →
       length texts = length records ∧ length metadatas = length records
       ∧ length ids = length records)
  ∧ (∀ records texts metadatas ids,
       Uploader.prepare_response_templates records = inr (texts, metadatas, ids) →
       length texts = length records ∧ length metadatas = length records
       ∧ length ids = length records)
  ∧ (∀ records texts metadatas ids,
       Uploader.prepare_colloquial_expressions records
       = inr (texts, metadatas, ids) →
       length texts = length records ∧ length metadatas = length records
       ∧ length ids = length records).
Proof.
  split; [| split; [| split]]; intros records texts metadatas ids Hprep;
    apply for_each_lengths in Hprep; simpl in Hprep; tauto.
Qed.

(** X23. The ids that the [prepare_...] methods return are the ids of
    the records, in the order of the records, each behind the prefix of
    its kind ([disorder_], [screening_], [response_], [colloquial_]). *)
Theorem prepared_ids_follow_the_records :
  (∀ records texts metadatas ids,
     Uploader.prepare_disorder_documents records = inr (texts, metadatas, ids) →
     ids = (λ d, "disorder_" +:+ the (dis_id d)) <$> records)
  ∧ (∀ records texts metadatas ids,
       Uploader.prepare_screening_documents records = inr (texts, metadatas, ids) →
       ids = (λ s, "screening_" +:+ the (scr_id s)) <$> records)
  ∧ (∀ records texts metadatas ids,
       Uploader.prepare_response_templates records = inr (texts, metadatas, ids) →
       ids = (λ r, "response_" +:+ the (res_id r)) <$> records)
  ∧ (∀ records texts metadatas ids,
       Uploader.prepare_colloquial_expressions records
       = inr (texts, metadatas, ids) →
       ids = (λ c, "colloquial_" +:+ the (col_id c)) <$> records).
Proof.
  split; [| split; [| split]]; intros records texts metadatas ids Hprep.
  - apply (for_each_ids _ _ _ _ _ _ _ _ _ disorder_document_id Hprep).
  - apply (for_each_ids _ _ _ _ _ _ _ _ _ screening_document_id Hprep).
  - apply (for_each_ids _ _ _ _ _ _ _ _ _ response_template_document_id Hprep).
  - apply (for_each_ids _ _ _ _ _ _ _ _ _ colloquial_document_id Hprep).
Qed.

(** X24. A [prepare_...] method returns exactly when every record holds
    every key the method reads; a record that lacks one makes it raise,
    and the error is a [KeyError]. *)
Theorem prepare_needs_every_key :
  (∀ records,
     ((∃ out, Uploader.prepare_disorder_documents records = inr out)
      ↔ forallb disorder_complete records = true)
     ∧ ∀ e, Uploader.prepare_disorder_documents records = inl e →
            exc_type e = "KeyError")
  ∧ (∀ records,
       ((∃ out, Uploader.prepare_screening_documents records = inr out)
        ↔ forallb screening_complete records = true)
       ∧ ∀ e, Uploader.prepare_screening_documents records = inl e →
              exc_type e = "KeyError")
  ∧ (∀ records,
       ((∃ out, Uploader.prepare_response_templates records = inr out)
        ↔ forallb response_complete records = true)
       ∧ ∀ e, Uploader.prepare_response_templates records = inl e →
              exc_type e = "KeyError")
  ∧ (∀ records,
       ((∃ out, Uploader.prepare_colloquial_expressions records = inr out)
        ↔ forallb colloquial_complete records = true)
       ∧ ∀ e, Uploader.prepare_colloquial_expressions records = inl e →
              exc_type e = "KeyError").
Proof.
  split; [| split; [| split]]; intros records; split.
  - apply for_each_returns, disorder_document_returns.
  - intros e. apply (for_each_raises _ (λ e, exc_type e = "KeyError")).
    apply disorder_document_raises.
  - apply for_each_returns, screening_document_returns.
  - intros e. apply (for_each_raises _ (λ e, exc_type e = "KeyError")).
    apply screening_document_raises.
  - apply for_each_returns, response_template_document_returns.
  - intros e. apply (for_each_raises _ (λ e, exc_type e = "KeyError")).
    apply response_template_document_raises.
  - apply for_each_returns, colloquial_document_returns.
  - intros e. apply (for_each_raises _ (λ e, exc_type e = "KeyError")).
    apply colloquial_document_raises.
Qed.

End Prepare_facts.

(** ** upload_mental_health_data.py: the upload *)

Section Upload_facts.
Context {E : Type} `{!Backend E} `{!JsonLib}.

#[local] Abbreviation St := (MentalHealthDataUploader * World E)%type.

Lemma upserts_of_snoc (t : list event) (ev : event) :
  upserts_of (t ++ [ev])
  = upserts_of t ++ match upsert_of ev with Some u => [u] | None => [] end.
Proof.
  unfold upserts_of. rewrite omap_app. simpl. now destruct (upsert_of ev).
Qed.

Lemma get_or_create_collection_upserts name (st st' : ChromaService * World E) r :
  Chroma._get_or_create_collection name st = (r, st') →
  upserts_of (trace (snd st')) = upserts_of (trace (snd st))
  ∧ ∀ c, r = inr c → coll_name c = name.
Proof.
  rewrite get_or_create_collection_steps. destruct st as [self w].
  rewrite create_client_steps. cbv zeta.
  destruct (negb _ || negb _ || negb _).
  { intros Heq; inversion Heq; subst. split; [reflexivity | discriminate]. }
  destruct (chromadb_CloudClient _ _ _ (ext w)) as [[e | []] e'].
  { intros Heq; inversion Heq; subst; simpl.
    rewrite upserts_of_snoc, app_nil_r. split; [reflexivity | discriminate]. }
  rewrite create_embedder_steps. cbv zeta.
  destruct (negb _).
  { intros Heq; inversion Heq; subst; simpl.
    rewrite upserts_of_snoc, app_nil_r. split; [reflexivity | discriminate]. }
  destruct (OpenAIEmbeddingFunction _ _ _) as [[e | []] e''].
  { intros Heq; inversion Heq; subst; simpl.
    rewrite !upserts_of_snoc, !app_nil_r. split; [reflexivity | discriminate]. }
  simpl.
  destruct (client_get_or_create_collection _ _ _ _ _) as [[e | []] e'''];
    intros Heq; inversion Heq; subst; simpl;
    rewrite !upserts_of_snoc, !app_nil_r; simpl; split; try reflexivity;
    try discriminate.
  intros c Hc; now inversion Hc.
Qed.

(** An upsert of the service is at most one upsert of the store, with the
    name and the arrays it was given. *)
Lemma upsert_texts_upserts texts name metadatas ids
    (st st' : ChromaService * World E) r :
  Chroma.upsert_texts texts name metadatas ids st = (r, st') →
  ∃ sent,
    upserts_of (trace (snd st')) = upserts_of (trace (snd st)) ++ sent
    ∧ (sent = [] ∨ sent = [(name, texts, metadatas, ids)]).
Proof.
  unfold Chroma.upsert_texts. destruct texts as [| t texts]; simpl.
  { intros Heq; inversion Heq; subst. exists []. rewrite app_nil_r. auto. }
  destruct (Chroma._get_or_create_collection name st) as [[e | c] st1] eqn:Hcol;
    pose proof (get_or_create_collection_upserts _ _ _ _ Hcol) as [Hup Hname].
  { rewrite (bind_raises _ _ _ _ _ Hcol). intros Heq; inversion Heq; subst.
    exists []. rewrite app_nil_r. auto. }
  rewrite (bind_returns _ _ _ _ _ Hcol). destruct st1 as [self1 w1]. run_monad.
  destruct (collection_upsert c _ _ _ (ext w1)) as [[e | []] e'];
    intros Heq; inversion Heq; subst; simpl;
    rewrite upserts_of_snoc; simpl; rewrite (Hname c eq_refl), Hup;
    eexists; split; try reflexivity; now right.
Qed.

(** One block of the upload. *)
Lemma upload_category_sends {R} (records : option (list R))
    (prepare : list R → Res Prepared) (name : string) (st st' : St) r :
  (∀ rs texts metadatas ids,
     prepare rs = inr (texts, metadatas, ids) →
     length texts = length rs ∧ length metadatas = length rs
     ∧ length ids = length rs) →
  Uploader.upload_category records prepare name st = (r, st') →
  sends [name] st st'.
Proof.
  intros Hlen. unfold Uploader.upload_category, sends.
  destruct records as [rs |].
  2: { intros Heq; inversion Heq; subst. exists []. rewrite app_nil_r.
       repeat split; [constructor | apply sublist_nil_l]. }
  destruct (prepare rs) as [e | [[texts metadatas] ids]] eqn:Hprep.
  { unfold Orq.construct. run_monad. intros Heq; inversion Heq; subst.
    exists []. rewrite app_nil_r.
    repeat split; [constructor | apply sublist_nil_l]. }
  unfold Orq.construct, Uploader.on_chroma_service. run_monad.
  destruct (Chroma.upsert_texts texts name metadatas ids
              (chroma_service (fst st), snd st)) as [r0 st0] eqn:Hup.
  intros Heq; inversion Heq; subst; simpl.
  destruct (upsert_texts_upserts _ _ _ _ _ _ _ Hup) as (sent & Htrace & Hsent).
  simpl in Htrace. exists sent. split; [assumption |].
  destruct (Hlen _ _ _ _ Hprep) as (H1 & H2 & H3).
  destruct Hsent as [-> | ->]; simpl.
  - split; [constructor | apply sublist_nil_l].
  - split; [| reflexivity]. repeat constructor; congruence.
Qed.

(** A block whose records are incomplete raises and changes nothing. *)
Lemma upload_category_incomplete {R} (records : list R)
    (prepare : list R → Res Prepared) (name : string) (st : St) :
  ¬ (∃ out, prepare records = inr out) →
  ∃ e, Uploader.upload_category (Some records) prepare name st = (inl e, st).
Proof.
  intros Hbad. unfold Uploader.upload_category.
  destruct (prepare records) as [e | out]; [| exfalso; eauto].
  exists e. reflexivity.
Qed.

Lemma sends_trans names1 names2 (st1 st2 st3 : St) :
  sends names1 st1 st2 → sends names2 st2 st3 →
  sends (names1 ++ names2) st1 st3.
Proof.
  intros (s1 & Ht1 & Hl1 & Hn1) (s2 & Ht2 & Hl2 & Hn2).
  exists (s1 ++ s2). rewrite Ht2, Ht1, <- app_assoc. split; [reflexivity |].
  split; [now apply Forall_app |].
  rewrite fmap_app. now apply sublist_app.
Qed.

Lemma sends_weaken names1 names2 (st st' : St) :
  sends names1 st st' → names1 `sublist_of` names2 → sends names2 st st'.
Proof.
  intros (s & Ht & Hl & Hn) Hsub. exists s. repeat split; try assumption.
  now transitivity names1.
Qed.

Lemma sends_refl names (st : St) : sends names st st.
Proof.
  exists []. rewrite app_nil_r. repeat split; [constructor | apply sublist_nil_l].
Qed.

End Upload_facts.

Section Upload_all.
Context {E : Type} `{!Backend E} `{!JsonLib}.

#[local] Abbreviation St := (MentalHealthDataUploader * World E)%type.

(** Two steps in a row send what the first sends and then what the second
    sends. *)
Lemma seq_sends (m1 m2 : M St unit) names1 names2 :
  (∀ st r st', m1 st = (r, st') → sends names1 st st') →
  (∀ st r st', m2 st = (r, st') → sends names2 st st') →
  ∀ st r st', (m1 ;; m2) st = (r, st') → sends (names1 ++ names2) st st'.
Proof.
  intros H1 H2 st r st'. unfold mbind, M_bind, bind.
  destruct (m1 st) as [[e | []] s1] eqn:Hm1; pose proof (H1 _ _ _ Hm1) as Hs1.
  - intros Heq; inversion Heq; subst.
    apply (sends_weaken names1); [assumption |]. now apply sublist_inserts_r.
  - intros Hm2. apply (sends_trans _ _ _ s1); eauto.
Qed.

(** A step that always raises, changing nothing, ends the sequence: what
    was sent is what the steps before it sent. *)
Lemma seq_stops (m1 m2 : M St unit) names1 :
  (∀ st r st', m1 st = (r, st') → sends names1 st st') →
  (∀ st, ∃ e, m2 st = (inl e, st)) →
  ∀ st r st', (m1 ;; m2) st = (r, st') →
              (∃ e, r = inl e) ∧ sends names1 st st'.
Proof.
  intros H1 H2 st r st'. unfold mbind, M_bind, bind.
  destruct (m1 st) as [[e | []] s1] eqn:Hm1; pose proof (H1 _ _ _ Hm1) as Hs1.
  - intros Heq; inversion Heq; subst. eauto.
  - destruct (H2 s1) as [e He]. rewrite He.
    intros Heq; inversion Heq; subst. eauto.
Qed.

Lemma stops_first (m1 m2 : M St unit) :
  (∀ st, ∃ e, m1 st = (inl e, st)) →
  ∀ st, ∃ e, (m1 ;; m2) st = (inl e, st).
Proof.
  intros H1 st. destruct (H1 st) as [e He]. exists e.
  unfold mbind, M_bind, bind. now rewrite He.
Qed.

Lemma disorders_step (data_dict : DataDict) (st : St) r (st' : St) :
  Uploader.upload_category (disorders data_dict)
    Uploader.prepare_disorder_documents "mental_health_disorders" st = (r, st') →
  sends ["mental_health_disorders"] st st'.
Proof.
  apply upload_category_sends. intros rs texts metadatas ids Hprep.
  apply for_each_lengths in Hprep. simpl in Hprep. tauto.
Qed.

Lemma screenings_step (data_dict : DataDict) (st : St) r (st' : St) :
  Uploader.upload_category (screenings data_dict)
    Uploader.prepare_screening_documents "mental_health_screenings" st = (r, st') →
  sends ["mental_health_screenings"] st st'.
Proof.
  apply upload_category_sends. intros rs texts metadatas ids Hprep.
  apply for_each_lengths in Hprep. simpl in Hprep. tauto.
Qed.

Lemma responses_step (data_dict : DataDict) (st : St) r (st' : St) :
  Uploader.upload_category (responses data_dict)
    Uploader.prepare_response_templates "mental_health_responses" st = (r, st') →
  sends ["mental_health_responses"] st st'.
Proof.
  apply upload_category_sends. intros rs texts metadatas ids Hprep.
  apply for_each_lengths in Hprep. simpl in Hprep. tauto.
Qed.

Lemma colloquial_step (data_dict : DataDict) (st : St) r (st' : St) :
  Uploader.upload_category (colloquial data_dict)
    Uploader.prepare_colloquial_expressions "mental_health_colloquial" st = (r, st') →
  sends ["mental_health_colloquial"] st st'.
Proof.
  apply upload_category_sends. intros rs texts metadatas ids Hprep.
  apply for_each_lengths in Hprep. simpl in Hprep. tauto.
Qed.

(** X25. Whatever the data and however the upload ends, the upserts that
    [upload_all_data] makes go to the four collections of the data sets
    and to no other, in the order disorders, screenings, responses,
    colloquial, at most one upsert to each; and every one of them is made
    with texts, metadatas and ids of one length. *)
Theorem upload_all_data_sends_well_formed_batches (data_dict : DataDict)
    (st st' : St) (r : PyExc + unit) :
  Uploader.upload_all_data data_dict st = (r, st') →
  sends [ "mental_health_disorders"; "mental_health_screenings";
          "mental_health_responses"; "mental_health_colloquial" ] st st'.
Proof.
  unfold Uploader.upload_all_data.
  apply (seq_sends _ _ ["mental_health_disorders"]
           ["mental_health_screenings"; "mental_health_responses";
            "mental_health_colloquial"]); [apply disorders_step |].
  apply (seq_sends _ _ ["mental_health_screenings"]
           ["mental_health_responses"; "mental_health_colloquial"]);
    [apply screenings_step |].
  apply (seq_sends _ _ ["mental_health_responses"] ["mental_health_colloquial"]);
    [apply responses_step | apply colloquial_step].
Qed.

(** X26. The upload stops at the first data set with a record that lacks
    a key, and nothing is undone: [upload_all_data] raises, the data sets
    before it may have been sent, and no data set after it is sent, nor
    the incomplete one itself. *)
Theorem upload_all_data_stops_at_incomplete_data (data_dict : DataDict)
    (st st' : St) (r : PyExc + unit) :
  Uploader.upload_all_data data_dict st = (r, st') →
  (∀ rs, disorders data_dict = Some rs →
         forallb disorder_complete rs = false →
         (∃ e, r = inl e) ∧ st' = st)
  ∧ (∀ rs, screenings data_dict = Some rs →
           forallb screening_complete rs = false →
           (∃ e, r = inl e) ∧ sends ["mental_health_disorders"] st st')
  ∧ (∀ rs, responses data_dict = Some rs →
           forallb response_complete rs = false →
           (∃ e, r = inl e)
           ∧ sends ["mental_health_disorders"; "mental_health_screenings"] st st')
  ∧ (∀ rs, colloquial data_dict = Some rs →
           forallb colloquial_complete rs = false →
           (∃ e, r = inl e)
           ∧ sends ["mental_health_disorders"; "mental_health_screenings";
                    "mental_health_responses"] st st').
Proof.
  unfold Uploader.upload_all_data. intros Hrun.
  split; [| split; [| split]]; intros rs Hrs Hbad; rewrite Hrs in Hrun.
  - assert (∀ s : St, ∃ e,
              Uploader.upload_category (Some rs)
                Uploader.prepare_disorder_documents "mental_health_disorders" s
              = (inl e, s)) as Hstop.
    { intros s. apply upload_category_incomplete. intros Hout.
      apply (for_each_returns _ _ _ _ disorder_document_returns) in Hout.
      congruence. }
    destruct (stops_first _
                (Uploader.upload_category (screenings data_dict)
                   Uploader.prepare_screening_documents "mental_health_screenings";;
                 Uploader.upload_category (responses data_dict)
                   Uploader.prepare_response_templates "mental_health_responses";;
                 Uploader.upload_category (colloquial data_dict)
                   Uploader.prepare_colloquial_expressions
                   "mental_health_colloquial") Hstop st) as [e He].
    rewrite He in Hrun. inversion Hrun; subst. eauto.
  - assert (∀ s : St, ∃ e,
              Uploader.upload_category (Some rs)
                Uploader.prepare_screening_documents "mental_health_screenings" s
              = (inl e, s)) as Hstop.
    { intros s. apply upload_category_incomplete. intros Hout.
      apply (for_each_returns _ _ _ _ screening_document_returns) in Hout.
      congruence. }
    revert Hrun. apply seq_stops; [apply disorders_step |].
    now apply stops_first.
  - assert (∀ s : St, ∃ e,
              Uploader.upload_category (Some rs)
                Uploader.prepare_response_templates "mental_health_responses" s
              = (inl e, s)) as Hstop.
    { intros s. apply upload_category_incomplete. intros Hout.
      apply (for_each_returns _ _ _ _ response_template_document_returns) in Hout.
      congruence. }
    revert Hrun. unfold mbind at 1, M_bind at 1, bind at 1.
    destruct (Uploader.upload_category (disorders data_dict) _ _ st)
      as [[e | []] s1] eqn:H1; pose proof (disorders_step _ _ _ _ H1) as Hs1.
    { intros Heq; inversion Heq; subst. split; [eauto |].
      apply (sends_weaken _ _ _ _ Hs1). now apply (sublist_inserts_r [_] _ [_]). }
    intros Hrun.
    apply (seq_stops _ _ _ (screenings_step data_dict)
             (stops_first _ _ Hstop)) in Hrun as [Hr Hs2].
    split; [assumption |].
    apply (sends_trans ["mental_health_disorders"] ["mental_health_screenings"]
             st s1 st' Hs1 Hs2).
  - assert (∀ s : St, ∃ e,
              Uploader.upload_category (Some rs)
                Uploader.prepare_colloquial_expressions "mental_health_colloquial" s
              = (inl e, s)) as Hstop.
    { intros s. apply upload_category_incomplete. intros Hout.
      apply (for_each_returns _ _ _ _ colloquial_document_returns) in Hout.
      congruence. }
    revert Hrun. unfold mbind at 1, M_bind at 1, bind at 1.
    destruct (Uploader.upload_category (disorders data_dict) _ _ st)
      as [[e | []] s1] eqn:H1; pose proof (disorders_step _ _ _ _ H1) as Hs1.
    { intros Heq; inversion Heq; subst. split; [eauto |].
      apply (sends_weaken _ _ _ _ Hs1).
      now apply (sublist_inserts_r [_; _] _ [_]). }
    unfold mbind at 1, M_bind at 1, bind at 1.
    destruct (Uploader.upload_category (screenings data_dict) _ _ s1)
      as [[e | []] s2] eqn:H2; pose proof (screenings_step _ _ _ _ H2) as Hs2.
    { intros Heq; inversion Heq; subst. split; [eauto |].
      apply (sends_weaken ["mental_health_disorders"; "mental_health_screenings"]).
      - apply (sends_trans ["mental_health_disorders"]
                 ["mental_health_screenings"] st s1 st' Hs1 Hs2).
      - now apply (sublist_inserts_r [_] _ [_; _]). }
    intros Hrun.
    apply (seq_stops _ _ _ (responses_step data_dict) Hstop) in Hrun as [Hr Hs3].
    split; [assumption |].
    apply (sends_trans ["mental_health_disorders"; "mental_health_screenings"]
             ["mental_health_responses"] st s2 st'); [| assumption].
    apply (sends_trans ["mental_health_disorders"] ["mental_health_screenings"]
             st s1 s2 Hs1 Hs2).
Qed.

(** X27. With nothing to send, nothing is called: when each of the four
    keys is missing from the dictionary or bound to an empty list,
    [upload_all_data] returns and has called neither the store nor
    anything else; no collection is created for an empty data set. *)
Theorem upload_all_data_nothing_to_send (data_dict : DataDict) (st : St) :
  (disorders data_dict = None ∨ disorders data_dict = Some []) →
  (screenings data_dict = None ∨ screenings data_dict = Some []) →
  (responses data_dict = None ∨ responses data_dict = Some []) →
  (colloquial data_dict = None ∨ colloquial data_dict = Some []) →
  Uploader.upload_all_data data_dict st = (inr tt, st).
Proof.
  unfold Uploader.upload_all_data.
  intros [-> | ->] [-> | ->] [-> | ->] [-> | ->]; destruct st as [[svc] w];
    reflexivity.
Qed.

End Upload_all.

Section Prepare_ids.
Context `{!JsonLib}.

Lemma prefixed_ids_distinct {R} (id_field : R → option string) (prefix : string)
    (records : list R) :
  Forall (λ r, is_Some (id_field r)) records →
  NoDup (id_field <$> records) →
  NoDup ((λ r, prefix +:+ the (id_field r)) <$> records).
Proof.
  intros Hsome Hnodup.
  apply NoDup_fmap_2_strong.
  - intros x y Hx Hy Heq.
    rewrite Forall_forall in Hsome.
    destruct (Hsome _ Hx) as [a Ha], (Hsome _ Hy) as [b Hb].
    rewrite Ha, Hb in Heq. simpl in Heq.
    assert (a = b) as ->.
    { clear -Heq. induction prefix as [| c p IH]; simpl in Heq;
        [assumption | inversion Heq; auto]. }
    assert (id_field x = id_field y) as Hid by congruence.
    clear -Hnodup Hx Hy Hid.
    induction records as [| r rest IH]; [now apply elem_of_nil in Hx |].
    rewrite fmap_cons in Hnodup. apply NoDup_cons in Hnodup as [Hnot Hrest].
    apply elem_of_cons in Hx as [-> | Hx], Hy as [-> | Hy]; auto.
    + exfalso. apply Hnot. rewrite Hid. now apply list_elem_of_fmap_2.
    + exfalso. apply Hnot. rewrite <- Hid. now apply list_elem_of_fmap_2.
  - eapply NoDup_fmap_1. eassumption.
Qed.

Lemma complete_has_id {R} (ok : R → bool) (id_field : R → option string)
    (records : list R) :
  (∀ r, ok r = true → is_Some (id_field r)) →
  forallb ok records = true →
  Forall (λ r, is_Some (id_field r)) records.
Proof.
  intros Hok Hall. apply Forall_forall. intros r Hr.
  apply Hok. rewrite forallb_forall in Hall. apply Hall.
  now apply list_elem_of_In.
Qed.

(** X28. Records with pairwise different ids are given pairwise
    different document ids, by each of the four [prepare_...] methods: a
    batch never repeats an id unless the data does. *)
Theorem prepared_ids_are_distinct :
  (∀ records texts metadatas ids,
     NoDup (dis_id <$> records) →
     Uploader.prepare_disorder_documents records = inr (texts, metadatas, ids) →
     NoDup ids)
  ∧ (∀ records texts metadatas ids,
       NoDup (scr_id <$> records) →
       Uploader.prepare_screening_documents records = inr (texts, metadatas, ids) →
       NoDup ids)
  ∧ (∀ records texts metadatas ids,
       NoDup (res_id <$> records) →
       Uploader.prepare_response_templates records = inr (texts, metadatas, ids) →
       NoDup ids)
  ∧ (∀ records texts metadatas ids,
       NoDup (col_id <$> records) →
       Uploader.prepare_colloquial_expressions records
       = inr (texts, metadatas, ids) →
       NoDup ids).
Proof.
  split; [| split; [| split]]; intros records texts metadatas ids Hnodup Hprep.
  - rewrite (for_each_ids _ _ _ _ _ _ _ _ _ disorder_document_id Hprep). simpl.
    apply prefixed_ids_distinct; [| assumption].
    apply (complete_has_id disorder_complete).
    + intros r Hr. unfold disorder_complete in Hr.
      destruct (dis_id r); [eauto | discriminate].
    + apply (for_each_returns _ _ records ([], [], []) disorder_document_returns).
      eexists. exact Hprep.
  - rewrite (for_each_ids _ _ _ _ _ _ _ _ _ screening_document_id Hprep). simpl.
    apply prefixed_ids_distinct; [| assumption].
    apply (complete_has_id screening_complete).
    + intros r Hr. unfold screening_complete in Hr.
      destruct (scr_id r); [eauto | discriminate].
    + apply (for_each_returns _ _ records ([], [], []) screening_document_returns).
      eexists. exact Hprep.
  - rewrite (for_each_ids _ _ _ _ _ _ _ _ _ response_template_document_id Hprep).
    simpl. apply prefixed_ids_distinct; [| assumption].
    apply (complete_has_id response_complete).
    + intros r Hr. unfold response_complete in Hr.
      destruct (res_id r); [eauto | discriminate].
    + apply (for_each_returns _ _ records ([], [], []) response_template_document_returns).
      eexists. exact Hprep.
  - rewrite (for_each_ids _ _ _ _ _ _ _ _ _ colloquial_document_id Hprep). simpl.
    apply prefixed_ids_distinct; [| assumption].
    apply (complete_has_id colloquial_complete).
    + intros r Hr. unfold colloquial_complete in Hr.
      destruct (col_id r); [eauto | discriminate].
    + apply (for_each_returns _ _ records ([], [], []) colloquial_document_returns).
      eexists. exact Hprep.
Qed.

End Prepare_ids.

(** ** The further properties on the reference backend *)

Section Reference_runs_more.

Lemma get_chroma_service_checks_database_witness :
  @Chroma.get_chroma_service Ref.State Sample.unnamed
  = inl (ValueError "CHROMA_DATABASE no configurada.")
  ∧ @Chroma.get_chroma_service Ref.State Ref.backend = inr Ref.service0
  ∧ database (@Chroma.ChromaConfig_new Ref.State Ref.backend) = "Development".
Proof.
  split; [| split].
  - apply (proj1 (@get_chroma_service_checks_database Ref.State Sample.unnamed)).
    reflexivity.
  - apply (proj1 (proj2 (@get_chroma_service_checks_database Ref.State Ref.backend))).
    discriminate.
  - apply (proj2 (proj2 (@get_chroma_service_checks_database Ref.State Ref.backend))).
    reflexivity.
Defined.

Lemma create_client_requires_credentials_witness :
  Chroma._create_client (Ref.service0, Sample.world_no_credentials)
  = (inl (ValueError
       "CHROMA_API_KEY, CHROMA_TENANT_ID o CHROMA_DATABASE_NAME no configuradas."),
     (Ref.service0, Sample.world_no_credentials))
  ∧ fst (Chroma._create_client (Ref.service0, Ref.world0))
    = inr (mkCloudClient "ck-test" "tenant" "Development").
Proof.
  split.
  - apply (proj1 (create_client_requires_credentials Ref.service0
                    Sample.world_no_credentials)).
    reflexivity.
  - destruct (proj2 (create_client_requires_credentials Ref.service0 Ref.world0)
                (mkCloudClient "ck-test" "tenant" "Development")
                (snd (Chroma._create_client (Ref.service0, Ref.world0))))
      as (Hk & _); [vm_compute; reflexivity |].
    vm_compute. reflexivity.
Defined.

Lemma store_operations_need_credentials_witness :
  let st := (Ref.service0, Sample.world_no_credentials) in
  let failed {A} : (PyExc + A) * (ChromaService * World Ref.State) :=
    (inl (ValueError
       "CHROMA_API_KEY, CHROMA_TENANT_ID o CHROMA_DATABASE_NAME no configuradas."),
     st) in
  Chroma.query "mental_health_screenings" ["insomnio"] 3 st = failed
  ∧ Chroma.add_texts ["texto"] "mental_health_screenings" [[]] ["doc-1"] st = failed
  ∧ Chroma.upsert_texts ["texto"] "mental_health_screenings" [[]] ["doc-1"] st
    = failed
  ∧ Chroma.reset_collection "mental_health_screenings" st = failed.
Proof.
  intros st failed.
  destruct (store_operations_need_credentials Ref.service0
              Sample.world_no_credentials "mental_health_screenings"
              ["texto"] ["insomnio"] [[]] ["doc-1"] 3)
    as (Hq & Hadd & Hup & Hreset); [vm_compute; reflexivity |].
  split; [exact Hq |]. split; [apply Hadd; discriminate |].
  split; [apply Hup; discriminate | apply Hreset; reflexivity].
Defined.

Lemma client_is_cached_witness :
  let st1 := snd (Chroma.client (Ref.service0, Ref.world0)) in
  let c := mkCloudClient "ck-test" "tenant" "Development" in
  _client (fst st1) = Some c ∧ Chroma.client st1 = (inr c, st1).
Proof.
  intros st1 c.
  apply (client_is_cached (Ref.service0, Ref.world0) st1 c).
  vm_compute. reflexivity.
Defined.

Lemma collection_handle_is_fixed_witness :
  let st := (Ref.service0, Ref.world0) in
  let r := Chroma._get_or_create_collection "mental_health_screenings" st in
  ∃ c, fst r = inr c
       ∧ coll_name c = "mental_health_screenings"
       ∧ coll_embedding_function c
         = mkEmbeddingFunction "sk-test" "text-embedding-3-small"
       ∧ coll_configuration c = mkHnsw "cosine" 200
       ∧ fst (snd r) = Ref.service0.
Proof.
  intros st r.
  pose (c := mkCollection (mkCloudClient "ck-test" "tenant" "Development")
               "mental_health_screenings"
               (mkEmbeddingFunction "sk-test" "text-embedding-3-small")
               Chroma.hnsw_cosine).
  assert (r = (inr c, snd r)) as Hr by (vm_compute; reflexivity).
  exists c. split; [now rewrite Hr |].
  destruct (collection_handle_is_fixed "mental_health_screenings" st (snd r) c Hr)
    as (Hname & Hef & Hcfg & Hself & _).
  repeat split; assumption.
Defined.

Lemma collection_needs_openai_key_witness :
  ∃ e st',
    Chroma._get_or_create_collection "mental_health_screenings"
      (Sample.service_no_key, Ref.world0) = (inl e, st')
    ∧ fst st' = Sample.service_no_key
    ∧ store_calls (trace (snd st')) = [].
Proof.
  destruct (collection_needs_openai_key "mental_health_screenings"
              (Sample.service_no_key, Ref.world0))
    as (e & st' & Hrun & Hself & Hcalls & _); [reflexivity |].
  exists e, st'. repeat split; assumption.
Defined.

End Reference_runs_more.

Section Reference_runs_store.

Lemma reset_collection_recreates_witness :
  let st := (Ref.service0, Ref.world1) in
  let r := Chroma.reset_collection "mental_health_screenings" st in
  fst r = inr tt
  ∧ Ref.collections (ext (snd (snd r))) !! "mental_health_screenings" = Some []
  ∧ (coll_name <$> collection (fst (snd r))) = Some "mental_health_screenings"
  ∧ store_calls (trace (snd (snd r)))
    = [ EvDeleteCollection (mkCloudClient "ck-test" "tenant" "Development")
          "mental_health_screenings";
        EvGetOrCreateCollection (mkCloudClient "ck-test" "tenant" "Development")
          "mental_health_screenings" ].
Proof.
  intros st r.
  pose (c := mkCloudClient "ck-test" "tenant" "Development").
  pose (st1 := snd (Chroma.client st)).
  pose (e' := Ref.with_collections Ref.state1 ∅).
  pose (col := mkCollection c "mental_health_screenings"
                 (mkEmbeddingFunction "sk-test" "text-embedding-3-small")
                 Chroma.hnsw_cosine).
  pose (st2 := snd (Chroma._get_or_create_collection "mental_health_screenings"
                      (fst st1,
                       mkWorld e' (trace (snd st1)
                                     ++ [EvDeleteCollection c
                                           "mental_health_screenings"])))).
  destruct (reset_collection_recreates "mental_health_screenings"
              st st1 st2 c e' col)
    as (self' & Hrun & Hcol & Hname & Hcfg & Hcalls);
    [vm_compute; reflexivity | vm_compute; reflexivity
     | vm_compute; reflexivity |].
  unfold r. rewrite Hrun. simpl. rewrite Hcol.
  split; [reflexivity |]. split; [vm_compute; reflexivity |].
  split; [reflexivity |]. rewrite Hcalls. vm_compute. reflexivity.
Defined.

Lemma reset_collection_can_lose_the_collection_witness :
  let st := (Sample.service_no_key, Ref.world1) in
  let r := Chroma.reset_collection "mental_health_screenings" st in
  (∃ err, fst r = inl err)
  ∧ Ref.collections (ext Ref.world1) !! "mental_health_screenings"
    = Some Ref.screening_docs
  ∧ Ref.collections (ext (snd (snd r))) !! "mental_health_screenings" = None
  ∧ collection (fst (snd r)) = None.
Proof.
  intros st r.
  pose (c := mkCloudClient "ck-test" "tenant" "Development").
  pose (st1 := snd (Chroma.client st)).
  pose (e' := Ref.with_collections Ref.state1 ∅).
  destruct (reset_collection_can_lose_the_collection "mental_health_screenings"
              st st1 c e')
    as (err & st' & Hrun & Hcol & Hcalls);
    [vm_compute; reflexivity | vm_compute; reflexivity | reflexivity |].
  split; [exists err; unfold r; now rewrite Hrun |].
  split; [vm_compute; reflexivity |].
  split; vm_compute; reflexivity.
Defined.

Lemma add_texts_defers_to_store_witness :
  let st := (Ref.service0, Ref.world0) in
  let r := Chroma.add_texts ["texto"] "mental_health_disorders" []
             ["doc-1"; "doc-2"] st in
  fst r = inl (ValueError "Unequal lengths for fields")
  ∧ fst (Chroma.add_texts ["texto"] "mental_health_disorders" []
           ["doc-1"; "doc-2"] (Sample.service_no_key, Ref.world0))
    = inl (ValueError
        "OPENAI_API_KEY no configurada y EMBEDDINGS_PROVIDER=openai.").
Proof.
  intros st r.
  pose (st1 := snd (Chroma._get_or_create_collection "mental_health_disorders" st)).
  pose (c := mkCollection (mkCloudClient "ck-test" "tenant" "Development")
               "mental_health_disorders"
               (mkEmbeddingFunction "sk-test" "text-embedding-3-small")
               Chroma.hnsw_cosine).
  destruct (add_texts_defers_to_store ["texto"] "mental_health_disorders" []
              ["doc-1"; "doc-2"] st) as [Hstore _]; [discriminate |].
  destruct (add_texts_defers_to_store ["texto"] "mental_health_disorders" []
              ["doc-1"; "doc-2"] (Sample.service_no_key, Ref.world0))
    as [_ Hraise]; [discriminate |].
  split.
  - unfold r.
    rewrite (Hstore c st1 (inl (ValueError "Unequal lengths for fields"))
               (ext (snd st1))); [reflexivity | vm_compute; reflexivity
                                  | vm_compute; reflexivity].
  - erewrite Hraise; [reflexivity | vm_compute; reflexivity].
Defined.

Lemma buscar_propagates_store_errors_witness :
  let st := (Ref.service0, Ref.world1) in
  fst (@AgenteExamenes.buscar_conocimiento_con_RAG Ref.State Sample.offline
         "insomnio" st)
  = inl (mkExc "ChromaError" "Service unavailable")
  ∧ fst (AgenteExamenes.buscar_conocimiento_con_RAG "insomnio"
           (Ref.service0, Sample.world_no_credentials))
    = inl (ValueError
        "CHROMA_API_KEY, CHROMA_TENANT_ID o CHROMA_DATABASE_NAME no configuradas.").
Proof.
  intros st.
  pose (c := mkCollection (mkCloudClient "ck-test" "tenant" "Development")
               "mental_health_screenings"
               (mkEmbeddingFunction "sk-test" "text-embedding-3-small")
               Chroma.hnsw_cosine).
  pose (st1 := snd (@Chroma._get_or_create_collection Ref.State Sample.offline
                      "mental_health_screenings" st)).
  destruct (@buscar_propagates_store_errors Ref.State Sample.offline
              "insomnio" st) as [Hquery _].
  destruct (buscar_propagates_store_errors "insomnio"
              (Ref.service0, Sample.world_no_credentials)) as [_ Hcol].
  split.
  - rewrite (Hquery c st1 (mkExc "ChromaError" "Service unavailable")
               (ext (snd st1))); [reflexivity | vm_compute; reflexivity
                                  | vm_compute; reflexivity].
  - erewrite Hcol; [reflexivity | vm_compute; reflexivity].
Defined.

Lemma buscar_sentinel_exactly_witness :
  let st := (Ref.service0, Ref.world1) in
  ∃ text,
    fst (AgenteExamenes.buscar_conocimiento_con_RAG "insomnio" st) = inr text
    ∧ text ≠ "No se encontró información relevante.".
Proof.
  intros st.
  pose (st' := snd (Chroma.query (value EXAMENES_DE_SALUD_MENTAL) ["insomnio"] 3 st)).
  pose (results :=
          mkQueryResult [["phq9"; "isi"]]
            (Some [[ "PHQ-9: cuestionario de nueve preguntas sobre depresión.";
                     "ISI: índice de severidad del insomnio." ]])).
  destruct (buscar_sentinel_exactly "insomnio" st st' results)
    as (text & Hrun & Hiff & _); [vm_compute; reflexivity |].
  exists text. split; [now rewrite Hrun |].
  intros Htext. apply Hiff in Htext as [Hnone | Hempty]; discriminate.
Defined.

Lemma distinct_users_distinct_sessions_witness :
  session_id (mkSQLiteSession "session_u1" "conversations.db")
  ≠ session_id (mkSQLiteSession "session_u2" "conversations.db")
  ∧ db_path (mkSQLiteSession "session_u1" "conversations.db")
    = db_path (mkSQLiteSession "session_u2" "conversations.db").
Proof.
  apply (distinct_users_distinct_sessions "u1" "u2" Ref.world0 Ref.world0
           (snd (Message.create_and_get_session_id "u1" Ref.world0))
           (snd (Message.create_and_get_session_id "u2" Ref.world0)));
    [discriminate | reflexivity | reflexivity].
Defined.

End Reference_runs_store.

Section Reference_runs_turn.

Lemma agentPsychology_wraps_first_error_witness :
  let pca := mkPsychologyClinicAgent "gpt-5-mini" Ref.service0 in
  ∃ e0,
    fst (@AgentePrincipal.agentPsychology Ref.State Sample.broken_siblings
           pca "u1" "hola" Ref.world0)
    = inl (RuntimeError ("Error al procesar mensaje: " +:+ exc_str e0))
    ∧ exc_str e0 = "No module named prompts".
Proof.
  intros pca.
  destruct (@agentPsychology_wraps_first_error Ref.State
              Sample.broken_siblings pca "u1" "hola" Ref.world0 Ref.world0
              (RuntimeError "Error al procesar mensaje: No module named prompts"))
    as (e0 & He0 & Hwho); [reflexivity |].
  exists e0. split.
  - now rewrite <- He0.
  - inversion He0 as [Htext]. symmetry. exact Htext.
Defined.

Lemma generate_response_keeps_session_witness :
  let r := Orq.generate_response (Sample.orq_u1, Ref.world0) in
  fst (snd r) = Sample.orq_u1
  ∧ sessions_opened (trace (snd (snd r))) = [].
Proof.
  intros r.
  apply (generate_response_keeps_session Sample.orq_u1 Ref.world0
           (mkSQLiteSession "session_u1" "conversations.db")
           (turn_payload (mkRunResult "Te escucho.")
              [mkItem "user" "hola"; mkItem "assistant" "Te escucho."])
           (snd r));
    [reflexivity | vm_compute; reflexivity].
Defined.

Lemma generate_response_opens_user_session_witness :
  let r := Orq.generate_response (Orq.__init__ "u1" "hola", Ref.world0) in
  let s := mkSQLiteSession "session_u1" "conversations.db" in
  user_id (fst (snd r)) = "u1"
  ∧ message (fst (snd r)) = "hola"
  ∧ sessions_opened (trace (snd (snd r))) = [s]
  ∧ history (fst (snd r)) = Some s.
Proof.
  intros r s.
  destruct (generate_response_opens_user_session (Orq.__init__ "u1" "hola")
              Ref.world0
              (turn_payload (mkRunResult "Te escucho.")
                 [mkItem "user" "hola"; mkItem "assistant" "Te escucho."])
              (snd r))
    as (Huid & Hmsg & Hopened & Hhist);
    [reflexivity | vm_compute; reflexivity |].
  repeat split; assumption.
Defined.

Lemma runtime_gets_message_and_session_witness :
  let r := Orq.generate_response (Orq.__init__ "u1" "hola", Ref.world0) in
  runs_of (trace (snd (snd r)))
  = [("hola", Some (mkSQLiteSession "session_u1" "conversations.db"))].
Proof.
  intros r.
  destruct (runtime_gets_message_and_session (Orq.__init__ "u1" "hola")
              Ref.world0
              (turn_payload (mkRunResult "Te escucho.")
                 [mkItem "user" "hola"; mkItem "assistant" "Te escucho."])
              (snd r))
    as (runs & Hruns & Hshape & _ & Hok); [vm_compute; reflexivity |].
  rewrite Hruns. simpl.
  destruct Hshape as [-> | ->]; [| vm_compute; reflexivity].
  exfalso. now apply Hok.
Defined.


End Reference_runs_turn.

Section Reference_runs_http.

Lemma accepted_request_ok : accepted Sample.request_ok "hola" "u1".
Proof.
  split; [reflexivity |].
  exists {[ "messages" := "hola"; "user_id" := "u1" ]}.
  repeat split; try discriminate; vm_compute; reflexivity.
Qed.

Lemma chat_agent_http_rejects_witness :
  status (AgentChatHttp.failure 405
            "Método no permitido. Solo se permiten solicitudes POST.") = 405%Z
  ∧ AgentChatHttp.chat_agent_http Sample.request_get Ref.world0
    = (inr (AgentChatHttp.failure 405
              "Método no permitido. Solo se permiten solicitudes POST."),
       Ref.world0)
  ∧ AgentChatHttp.chat_agent_http (mkRequest "POST" None) Ref.world0
    = (inr (AgentChatHttp.failure 400
              "Petición inválida: No se encontró el cuerpo JSON"), Ref.world0)
  ∧ AgentChatHttp.chat_agent_http Sample.request_no_user Ref.world0
    = (inr (AgentChatHttp.failure 400
              "Petición inválida: Faltan campos requeridos 'messages' o 'user_id'"),
       Ref.world0).
Proof.
  split; [reflexivity |]. split; [| split].
  - apply (proj1 (chat_agent_http_rejects Sample.request_get Ref.world0)).
    discriminate.
  - apply (proj1 (proj2 (chat_agent_http_rejects (mkRequest "POST" None)
                           Ref.world0))); [reflexivity | now left].
  - apply (proj2 (proj2 (chat_agent_http_rejects Sample.request_no_user
                           Ref.world0)) {[ "messages" := "hola" ]});
      [reflexivity | reflexivity | | right; right; left; vm_compute; reflexivity].
    intros Hempty.
    assert (({[ "messages" := "hola" ]} : gmap string string) !! "messages"
            = None) as Hc by (rewrite Hempty; apply lookup_empty).
    rewrite lookup_singleton_eq in Hc. discriminate.
Defined.

Lemma chat_agent_http_hides_the_error_witness :
  ∃ w',
    AgentChatHttp.chat_agent_http Sample.request_ok Ref.world_down
    = (inr (AgentChatHttp.failure 500 "'respuesta'"), w').
Proof.
  assert (step_raises (Orq.__init__ "u1" "hola", Ref.world_down)
            (mkExc "APIConnectionError" "Connection error.")) as Hstep.
  { eapply later_step_raises; [reflexivity | vm_compute; reflexivity |].
    eapply runtime_turn_raises; [reflexivity | reflexivity | |];
      vm_compute; reflexivity. }
  destruct (chat_agent_http_hides_the_error Sample.request_ok "hola" "u1"
              Ref.world_down _ accepted_request_ok Hstep) as (w' & Hrun & _).
  exists w'. exact Hrun.
Defined.

Lemma chat_agent_http_returns_the_turn_witness :
  fst (AgentChatHttp.chat_agent_http Sample.request_ok Ref.world0)
  = inr (turn_response (VStr "Te escucho.")
           (VItems [mkItem "user" "hola"; mkItem "assistant" "Te escucho."])).
Proof.
  pose (r := Orq.generate_response (Orq.__init__ "u1" "hola", Ref.world0)).
  pose (d := turn_payload (mkRunResult "Te escucho.")
               [mkItem "user" "hola"; mkItem "assistant" "Te escucho."]).
  destruct (chat_agent_http_returns_the_turn Sample.request_ok "hola" "u1"
              Ref.world0 d (snd r) accepted_request_ok)
    as (result & items & Hd & Hrun & _);
    [vm_compute; reflexivity | reflexivity |].
  rewrite Hrun. simpl.
  assert (turn_payload result items !! "respuesta" = d !! "respuesta") as H1
    by now rewrite Hd.
  assert (turn_payload result items !! "historial" = d !! "historial") as H2
    by now rewrite Hd.
  unfold d, turn_payload in H1, H2.
  rewrite !lookup_insert_eq in H1.
  rewrite !lookup_insert_ne, !lookup_singleton_eq in H2 by discriminate.
  injection H1 as Hout. injection H2 as Hitems.
  simpl in Hout. rewrite Hout, Hitems. reflexivity.
Defined.

End Reference_runs_http.

Section Reference_runs_upload.

Lemma prepared_lists_have_one_length_witness :
  ∃ texts metadatas ids,
    Uploader.prepare_disorder_documents [Sample.gad; Sample.panic]
    = inr (texts, metadatas, ids)
    ∧ length texts = 2%nat ∧ length metadatas = 2%nat ∧ length ids = 2%nat.
Proof.
  destruct (Uploader.prepare_disorder_documents [Sample.gad; Sample.panic])
    as [e | [[texts metadatas] ids]] eqn:Hprep; [vm_compute in Hprep; discriminate |].
  exists texts, metadatas, ids. split; [reflexivity |].
  apply (proj1 prepared_lists_have_one_length [Sample.gad; Sample.panic]
           texts metadatas ids Hprep).
Defined.

Lemma prepared_ids_follow_the_records_witness :
  ∃ texts metadatas,
    Uploader.prepare_disorder_documents [Sample.gad; Sample.panic]
    = inr (texts, metadatas, ["disorder_gad"; "disorder_panic"]).
Proof.
  destruct (Uploader.prepare_disorder_documents [Sample.gad; Sample.panic])
    as [e | [[texts metadatas] ids]] eqn:Hd; [vm_compute in Hd; discriminate |].
  exists texts, metadatas.
  now rewrite (proj1 prepared_ids_follow_the_records _ _ _ _ Hd).
Defined.

Lemma prepare_needs_every_key_witness :
  (∃ out, Uploader.prepare_screening_documents [Sample.scr_gad] = inr out)
  ∧ ∃ e, Uploader.prepare_screening_documents
           [Sample.scr_gad; Sample.scr_incomplete] = inl e
         ∧ exc_type e = "KeyError".
Proof.
  destruct (proj1 (proj2 prepare_needs_every_key) [Sample.scr_gad])
    as [Hreturns _].
  destruct (proj1 (proj2 prepare_needs_every_key)
              [Sample.scr_gad; Sample.scr_incomplete]) as [_ Hraises].
  split; [apply Hreturns; reflexivity |].
  destruct (Uploader.prepare_screening_documents
              [Sample.scr_gad; Sample.scr_incomplete]) as [e | out] eqn:Hprep;
    [| vm_compute in Hprep; discriminate].
  exists e. split; [reflexivity | now apply Hraises].
Defined.

Lemma prepared_ids_are_distinct_witness :
  ∃ texts metadatas ids,
    Uploader.prepare_disorder_documents [Sample.gad; Sample.panic]
    = inr (texts, metadatas, ids)
    ∧ NoDup ids.
Proof.
  destruct (Uploader.prepare_disorder_documents [Sample.gad; Sample.panic])
    as [e | [[texts metadatas] ids]] eqn:Hprep; [vm_compute in Hprep; discriminate |].
  exists texts, metadatas, ids. split; [reflexivity |].
  apply (proj1 prepared_ids_are_distinct [Sample.gad; Sample.panic]
           texts metadatas ids); [| exact Hprep].
  simpl. repeat constructor; rewrite ?elem_of_cons, ?elem_of_nil;
    intros Hin; decompose [or] Hin; discriminate || assumption.
Defined.

Lemma upload_all_data_sends_well_formed_batches_witness :
  let st := (Sample.uploader0, Ref.world0) in
  let r := Uploader.upload_all_data Sample.data_all st in
  fst r = inr tt
  ∧ (λ u, u.1.1.1) <$> upserts_of (trace (snd (snd r)))
    = [ "mental_health_disorders"; "mental_health_screenings";
        "mental_health_responses"; "mental_health_colloquial" ]
  ∧ sends [ "mental_health_disorders"; "mental_health_screenings";
            "mental_health_responses"; "mental_health_colloquial" ] st (snd r).
Proof.
  intros st r.
  split; [vm_compute; reflexivity |]. split; [vm_compute; reflexivity |].
  apply (upload_all_data_sends_well_formed_batches Sample.data_all st (snd r)
           (fst r)).
  apply surjective_pairing.
Defined.

Lemma upload_all_data_stops_at_incomplete_data_witness :
  let st := (Sample.uploader0, Ref.world0) in
  let r := Uploader.upload_all_data Sample.data_incomplete st in
  (∃ e, fst r = inl e)
  ∧ (λ u, u.1.1.1) <$> upserts_of (trace (snd (snd r)))
    = ["mental_health_disorders"]
  ∧ sends ["mental_health_disorders"] st (snd r).
Proof.
  intros st r.
  destruct (upload_all_data_stops_at_incomplete_data Sample.data_incomplete
              st (snd r) (fst r)) as (_ & Hscr & _);
    [apply surjective_pairing |].
  destruct (Hscr [Sample.scr_gad; Sample.scr_incomplete]) as [Hraise Hsends];
    [reflexivity | reflexivity |].
  split; [assumption |]. split; [vm_compute; reflexivity | assumption].
Defined.

Lemma upload_all_data_nothing_to_send_witness :
  Uploader.upload_all_data Sample.data_empty (Sample.uploader0, Ref.world0)
  = (inr tt, (Sample.uploader0, Ref.world0)).
Proof.
  apply (upload_all_data_nothing_to_send Sample.data_empty
           (Sample.uploader0, Ref.world0));
    [now right | now left | now right | now left].
Defined.

End Reference_runs_upload.
